(** * SignalDesktopRegister: a shallow embedding of [register.py]

    The development follows the classes of the script: [GithubUtils],
    [FileUtils], [JavaUtils], [SignalCLISetup] and [SignalCLIInteraction].
    A Python [str] is modelled as a [string] that holds the text in its
    UTF-8 spelling, a [bytes] value as the [string] or the list of its
    bytes.  [str.isdigit] reads the code points of the text and classifies
    them with the digit ranges of the Unicode character database (version
    14.0, the one of CPython 3.11).  [str.lower] and [str.strip] change the
    ASCII letters and white space of a text and leave every other byte
    alone; the pattern [\D] is modelled on the ASCII texts the script
    applies it to, the labels of [java_version_from_major].  Text files are
    read and written through the codec of the locale, which belongs to the
    platform, as does the answer to whether a path can be opened for
    writing.  Timestamps and terminal colours of [Logger.log] are left out
    of the recorded messages. *)

From Stdlib Require Import ZArith Lia Bool List Wf_nat.
From Stdlib Require Import Strings.Ascii Strings.String Strings.Byte.
From Stdlib Require Import Numbers.DecimalString.
From stdpp Require Import base option list strings gmap.

Open Scope string_scope.
Open Scope Z_scope.

(** ** Bytes and UTF-8 *)

Definition byte_Z (b : byte) : Z := Z.of_N (Byte.to_N b).

Definition byte_between (lo hi : Z) (b : byte) : bool :=
  (lo <=? byte_Z b) && (byte_Z b <=? hi).

(** Well-formed UTF-8: shortest encodings only, no surrogates, nothing above
    U+10FFFF. *)
Fixpoint utf8_valid (bs : list byte) : bool :=
  match bs with
  | [] => true
  | b0 :: r0 =>
      if byte_between 0x00 0x7F b0 then utf8_valid r0
      else
        match r0 with
        | [] => false
        | b1 :: r1 =>
            if byte_between 0xC2 0xDF b0
            then byte_between 0x80 0xBF b1 && utf8_valid r1
            else
              match r1 with
              | [] => false
              | b2 :: r2 =>
                  if byte_between 0xE0 0xEF b0 then
                    (if byte_Z b0 =? 0xE0 then byte_between 0xA0 0xBF b1
                     else if byte_Z b0 =? 0xED then byte_between 0x80 0x9F b1
                     else byte_between 0x80 0xBF b1)
                    && byte_between 0x80 0xBF b2 && utf8_valid r2
                  else
                    match r2 with
                    | [] => false
                    | b3 :: r3 =>
                        byte_between 0xF0 0xF4 b0
                        && (if byte_Z b0 =? 0xF0 then byte_between 0x90 0xBF b1
                            else if byte_Z b0 =? 0xF4
                                 then byte_between 0x80 0x8F b1
                                 else byte_between 0x80 0xBF b1)
                        && byte_between 0x80 0xBF b2
                        && byte_between 0x80 0xBF b3
                        && utf8_valid r3
                    end
              end
        end
  end.

(** The code points that a well-formed UTF-8 byte string spells; nothing for
    a malformed one. *)
Fixpoint utf8_code_points (bs : list byte) : option (list Z) :=
  match bs with
  | [] => Some []
  | b0 :: r0 =>
      if byte_between 0x00 0x7F b0 then cons (byte_Z b0) <$> utf8_code_points r0
      else
        match r0 with
        | [] => None
        | b1 :: r1 =>
            if byte_between 0xC2 0xDF b0 then
              if byte_between 0x80 0xBF b1
              then cons ((byte_Z b0 - 0xC0) * 64 + (byte_Z b1 - 0x80))
                     <$> utf8_code_points r1
              else None
            else
              match r1 with
              | [] => None
              | b2 :: r2 =>
                  if byte_between 0xE0 0xEF b0 then
                    if (if byte_Z b0 =? 0xE0 then byte_between 0xA0 0xBF b1
                        else if byte_Z b0 =? 0xED then byte_between 0x80 0x9F b1
                        else byte_between 0x80 0xBF b1)
                       && byte_between 0x80 0xBF b2
                    then cons (((byte_Z b0 - 0xE0) * 64 + (byte_Z b1 - 0x80)) * 64
                               + (byte_Z b2 - 0x80))
                           <$> utf8_code_points r2
                    else None
                  else
                    match r2 with
                    | [] => None
                    | b3 :: r3 =>
                        if byte_between 0xF0 0xF4 b0
                           && (if byte_Z b0 =? 0xF0 then byte_between 0x90 0xBF b1
                               else if byte_Z b0 =? 0xF4
                                    then byte_between 0x80 0x8F b1
                                    else byte_between 0x80 0xBF b1)
                           && byte_between 0x80 0xBF b2
                           && byte_between 0x80 0xBF b3
                        then cons ((((byte_Z b0 - 0xF0) * 64 + (byte_Z b1 - 0x80))
                                    * 64 + (byte_Z b2 - 0x80)) * 64
                                   + (byte_Z b3 - 0x80))
                               <$> utf8_code_points r3
                        else None
                    end
              end
        end
  end.

(** ** Python built-ins used by the script *)

Module Py.

(** Character predicates (ASCII). *)
Definition is_ascii_digit (c : ascii) : bool :=
  let n := N_of_ascii c in ((48 <=? n) && (n <=? 57))%N.

Definition is_ascii_upper (c : ascii) : bool :=
  let n := N_of_ascii c in ((65 <=? n) && (n <=? 90))%N.

Definition lower_char (c : ascii) : ascii :=
  if is_ascii_upper c then ascii_of_N (N_of_ascii c + 32) else c.

Fixpoint all_chars (p : ascii -> bool) (s : string) : bool :=
  match s with
  | EmptyString => true
  | String c rest => p c && all_chars p rest
  end.

Fixpoint filter_chars (p : ascii -> bool) (s : string) : string :=
  match s with
  | EmptyString => EmptyString
  | String c rest =>
      if p c then String c (filter_chars p rest) else filter_chars p rest
  end.

Fixpoint map_chars (f : ascii -> ascii) (s : string) : string :=
  match s with
  | EmptyString => EmptyString
  | String c rest => String (f c) (map_chars f rest)
  end.

(** The code points of a text; nothing when the bytes are not the UTF-8
    spelling of a text. *)
Definition code_points (s : string) : option (list Z) :=
  utf8_code_points (list_byte_of_string s).

(** The code points whose numeric type is Digit or Decimal, as inclusive
    ranges in increasing order: the decimal digits of every script and the
    other digit characters, such as the superscript, subscript and circled
    digits. *)
Definition digit_ranges : list (Z * Z) :=
  [ (0x0030, 0x0039); (0x00B2, 0x00B3); (0x00B9, 0x00B9); (0x0660, 0x0669);
    (0x06F0, 0x06F9); (0x07C0, 0x07C9); (0x0966, 0x096F); (0x09E6, 0x09EF);
    (0x0A66, 0x0A6F); (0x0AE6, 0x0AEF); (0x0B66, 0x0B6F); (0x0BE6, 0x0BEF);
    (0x0C66, 0x0C6F); (0x0CE6, 0x0CEF); (0x0D66, 0x0D6F); (0x0DE6, 0x0DEF);
    (0x0E50, 0x0E59); (0x0ED0, 0x0ED9); (0x0F20, 0x0F29); (0x1040, 0x1049);
    (0x1090, 0x1099); (0x1369, 0x1371); (0x17E0, 0x17E9); (0x1810, 0x1819);
    (0x1946, 0x194F); (0x19D0, 0x19DA); (0x1A80, 0x1A89); (0x1A90, 0x1A99);
    (0x1B50, 0x1B59); (0x1BB0, 0x1BB9); (0x1C40, 0x1C49); (0x1C50, 0x1C59);
    (0x2070, 0x2070); (0x2074, 0x2079); (0x2080, 0x2089); (0x2460, 0x2468);
    (0x2474, 0x247C); (0x2488, 0x2490); (0x24EA, 0x24EA); (0x24F5, 0x24FD);
    (0x24FF, 0x24FF); (0x2776, 0x277E); (0x2780, 0x2788); (0x278A, 0x2792);
    (0xA620, 0xA629); (0xA8D0, 0xA8D9); (0xA900, 0xA909); (0xA9D0, 0xA9D9);
    (0xA9F0, 0xA9F9); (0xAA50, 0xAA59); (0xABF0, 0xABF9); (0xFF10, 0xFF19);
    (0x104A0, 0x104A9); (0x10A40, 0x10A43); (0x10D30, 0x10D39); (0x10E60, 0x10E68);
    (0x11052, 0x1105A); (0x11066, 0x1106F); (0x110F0, 0x110F9); (0x11136, 0x1113F);
    (0x111D0, 0x111D9); (0x112F0, 0x112F9); (0x11450, 0x11459); (0x114D0, 0x114D9);
    (0x11650, 0x11659); (0x116C0, 0x116C9); (0x11730, 0x11739); (0x118E0, 0x118E9);
    (0x11950, 0x11959); (0x11C50, 0x11C59); (0x11D50, 0x11D59); (0x11DA0, 0x11DA9);
    (0x16A60, 0x16A69); (0x16AC0, 0x16AC9); (0x16B50, 0x16B59); (0x1D7CE, 0x1D7FF);
    (0x1E140, 0x1E149); (0x1E2F0, 0x1E2F9); (0x1E950, 0x1E959); (0x1F100, 0x1F10A);
    (0x1FBF0, 0x1FBF9) ].

Definition is_unicode_digit (c : Z) : bool :=
  existsb (fun r => (fst r <=? c) && (c <=? snd r)) digit_ranges.

(** [s.isdigit()]: every character is a digit and there is at least one. *)
Definition isdigit (s : string) : bool :=
  match code_points s with
  | Some (c :: cs) => forallb is_unicode_digit (c :: cs)
  | _ => false
  end.

(** [s.lower()]. *)
Definition lower (s : string) : string := map_chars lower_char s.

(** [s.endswith(suffix)]. *)
Definition endswith (s suffix : string) : bool :=
  let n := String.length s in
  let k := String.length suffix in
  (k <=? n)%nat && String.eqb (String.substring (n - k) k s) suffix.

(** [s.startswith(p)]. *)
Definition startswith (s p : string) : bool := String.prefix p s.

(** [sub in s]. *)
Fixpoint contains (sub s : string) : bool :=
  String.prefix sub s ||
  match s with
  | EmptyString => false
  | String _ rest => contains sub rest
  end.

(** [re.sub(r'\D', '', s)] on a text of ASCII characters, such as the
    labels of [java_version_from_major]: every character that is not one of
    the digits [0] to [9] is dropped. *)
Definition re_sub_nondigit (s : string) : string :=
  filter_chars is_ascii_digit s.

(** [s.split(sep)[0]] for a one-character separator: the text before the
    first separator (the whole string when there is none). *)
Fixpoint split_head (sep : ascii) (s : string) : string :=
  match s with
  | EmptyString => EmptyString
  | String c rest =>
      if Ascii.eqb c sep then EmptyString else String c (split_head sep rest)
  end.

(** [str.isspace] on one ASCII character: tab to carriage return, the
    separators 28 to 31, and the space. *)
Definition is_ascii_space (c : ascii) : bool :=
  let n := N_of_ascii c in
  (((9 <=? n) && (n <=? 13)) || ((28 <=? n) && (n <=? 32)))%N.

Fixpoint lstrip (s : string) : string :=
  match s with
  | EmptyString => EmptyString
  | String c rest => if is_ascii_space c then lstrip rest else s
  end.

Fixpoint rstrip (s : string) : string :=
  match s with
  | EmptyString => EmptyString
  | String c rest =>
      match rstrip rest with
      | EmptyString => if is_ascii_space c then EmptyString else String c EmptyString
      | rest' => String c rest'
      end
  end.

(** [s.strip()]. *)
Definition strip (s : string) : string := rstrip (lstrip s).

(** [str(n)] for an integer. *)
Definition str (n : Z) : string := NilZero.string_of_int (Z.to_int n).

(** Truthiness of an [Optional[str]] argument: [None] and the empty
    string are both false. *)
Definition truthy (o : option string) : bool :=
  match o with
  | Some (String _ _) => true
  | _ => false
  end.

End Py.

(** ** The world the script runs in

    The file system maps a path, as the script spells it, to a directory or
    to the raw contents of a file.  Console output and external commands
    are recorded as a trace of events. *)

Inductive exc_class :=
| IndexError | FileNotFoundError | IsADirectoryError | BadZipFile
| StructError | UnicodeDecodeError | UnicodeEncodeError
| UnidentifiedImageError | OSError.

Record exception := Exception { exc_kind : exc_class; exc_message : string }.

Inductive event :=
| EvLog (message : string)
| EvPrint (text : string)
| EvRun (command : string).

Inductive node :=
| File (raw : string)
| Dir.

Record world := World { fs : gmap string node; events : list event }.

(** How a call ends: it returns a value, the process exits ([exit(n)]), or
    an exception propagates. *)
Inductive outcome (A : Type) :=
| Returned (a : A)
| Exited (status : Z)
| Raised (e : exception).

Arguments Returned {A} a.
Arguments Exited {A} status.
Arguments Raised {A} e.

Definition prog (A : Type) : Type := world -> outcome A * world.

#[global] Instance prog_ret : MRet prog := fun A a w => (Returned a, w).

#[global] Instance prog_bind : MBind prog := fun A B f m w =>
  match m w with
  | (Returned a, w') => f a w'
  | (Exited n, w') => (Exited n, w')
  | (Raised e, w') => (Raised e, w')
  end.

Definition emit (e : event) : prog unit :=
  fun w => (Returned tt, World (fs w) (events w ++ [e])).

(** [Logger.log(message)]. *)
Definition log (message : string) : prog unit := emit (EvLog message).

(** [print(text)]. *)
Definition print (text : string) : prog unit := emit (EvPrint text).

(** [exit(status)]. *)
Definition exit {A : Type} (status : Z) : prog A := fun w => (Exited status, w).

Definition raise {A : Type} (k : exc_class) (message : string) : prog A :=
  fun w => (Raised (Exception k message), w).

(** [try: body except Exception as e: handler(e)]; [exit] is not caught. *)
Definition try_except {A : Type} (body : prog A) (handler : exception -> prog A)
  : prog A :=
  fun w =>
    match body w with
    | (Raised e, w') => handler e w'
    | r => r
    end.

(** [if c: body] with no [else]. *)
Definition when (c : bool) (body : prog unit) : prog unit :=
  if c then body else mret tt.

(** The result of a library call that returns or raises. *)
Definition lift_result {A : Type} (r : exception + A) : prog A :=
  fun w =>
    match r with
    | inr a => (Returned a, w)
    | inl e => (Raised e, w)
    end.

(** [xs[0]]. *)
Definition list_head {A : Type} (xs : list A) : prog A :=
  match xs with
  | [] => raise IndexError "list index out of range"
  | x :: _ => mret x
  end.

Definition LF : ascii := "010"%char.
Definition CR : ascii := "013"%char.
Definition QUOTE : ascii := "034"%char.
Definition nl : string := String LF EmptyString.
Definition crlf : string := String CR nl.

(** [payload.decode()]: the text of a UTF-8 byte string, kept in its UTF-8
    spelling; malformed input is an error. *)
Definition bytes_decode (payload : list byte) : option string :=
  if utf8_valid payload then Some (string_of_list_byte payload) else None.

(** Reading in text mode ([newline=None]): each of CR LF, CR and LF is
    handed to the program as LF. *)
Fixpoint universal_newlines (raw : string) : string :=
  match raw with
  | EmptyString => EmptyString
  | String c rest =>
      if Ascii.eqb c CR then
        String LF match rest with
                  | String c' rest' =>
                      if Ascii.eqb c' LF then universal_newlines rest'
                      else universal_newlines rest
                  | EmptyString => EmptyString
                  end
      else String c (universal_newlines rest)
  end.

(** Writing in text mode: each LF is written as [os.linesep]. *)
Fixpoint translate_newlines (linesep text : string) : string :=
  match text with
  | EmptyString => EmptyString
  | String c rest =>
      if Ascii.eqb c LF then linesep ++ translate_newlines linesep rest
      else String c (translate_newlines linesep rest)
  end.

(** [file.readlines()] on text: the lines, each with its terminator; the
    last one has none when the text does not end in LF. *)
Fixpoint readlines (text : string) : list string :=
  match text with
  | EmptyString => []
  | String c rest =>
      if Ascii.eqb c LF then String c EmptyString :: readlines rest
      else match readlines rest with
           | [] => [String c EmptyString]
           | line :: lines => String c line :: lines
           end
  end.

(** An open archive as the script uses it: the names in stored order and,
    for a name, the bytes that [open(name)] and [read] give, or the exception
    that opening or reading the entry raises (a damaged header, an encrypted
    entry, a compression method that is not supported). *)
Record ZipFile := {
  namelist : list string;
  zip_read : string -> exception + list byte
}.

(** One region found by the QR decoder. *)
Record Decoded := { data : list byte }.

(** The result of [subprocess.run(..., capture_output=True, text=True)]. *)
Record CompletedProcess := {
  returncode : Z;
  stdout : string;
  stderr : string
}.

(** The response of [requests.get(url, stream=True)]: the status, the
    declared length (0 when the header is missing) and the chunks that
    [iter_content] yields. *)
Record Response := {
  status_code : Z;
  content_length : Z;
  iter_content : list string
}.

(** The libraries and the machine: everything the script calls and does
    not define.  [os_open_write] tells whether [open(path, 'w')] or
    [open(path, 'wb')] is refused on a file system, and with which exception
    (the parent directory is missing, the path is a directory, the rights are
    missing).  [locale_decode] and [locale_encode] are the codec of the
    locale, which text files are read and written with: from the bytes of a
    file to text, and from text to bytes. *)
Record platform := {
  os_linesep : string;
  os_path_join : string -> string -> string;
  os_makedirs : gmap string node -> string -> exception + gmap string node;
  os_open_write : gmap string node -> string -> option exception;
  locale_decode : string -> exception + string;
  locale_encode : string -> exception + string;
  zipfile_parse : string -> option ZipFile;
  zip_extractall :
    ZipFile -> string -> gmap string node -> exception + gmap string node;
  image : Type;
  pil_parse : string -> option image;
  pyzbar_decode : image -> list Decoded;
  subprocess_run : string -> CompletedProcess;
  jdk_get_download_url : string -> option string;
  requests_get : string -> Response
}.

(** [os.path.exists(path)]. *)
Definition os_path_exists (path : string) : prog bool :=
  fun w => (Returned (bool_decide (is_Some (fs w !! path))), w).

(** [os.path.isfile(path)]. *)
Definition os_path_isfile (path : string) : prog bool :=
  fun w =>
    (Returned match fs w !! path with Some (File _) => true | _ => false end,
     w).

Definition read_raw (path : string) : prog string :=
  fun w =>
    match fs w !! path with
    | Some (File raw) => (Returned raw, w)
    | Some Dir =>
        (Raised (Exception IsADirectoryError "Is a directory"), w)
    | None =>
        (Raised (Exception FileNotFoundError "No such file or directory"), w)
    end.

(** [open(path, 'r').readlines()]: the bytes are decoded with the codec of
    the locale, then cut into lines. *)
Definition open_readlines (P : platform) (path : string) : prog (list string) :=
  raw ← read_raw path;
  text ← lift_result (locale_decode P raw);
  mret (readlines (universal_newlines text)).

(** [open(path, 'w')] and [open(path, 'wb')]: the file is created or
    truncated, unless the system refuses to open it. *)
Definition open_truncate (P : platform) (path : string) : prog unit :=
  fun w =>
    match os_open_write P (fs w) path with
    | Some e => (Raised e, w)
    | None =>
        (Returned tt, World (<[path := File EmptyString]> (fs w)) (events w))
    end.

(** The bytes [file.write(text)] hands to a file opened in text mode: each
    LF becomes the line separator, then the codec of the locale encodes the
    text. *)
Definition text_bytes (P : platform) (text : string) : exception + string :=
  locale_encode P (translate_newlines (os_linesep P) text).

(** [file.write(text)] on a file opened in text mode; what was written
    before stays in the file when the text cannot be encoded. *)
Definition file_write (P : platform) (path text : string) : prog unit :=
  fun w =>
    match fs w !! path with
    | Some (File raw) =>
        match text_bytes P text with
        | inr chunk =>
            (Returned tt,
             World (<[path := File (raw ++ chunk)]> (fs w)) (events w))
        | inl e => (Raised e, w)
        end
    | _ => (Raised (Exception OSError "write to a closed file"), w)
    end.

(** [file.write(chunk)] on a file opened in binary mode. *)
Definition file_write_bytes (path chunk : string) : prog unit :=
  fun w =>
    match fs w !! path with
    | Some (File raw) =>
        (Returned tt, World (<[path := File (raw ++ chunk)]> (fs w)) (events w))
    | _ => (Raised (Exception OSError "write to a closed file"), w)
    end.

(** [zipfile.ZipFile(path, 'r')]. *)
Definition ZipFile_open (P : platform) (path : string) : prog ZipFile :=
  raw ← read_raw path;
  match zipfile_parse P raw with
  | Some z => mret z
  | None => raise BadZipFile "File is not a zip file"
  end.

(** A library call that changes the file system or fails. *)
Definition fs_call (f : gmap string node -> exception + gmap string node)
  : prog unit :=
  fun w =>
    match f (fs w) with
    | inr fs' => (Returned tt, World fs' (events w))
    | inl e => (Raised e, w)
    end.

(** [subprocess.run(command, capture_output=True, text=True)]. *)
Definition run_command (P : platform) (command : string)
  : prog CompletedProcess :=
  emit (EvRun command);; mret (subprocess_run P command).

(** ** class GithubUtils *)

Module GithubUtils.

Record Asset := { name : string; browser_download_url : string }.

(** The loop of [get_latest_release] over [latest_release.get_assets()]. *)
Fixpoint first_matching_asset (assets : list Asset) : option Asset :=
  match assets with
  | [] => None
  | asset :: rest =>
      if Py.endswith (name asset) ".tar.gz"
         && negb (Py.contains "linux" (Py.lower (name asset)))
      then Some asset
      else first_matching_asset rest
  end.

(** [get_latest_release(repo_name)]; [github] gives the assets of the latest
    release of a repository, in the order the hosting service lists them. *)
Definition get_latest_release (github : string -> list Asset)
    (repo_name : string) : option Asset :=
  first_matching_asset (github repo_name).

(** The selection as the specification words it: the first asset whose name
    ends with one of the five archive suffixes and does not mention linux. *)
Definition spec_archive_suffixes : list string :=
  [".tar.gz"; ".tar.bz2"; ".zip"; ".rar"; ".7z"].

Definition spec_asset_filter (asset : Asset) : bool :=
  existsb (Py.endswith (name asset)) spec_archive_suffixes
  && negb (Py.contains "linux" (Py.lower (name asset))).

Definition spec_select_asset (assets : list Asset) : option Asset :=
  List.find spec_asset_filter assets.

End GithubUtils.

(** ** class FileUtils *)

Module FileUtils.

Section WithPlatform.
Context (P : platform).

(** The destination [extract_zip] settles on. *)
Definition extract_zip_destination (extract_to : string)
    (folder_name : option string) (first_folder : string) : string :=
  if Py.truthy folder_name
  then os_path_join P extract_to (default EmptyString folder_name)
  else os_path_join P extract_to first_folder.

Definition extract_zip (file_path extract_to : string)
    (folder_name : option string) : prog unit :=
  log ("Extracting " ++ file_path);;
  zip_ref ← ZipFile_open P file_path;
  first_name ← list_head (namelist zip_ref);
  let first_folder := Py.split_head "/"%char first_name in
  let extract_to := extract_zip_destination extract_to folder_name first_folder in
  os_path_exists extract_to ≫= fun present : bool =>
  if present then
    log ("Extraction aborted: " ++ first_folder ++ " already exists.")
  else
    fs_call (fun m => os_makedirs P m extract_to);;
    fs_call (zip_extractall P zip_ref extract_to);;
    log ("Extraction complete to " ++ extract_to).

End WithPlatform.

End FileUtils.

(** ** class JavaUtils *)

Module JavaUtils.

(** An unsigned big-endian integer. *)
Definition be_uint (bs : list byte) : Z :=
  foldl (fun acc b => acc * 256 + byte_Z b) 0 bs.

(** [struct.unpack('>IHH', header)]: a 4-byte and two 2-byte unsigned
    big-endian fields; any other length than 8 is an error. *)
Definition struct_unpack_IHH (header : list byte) : option (Z * Z * Z) :=
  if (length header =? 8)%nat
  then Some (be_uint (take 4 header),
             be_uint (take 2 (drop 4 header)),
             be_uint (take 2 (drop 6 header)))
  else None.

(** The [for file_name in jar.namelist()] loop. *)
Fixpoint scan_classes (jar : ZipFile) (names : list string) : prog (option Z) :=
  match names with
  | [] => mret None
  | file_name :: rest =>
      if Py.endswith file_name ".class" then
        match zip_read jar file_name with
        | inl e => fun w => (Raised e, w)
        | inr contents =>
            let header := take 8 contents in
            if (length header <? 8)%nat then scan_classes jar rest
            else
              match struct_unpack_IHH header with
              | None => raise StructError "unpack requires a buffer of 8 bytes"
              | Some (magic, _, major_version) =>
                  if negb (magic =? 0xCAFEBABE) then scan_classes jar rest
                  else mret (Some major_version)
              end
        end
      else scan_classes jar rest
  end.

Definition get_java_version_of_file (P : platform) (jar_path : string)
  : prog (option Z) :=
  try_except
    (jar ← ZipFile_open P jar_path; scan_classes jar (namelist jar))
    (fun e => log ("Error reading JAR file: " ++ exc_message e);; mret None).

(** The version of one entry as the specification words it: the major
    version when the name has the class suffix and the first 8 bytes begin
    with the magic number; any other entry is skipped. *)
Definition spec_entry_major (jar : ZipFile) (file_name : string) : option Z :=
  if Py.endswith file_name ".class" then
    match zip_read jar file_name with
    | inr contents =>
        match struct_unpack_IHH (take 8 contents) with
        | Some (magic, _, major_version) =>
            if magic =? 0xCAFEBABE then Some major_version else None
        | None => None
        end
    | inl _ => None
    end
  else None.

(** The result as the specification words it: the version of the first
    entry, in archive order, that has one. *)
Fixpoint spec_read_major (jar : ZipFile) (names : list string) : option Z :=
  match names with
  | [] => None
  | file_name :: rest =>
      match spec_entry_major jar file_name with
      | Some major_version => Some major_version
      | None => spec_read_major jar rest
      end
  end.

Definition version_mapping_items : list (Z * string) :=
  [ (45, "Java 1.1"); (46, "Java 1.2"); (47, "Java 1.3"); (48, "Java 1.4");
    (49, "Java 5"); (50, "Java 6"); (51, "Java 7"); (52, "Java 8");
    (53, "Java 9"); (54, "Java 10"); (55, "Java 11"); (56, "Java 12");
    (57, "Java 13"); (58, "Java 14"); (59, "Java 15"); (60, "Java 16");
    (61, "Java 17"); (62, "Java 18"); (63, "Java 19"); (64, "Java 20");
    (65, "Java 21"); (66, "Java 22"); (67, "Java 23"); (68, "Java 24");
    (69, "Java 25"); (70, "Java 26"); (71, "Java 27"); (72, "Java 28");
    (73, "Java 29"); (74, "Java 30") ].

(** The dictionary [version_mapping]. *)
Definition version_mapping : gmap Z string :=
  list_to_map version_mapping_items.

(** [version_mapping.get(major_version, "Unknown Java version")]. *)
Definition java_version_from_major (major_version : Z) : string :=
  default "Unknown Java version" (version_mapping !! major_version).

(** The first statement of [download_openjdk]: the version string handed on
    to [jdk.get_download_url]. *)
Definition download_openjdk_version (version : string) : string :=
  Py.re_sub_nondigit version.

(** The [for chunk in response.iter_content(...)] loop; the progress bar is
    not modelled. *)
Fixpoint write_chunks (download_path : string) (chunks : list string)
  : prog unit :=
  match chunks with
  | [] => mret tt
  | chunk :: rest =>
      file_write_bytes download_path chunk;; write_chunks download_path rest
  end.

(** [jdk_get_download_url] stands for [jdk.get_download_url] with the vendor
    Corretto and the Windows operating system. *)
Definition download_openjdk (P : platform) (version download_path : string)
  : prog (option string) :=
  let version := download_openjdk_version version in
  match jdk_get_download_url P version with
  | None =>
      log ("Could not find OpenJDK " ++ version ++ " download URL");;
      mret None
  | Some download_url =>
      let download_path :=
        os_path_join P download_path ("openjdk-" ++ version ++ ".zip") in
      os_path_exists download_path ≫= fun present : bool =>
      if present then
        log ("OpenJDK " ++ version ++ " already downloaded");;
        mret (Some download_path)
      else
        let response := requests_get P download_url in
        if status_code response =? 200 then
          open_truncate P download_path;;
          write_chunks download_path (iter_content response);;
          log ("Downloaded OpenJDK " ++ version ++ " successfully");;
          mret (Some download_path)
        else
          log ("Failed to download OpenJDK " ++ version ++ ": "
               ++ Py.str (status_code response));;
          mret None
  end.

End JavaUtils.

(** ** class SignalCLISetup *)

Module SignalCLISetup.

Definition original_line : string :=
  "set JAVA_EXE=%JAVA_HOME%/bin/java.exe" ++ nl.

(** [{custom_java_exe}] inside an f-string: [None] is printed as None. *)
Definition format_optional (custom_java_exe : option string) : string :=
  default "None" custom_java_exe.

Definition modified_line (custom_java_exe : option string) : string :=
  "set JAVA_EXE=" ++ format_optional custom_java_exe ++ nl.

Section WithPlatform.
Context (P : platform).

(** The [for line in lines] loop; [replaced] is the flag of the same name. *)
Fixpoint write_lines (batch_file_path : string) (modified : string)
    (lines : list string) (replaced : bool) : prog bool :=
  match lines with
  | [] => mret replaced
  | line :: rest =>
      if String.eqb line original_line then
        file_write P batch_file_path modified;;
        write_lines batch_file_path modified rest true
      else
        file_write P batch_file_path line;;
        write_lines batch_file_path modified rest replaced
  end.

Definition modify_batch_file (batch_file_path : string)
    (custom_java_exe : option string) : prog unit :=
  os_path_isfile batch_file_path ≫= fun is_file : bool =>
  if negb is_file then
    print ("Error: The file '" ++ batch_file_path ++ "' does not exist.")
  else
    lines ← open_readlines P batch_file_path;
    open_truncate P batch_file_path;;
    write_lines batch_file_path (modified_line custom_java_exe) lines false
      ≫= fun replaced : bool =>
    if replaced then
      log ("Successfully modified '" ++ batch_file_path ++ "'.")
    else
      log ("Line not found. No changes made to '" ++ batch_file_path ++ "'.").

End WithPlatform.

(** The patch as the specification words it: only the first line equal to
    the literal is replaced, later ones pass through. *)
Fixpoint spec_patch_first (modified : string) (lines : list string)
  : list string :=
  match lines with
  | [] => []
  | line :: rest =>
      if String.eqb line original_line then modified :: rest
      else line :: spec_patch_first modified rest
  end.

End SignalCLISetup.

(** ** class SignalCLIInteraction *)

Module SignalCLIInteraction.

Record t := { signal_cli_path : string; phone_number : string }.

Section WithPlatform.
Context (P : platform) (self : t).

Definition register (captcha : string) : prog unit :=
  log "Registering Phone Number";;
  let command :=
    signal_cli_path self ++ " -u " ++ phone_number self
      ++ " register --captcha " ++ captcha in
  result ← run_command P command;
  let error := Py.strip (stderr result) in
  when (Py.contains "Failed to register" error)
    (log "Failed to register";; log error;; exit 1);;
  log "Successfully sent registration code".

Definition verify (code : string) : prog unit :=
  when (negb (Py.isdigit code)) (log "Invalid code";; exit 1);;
  log "Verifying code";;
  let command :=
    signal_cli_path self ++ " -u " ++ phone_number self ++ " verify " ++ code in
  result ← run_command P command;
  let error := Py.strip (stderr result) in
  when (Py.contains "Verify error" error)
    (log "Failed to verify code";; log error;; exit 1);;
  log "Successfully verified the account".

(** [Image.open(screenshot)]. *)
Definition Image_open (screenshot : string) : prog (image P) :=
  raw ← read_raw screenshot;
  match pil_parse P raw with
  | Some img => mret img
  | None => raise UnidentifiedImageError "cannot identify image file"
  end.

Definition add_device (screenshot : string) : prog unit :=
  os_path_exists screenshot ≫= fun present : bool =>
  when (negb present) (log "Invalid path";; exit 1);;
  img ← Image_open screenshot;
  first ← list_head (pyzbar_decode P img);
  match bytes_decode (data first) with
  | None => raise UnicodeDecodeError "invalid utf-8"
  | Some result =>
      when (String.eqb result EmptyString)
        (log "Failed to decode QR Code";; exit 1);;
      log "Adding Device";;
      let command :=
        signal_cli_path self ++ " -u " ++ phone_number self
          ++ " addDevice --uri " ++ String QUOTE result
          ++ String QUOTE " " in
      result ← run_command P command;
      let error := Py.strip (stderr result) in
      when (Py.contains "invalid format" error || Py.contains "failed" error)
        (log "Failed to add device";; log error;; exit 1);;
      log "Successfully added device"
  end.

End WithPlatform.

End SignalCLIInteraction.

(** ** Vocabulary of the statements *)

(** The events a call added to the trace of the world it started in. *)
Definition new_events {A : Type} (w : world) (r : outcome A * world)
  : list event :=
  drop (length (events w)) (events (snd r)).

(** The call handed some command to the external client. *)
Definition invokes_client {A : Type} (w : world) (r : outcome A * world)
  : Prop :=
  exists command, EvRun command ∈ new_events w r.

Definition chars (s : string) : list ascii := list_ascii_of_string s.

(** A decimal digit character, [0] to [9]. *)
Definition decimal_digit (c : ascii) : Prop :=
  exists d : nat, (d <= 9)%nat /\ c = ascii_of_nat (48 + d).

(** A digit in the sense of [str.isdigit]: a code point inside one of the
    digit ranges. *)
Definition unicode_digit (c : Z) : Prop :=
  exists lo hi, In (lo, hi) Py.digit_ranges /\ lo <= c <= hi.

(** A numeric string: a text of at least one character, all of them
    digits. *)
Definition numeric (s : string) : Prop :=
  exists c cs,
    Py.code_points s = Some (c :: cs) /\ Forall unicode_digit (c :: cs).

Definition has_suffix (s suffix : string) : Prop :=
  exists p, s = p ++ suffix.

Definition has_substring (s sub : string) : Prop :=
  exists p q, s = p ++ sub ++ q.

(** The magic number of a class file, byte by byte. *)
Definition class_magic : list byte := [xca; xfe; xba; xbe].

(** An entry the version reader accepts: a [.class] name whose contents
    can be read, have at least 8 bytes and start with the magic number. *)
Definition valid_class_entry (jar : ZipFile) (file_name : string) : Prop :=
  has_suffix file_name ".class"
  /\ exists contents,
       zip_read jar file_name = inr contents
       /\ (8 <= length contents)%nat
       /\ take 4 contents = class_magic.

(** An entry the version reader stops at: a [.class] name whose contents
    cannot be opened or read. *)
Definition unreadable_class_entry (jar : ZipFile) (file_name : string)
    (e : exception) : Prop :=
  has_suffix file_name ".class" /\ zip_read jar file_name = inl e.

(** An entry the version reader passes over: another suffix, or contents
    that can be read and have fewer than 8 bytes or another magic number. *)
Definition skipped_entry (jar : ZipFile) (file_name : string) : Prop :=
  ~ valid_class_entry jar file_name
  /\ forall e, ~ unreadable_class_entry jar file_name e.

(** Bytes 6 and 7 of an entry, read as a big-endian number. *)
Definition entry_major (jar : ZipFile) (file_name : string) : Z :=
  match zip_read jar file_name with
  | inr (_ :: _ :: _ :: _ :: _ :: _ :: hi :: lo :: _) =>
      byte_Z hi * 256 + byte_Z lo
  | _ => 0
  end.

(** The bytes [file.write] hands to the file for each of the given texts. *)
Definition written_as (P : platform) (texts chunks : list string) : Prop :=
  Forall2 (fun text chunk => text_bytes P text = inr chunk) texts chunks.

(** An asset [get_latest_release] accepts. *)
Definition accepted_asset (asset : GithubUtils.Asset) : Prop :=
  has_suffix (GithubUtils.name asset) ".tar.gz"
  /\ ~ has_substring (Py.lower (GithubUtils.name asset)) "linux".

(** What [modify_batch_file] writes for one line it read. *)
Definition patch_line (modified line : string) : string :=
  if String.eqb line SignalCLISetup.original_line then modified else line.

Definition is_original_line (line : string) : bool :=
  String.eqb line SignalCLISetup.original_line.

(** The text made of the given pieces, one after the other. *)
Definition text_of (pieces : list string) : string :=
  foldr String.append EmptyString pieces.

(** The codec gives back the bytes it read: however the text decoded from
    [raw] is cut into pieces, encoding the pieces one after the other gives
    [raw]. *)
Definition reencodes (P : platform) (raw : string) : Prop :=
  forall text pieces chunks,
    locale_decode P raw = inr text ->
    text_of pieces = text ->
    Forall2 (fun piece chunk => locale_encode P piece = inr chunk)
      pieces chunks ->
    text_of chunks = raw.

(** Raw contents whose line terminators are all LF: no CR occurs. *)
Fixpoint lf_style (raw : string) : bool :=
  match raw with
  | EmptyString => true
  | String c rest => negb (Ascii.eqb c CR) && lf_style rest
  end.

(** Raw contents whose line terminators are all CR LF: every CR is followed
    by LF and every LF follows a CR. *)
Fixpoint crlf_style (raw : string) : bool :=
  match raw with
  | EmptyString => true
  | String c rest =>
      if Ascii.eqb c CR then
        match rest with
        | String c' rest' => Ascii.eqb c' LF && crlf_style rest'
        | EmptyString => false
        end
      else negb (Ascii.eqb c LF) && crlf_style rest
  end.

(** The raw contents use the line separator of the platform throughout. *)
Definition platform_newlines (P : platform) (raw : string) : bool :=
  (String.eqb (os_linesep P) nl && lf_style raw)
  || (String.eqb (os_linesep P) crlf && crlf_style raw).

Definition add_device_command (self : SignalCLIInteraction.t) (uri : string)
  : string :=
  SignalCLIInteraction.signal_cli_path self ++ " -u "
  ++ SignalCLIInteraction.phone_number self
  ++ " addDevice --uri " ++ String QUOTE uri ++ String QUOTE " ".

(** Every way [add_device] can run, by what the screenshot holds. *)
Inductive add_device_run (P : platform) (self : SignalCLIInteraction.t)
    (screenshot : string) (w : world) : outcome unit -> list event -> Prop :=
| run_invalid_path :
    fs w !! screenshot = None ->
    add_device_run P self screenshot w (Exited 1) [EvLog "Invalid path"]
| run_directory :
    fs w !! screenshot = Some Dir ->
    add_device_run P self screenshot w
      (Raised (Exception IsADirectoryError "Is a directory")) []
| run_not_an_image raw :
    fs w !! screenshot = Some (File raw) -> pil_parse P raw = None ->
    add_device_run P self screenshot w
      (Raised (Exception UnidentifiedImageError "cannot identify image file"))
      []
| run_no_region raw img :
    fs w !! screenshot = Some (File raw) -> pil_parse P raw = Some img ->
    pyzbar_decode P img = [] ->
    add_device_run P self screenshot w
      (Raised (Exception IndexError "list index out of range")) []
| run_bad_payload raw img first rest :
    fs w !! screenshot = Some (File raw) -> pil_parse P raw = Some img ->
    pyzbar_decode P img = first :: rest -> bytes_decode (data first) = None ->
    add_device_run P self screenshot w
      (Raised (Exception UnicodeDecodeError "invalid utf-8")) []
| run_empty_payload raw img first rest :
    fs w !! screenshot = Some (File raw) -> pil_parse P raw = Some img ->
    pyzbar_decode P img = first :: rest -> data first = [] ->
    add_device_run P self screenshot w (Exited 1)
      [EvLog "Failed to decode QR Code"]
| run_client_fails raw img first rest uri error :
    fs w !! screenshot = Some (File raw) -> pil_parse P raw = Some img ->
    pyzbar_decode P img = first :: rest ->
    bytes_decode (data first) = Some uri -> uri <> EmptyString ->
    Py.contains "invalid format" error || Py.contains "failed" error = true ->
    add_device_run P self screenshot w (Exited 1)
      [EvLog "Adding Device"; EvRun (add_device_command self uri);
       EvLog "Failed to add device"; EvLog error]
| run_added raw img first rest uri :
    fs w !! screenshot = Some (File raw) -> pil_parse P raw = Some img ->
    pyzbar_decode P img = first :: rest ->
    bytes_decode (data first) = Some uri -> uri <> EmptyString ->
    add_device_run P self screenshot w (Returned tt)
      [EvLog "Adding Device"; EvRun (add_device_command self uri);
       EvLog "Successfully added device"].

(** ** A concrete machine, for running the model *)

Definition posix_join (a b : string) : string :=
  if Py.startswith b "/" then b
  else if String.eqb a EmptyString || Py.endswith a "/" then a ++ b
       else a ++ "/" ++ b.

(** [posixpath.dirname]: the text up to the last slash, without the slashes
    that end it unless it consists of slashes only. *)
Fixpoint up_to_last_slash (s : string) : string :=
  match s with
  | EmptyString => EmptyString
  | String c rest =>
      if Ascii.eqb c "/"%char || Py.contains "/" rest
      then String c (up_to_last_slash rest)
      else EmptyString
  end.

Fixpoint without_final_slashes (s : string) : string :=
  match s with
  | EmptyString => EmptyString
  | String c rest =>
      match without_final_slashes rest with
      | EmptyString =>
          if Ascii.eqb c "/"%char then EmptyString else String c EmptyString
      | rest' => String c rest'
      end
  end.

Definition posix_dirname (s : string) : string :=
  let head := up_to_last_slash s in
  if Py.all_chars (fun c => Ascii.eqb c "/"%char) head then head
  else without_final_slashes head.

(** Opening a file for writing on a POSIX system: a directory cannot be
    opened, and a new file needs its parent directory. *)
Definition posix_open_write (m : gmap string node) (path : string)
  : option exception :=
  match m !! path with
  | Some Dir => Some (Exception IsADirectoryError "Is a directory")
  | Some (File _) => None
  | None =>
      let parent := posix_dirname path in
      if String.eqb parent EmptyString || String.eqb parent "/" then None
      else
        match m !! parent with
        | Some Dir => None
        | Some (File _) => Some (Exception OSError "Not a directory")
        | None =>
            Some (Exception FileNotFoundError "No such file or directory")
        end
  end.

(** The UTF-8 codec on texts in their UTF-8 spelling: the bytes of a text are
    the text, and bytes that are not well-formed are no text. *)
Definition utf8_decode (raw : string) : exception + string :=
  if utf8_valid (list_byte_of_string raw) then inr raw
  else inl (Exception UnicodeDecodeError
              "'utf-8' codec can't decode byte").

Definition utf8_encode (text : string) : exception + string :=
  if utf8_valid (list_byte_of_string text) then inr text
  else inl (Exception UnicodeEncodeError
              "'utf-8' codec can't encode character").

(** The ASCII codec: bytes and characters up to 127 only. *)
Definition is_ascii_text (s : string) : bool :=
  Py.all_chars (fun c => (N_of_ascii c <? 128)%N) s.

Definition ascii_decode (raw : string) : exception + string :=
  if is_ascii_text raw then inr raw
  else inl (Exception UnicodeDecodeError
              "'ascii' codec can't decode byte").

Definition ascii_encode (text : string) : exception + string :=
  if is_ascii_text text then inr text
  else inl (Exception UnicodeEncodeError
              "'ascii' codec can't encode character").

(** Extracting every entry of an archive below [dest]; an entry that cannot
    be read ends the extraction. *)
Definition extract_entries (z : ZipFile) (dest : string)
    (m : gmap string node) : exception + gmap string node :=
  foldr (fun file_name acc =>
           match acc, zip_read z file_name with
           | inr m', inr contents =>
               inr (<[posix_join dest file_name :=
                        File (string_of_list_byte contents)]> m')
           | inl e, _ => inl e
           | _, inl e => inl e
           end)
        (inr m) (namelist z).

(** A class file header for major version 61 followed by two more bytes. *)
Definition sample_class : list byte :=
  [xca; xfe; xba; xbe; x00; x00; x00; x3d; x00; x10].

Definition sample_jar : ZipFile := {|
  namelist := ["META-INF/MANIFEST.MF"; "short.class"; "text.class";
               "org/asamk/Main.class"; "org/asamk/Other.class"];
  zip_read := fun file_name =>
    inr (if String.eqb file_name "short.class" then [xca; xfe; xba; xbe]
         else if String.eqb file_name "text.class"
              then [x00; x01; x02; x03; x04; x05; x06; x07; x08]
         else if String.eqb file_name "org/asamk/Main.class" then sample_class
         else if String.eqb file_name "org/asamk/Other.class"
              then [xca; xfe; xba; xbe; x00; x00; x00; x34]
         else [])
|}.

(** A bundle whose first class entry cannot be opened; a valid one
    follows. *)
Definition broken_jar : ZipFile := {|
  namelist := ["META-INF/MANIFEST.MF"; "org/asamk/Broken.class";
               "org/asamk/Main.class"];
  zip_read := fun file_name =>
    if String.eqb file_name "org/asamk/Broken.class"
    then inl (Exception BadZipFile "Bad magic number for file header")
    else if String.eqb file_name "org/asamk/Main.class" then inr sample_class
    else inr []
|}.

Definition sample_platform : platform := {|
  os_linesep := nl;
  os_path_join := posix_join;
  os_makedirs := fun m path => inr (<[path := Dir]> m);
  os_open_write := posix_open_write;
  locale_decode := utf8_decode;
  locale_encode := utf8_encode;
  zipfile_parse := fun raw =>
    if String.eqb raw "PK-sample" then Some sample_jar
    else if String.eqb raw "PK-broken" then Some broken_jar
    else None;
  zip_extractall := extract_entries;
  image := list Decoded;
  pil_parse := fun raw =>
    if String.eqb raw "blank" then Some []
    else if String.eqb raw "empty-code" then Some [ {| data := [] |} ]
    else None;
  pyzbar_decode := fun img => img;
  subprocess_run := fun _ =>
    {| returncode := 0; stdout := EmptyString; stderr := EmptyString |};
  jdk_get_download_url := fun version =>
    if String.eqb version "17"
    then Some "https://example.org/corretto-17-windows.zip" else None;
  requests_get := fun _ =>
    {| status_code := 200; content_length := 9;
       iter_content := ["PK-"; "sample"] |}
|}.

Definition sample_script : string :=
  "@echo off" ++ nl ++ SignalCLISetup.original_line ++ "echo done" ++ nl.

(** A launcher that holds the byte E9, an e with acute accent in Latin-1:
    not the UTF-8 spelling of any text. *)
Definition latin1_script : string :=
  "rem caf" ++ String "233"%char EmptyString ++ nl
  ++ SignalCLISetup.original_line.

(** A runtime path with an e with acute accent, in its UTF-8 spelling. *)
Definition accented_path : string :=
  "C:/Users/Ren" ++ String "195"%char (String "169"%char EmptyString)
  ++ "/jdk/bin/java.exe".

(** The digits one, two and three in Arabic-Indic script, the superscript
    two and the fraction one half, in their UTF-8 spelling. *)
Definition arabic_indic_123 : string :=
  String "217"%char (String "161"%char
    (String "217"%char (String "162"%char
       (String "217"%char (String "163"%char EmptyString))))).

Definition superscript_two : string :=
  String "194"%char (String "178"%char EmptyString).

Definition one_half : string :=
  String "194"%char (String "189"%char EmptyString).

Definition sample_world : world := {|
  fs := list_to_map
          [ ("lib", Dir); ("bin", Dir); ("assets", Dir); ("fresh", Dir);
            ("lib/signal-cli.jar", File "PK-sample");
            ("lib/broken.jar", File "PK-broken");
            ("bin/latin1.bat", File latin1_script);
            ("assets/openjdk-17.zip", File "PK-sample");
            ("assets/openjdk", Dir);
            ("bin/signal-cli.bat", File sample_script);
            ("bin/other.bat", File ("@echo off" ++ nl));
            ("bin/crlf.bat", File ("@echo off" ++ crlf));
            ("bin/double.bat",
             File (SignalCLISetup.original_line ++ SignalCLISetup.original_line));
            ("blank.png", File "blank");
            ("empty.png", File "empty-code") ];
  events := []
|}.

Definition sample_self : SignalCLIInteraction.t := {|
  SignalCLIInteraction.signal_cli_path := "bin/signal-cli.bat";
  SignalCLIInteraction.phone_number := "+491700000000"
|}.

Definition linux_asset : GithubUtils.Asset := {|
  GithubUtils.name := "signal-cli-1.0-linux.tar.gz";
  GithubUtils.browser_download_url := "https://example.org/linux.tar.gz"
|}.

Definition plain_asset : GithubUtils.Asset := {|
  GithubUtils.name := "signal-cli-1.0.tar.gz";
  GithubUtils.browser_download_url := "https://example.org/plain.tar.gz"
|}.

Definition zip_asset : GithubUtils.Asset := {|
  GithubUtils.name := "signal-cli-1.0.zip";
  GithubUtils.browser_download_url := "https://example.org/plain.zip"
|}.

(** ** The rest of the script

    The functions below complete the classes above.  What they call beyond
    [platform] is gathered in [host]. *)

(** The libraries and the machine, continued: path names, directory walks,
    tar archives, the release service and the place of the script. *)
Record host := {
  host_platform : platform;
  os_path_basename : string -> string;
  os_walk :
    gmap string node -> string -> list (string * list string * list string);
  tarfile : Type;
  tarfile_parse : string -> exception + tarfile;
  tar_extractall :
    tarfile -> string -> gmap string node -> exception + gmap string node;
  github_assets : string -> list GithubUtils.Asset;
  script_directory : string
}.

Module GithubUtilsRest.

(** [download_asset(asset, download_path)]; the progress bar, the only use
    of the declared length, is not modelled. *)
Definition download_asset (P : platform) (asset : GithubUtils.Asset)
    (download_path : string) : prog (option string) :=
  let download_url := GithubUtils.browser_download_url asset in
  let response := requests_get P download_url in
  if status_code response =? 200 then
    open_truncate P download_path;;
    JavaUtils.write_chunks download_path (iter_content response);;
    mret (Some download_path)
  else
    log ("Failed to download " ++ GithubUtils.name asset ++ ": "
         ++ Py.str (status_code response));;
    mret None.

End GithubUtilsRest.

Module FileUtilsRest.

(** The alternatives of the pattern of [get_name_without_extension], in
    the order they are written. *)
Definition archive_suffixes : list string :=
  [".tar.gz"; ".tar.bz2"; ".zip"; ".rar"; ".7z"].

(** [s] without its last [k] characters. *)
Definition drop_last (k : nat) (s : string) : string :=
  String.substring 0 (String.length s - k) s.

(** The part of [s] before the first of the suffixes that ends [s]. *)
Fixpoint strip_first_suffix (suffixes : list string) (s : string)
  : option string :=
  match suffixes with
  | [] => None
  | suffix :: rest =>
      if Py.endswith s suffix then Some (drop_last (String.length suffix) s)
      else strip_first_suffix rest s
  end.

(** [re.sub(pattern, '', base)] for the pattern of alternatives followed by
    the end anchor: the anchor holds at the end of the string and also just
    before a line feed that ends the string. *)
Definition re_sub_archive_suffix (base : string) : string :=
  match strip_first_suffix archive_suffixes base with
  | Some stem => stem
  | None =>
      if Py.endswith base nl then
        match strip_first_suffix archive_suffixes (drop_last 1 base) with
        | Some stem => stem ++ nl
        | None => base
        end
      else base
  end.

Section WithHost.
Context (H : host).
Let P : platform := host_platform H.

Definition get_name_without_extension (filepath : string) : string :=
  let base := os_path_basename H filepath in
  re_sub_archive_suffix base.

(** [tarfile.open(file_path, "r:gz")]. *)
Definition tarfile_open (file_path : string) : prog (tarfile H) :=
  read_raw file_path ≫= fun raw : string =>
  match tarfile_parse H raw return prog (tarfile H) with
  | inr tar => mret tar
  | inl e => fun w => (Raised e, w)
  end.

Definition extract_tar_gz (file_path extract_to : string)
    (folder_name : option string) : prog unit :=
  log ("Extracting " ++ file_path);;
  let extract_to :=
    if Py.truthy folder_name
    then os_path_join P extract_to (default EmptyString folder_name)
    else extract_to in
  fs_call (fun m => os_makedirs P m extract_to);;
  tar ← tarfile_open file_path;
  fs_call (tar_extractall H tar extract_to);;
  log ("Extraction complete to " ++ extract_to).

(** The inner loop of [find_cli_jar], over the files of one directory. *)
Fixpoint find_in_files (root : string) (files : list string) : option string :=
  match files with
  | [] => None
  | file :: rest =>
      if Py.endswith file ".jar"
         && Py.startswith (os_path_basename H file) "signal-cli"
      then Some (os_path_join P root file)
      else find_in_files root rest
  end.

(** The outer loop of [find_cli_jar], over what [os.walk] yields. *)
Fixpoint find_in_walk (walk : list (string * list string * list string))
  : option string :=
  match walk with
  | [] => None
  | (root, _, files) :: rest =>
      match find_in_files root files with
      | Some path => Some path
      | None => find_in_walk rest
      end
  end.

Definition find_cli_jar (dir : string) : prog (option string) :=
  fun w => (Returned (find_in_walk (os_walk H (fs w) dir)), w).

End WithHost.

End FileUtilsRest.

Module SignalCLISetupRest.

(** The fields [__init__] sets; [github_utils] is the release service of the
    host. *)
Record t := {
  dependencies_directory : string;
  current_dir : string;
  dep_dir : string;
  signal_cli_dir : string
}.

Section WithHost.
Context (H : host).
Let P : platform := host_platform H.

(** [SignalCLISetup(dependencies_directory)]. *)
Definition init (dependencies_directory : string) : t :=
  let current_dir := script_directory H in
  let dep_dir := os_path_join P current_dir dependencies_directory in
  {| dependencies_directory := dependencies_directory;
     current_dir := current_dir;
     dep_dir := dep_dir;
     signal_cli_dir := os_path_join P dep_dir "signal-cli" |}.

Context (self : t).

Definition create_directories : prog unit :=
  log "Creating dependencies directory";;
  fs_call (fun m => os_makedirs P m (dep_dir self));;
  fs_call (fun m => os_makedirs P m (signal_cli_dir self)).

Definition get_latest_release : prog (option GithubUtils.Asset) :=
  log "Getting latest signal-cli release";;
  mret (GithubUtils.get_latest_release (github_assets H) "AsamK/signal-cli").

Definition download_signal_cli (latest_release : GithubUtils.Asset)
  : prog (option string) :=
  log "Downloading signal-cli";;
  let download_dir :=
    os_path_join P (dep_dir self) (GithubUtils.name latest_release) in
  os_path_exists download_dir ≫= fun present : bool =>
  if present then
    log "Signal-cli already downloaded";;
    mret (Some download_dir)
  else GithubUtilsRest.download_asset P latest_release download_dir.

Definition extract_signal_cli (zipped_path : string) : prog string :=
  let zipped_name_without_extension :=
    FileUtilsRest.get_name_without_extension H zipped_path in
  let final_signal_cli_dir :=
    os_path_join P (signal_cli_dir self) zipped_name_without_extension in
  os_path_exists final_signal_cli_dir ≫= fun present : bool =>
  if present then
    log "Signal-cli already extracted";;
    mret final_signal_cli_dir
  else
    log "Extracting signal-cli";;
    FileUtilsRest.extract_tar_gz H zipped_path (dep_dir self)
      (Some (os_path_basename H (signal_cli_dir self)));;
    os_path_exists final_signal_cli_dir ≫= fun extracted : bool =>
    when (negb extracted) (log "Failed to extract signal-cli";; exit 1);;
    log "Signal-cli found and extracted successfully";;
    mret final_signal_cli_dir.

(** The loop of [check_and_setup_java] over [os.walk(openjdk_dir)]: the
    first directory that has subdirectories decides. *)
Fixpoint first_subdirectory (openjdk_dir : string)
    (walk : list (string * list string * list string)) : string :=
  match walk with
  | [] => openjdk_dir
  | (root, dirs, _) :: rest =>
      match dirs with
      | d :: _ => os_path_join P root d
      | [] => first_subdirectory openjdk_dir rest
      end
  end.

Definition check_and_setup_java : prog (option string) :=
  log "Checking for correct java version";;
  java_file ← FileUtilsRest.find_cli_jar H (signal_cli_dir self);
  match java_file with
  | None => log "Failed to find signal-cli jar";; mret None
  | Some java_file =>
      major_version ← JavaUtils.get_java_version_of_file P java_file;
      match major_version with
      | Some major_version =>
          let java_version := JavaUtils.java_version_from_major major_version in
          log ("Java Version of File: " ++ java_version);;
          log "Downloading OpenJDK";;
          download_path ← JavaUtils.download_openjdk P java_version (dep_dir self);
          if negb (Py.truthy download_path) then
            log "Failed to download OpenJDK";; mret None
          else
            log "Extracting OpenJDK";;
            FileUtils.extract_zip P (default EmptyString download_path)
              (dep_dir self) (Some "openjdk");;
            let openjdk_dir := os_path_join P (dep_dir self) "openjdk" in
            (fun w => (Returned (first_subdirectory openjdk_dir
                                   (os_walk H (fs w) openjdk_dir)), w))
              ≫= fun openjdk_dir : string =>
            log "Extracted OpenJDK";;
            let java_path :=
              os_path_join P (os_path_join P openjdk_dir "bin") "java.exe" in
            os_path_exists java_path ≫= fun present : bool =>
            if present then
              log ("Java path: " ++ java_path);; mret (Some java_path)
            else
              log ("Java executable not found at expected path: " ++ java_path);;
              mret None
      | None =>
          log "Could not determine the Java version from the JAR file.";;
          mret None
      end
  end.

Definition setup : prog (option string) :=
  create_directories;;
  latest_release ← get_latest_release;
  match latest_release with
  | Some latest_release =>
      zipped_path ← download_signal_cli latest_release;
      if Py.truthy zipped_path then
        signal_cli_path ← extract_signal_cli (default EmptyString zipped_path);
        let signal_cli_bat :=
          os_path_join P (os_path_join P signal_cli_path "bin")
            "signal-cli.bat" in
        java_path ← check_and_setup_java;
        SignalCLISetup.modify_batch_file P signal_cli_bat java_path;;
        if Py.truthy java_path then
          log "Signal-cli setup complete";;
          log ("Signal-cli path: " ++ signal_cli_bat);;
          log ("Java path: " ++ default EmptyString java_path);;
          mret (Some signal_cli_bat)
        else
          log "Java setup failed";; exit 1
      else mret None
  | None => mret None
  end.

End WithHost.

End SignalCLISetupRest.

(** ** Vocabulary of the statements, continued *)

(** The files [os.walk] yields, each with the directory it is in, in the
    order the script meets them. *)
Definition walk_files (walk : list (string * list string * list string))
  : list (string * string) :=
  flat_map (fun entry => map (pair (fst (fst entry))) (snd entry)) walk.

(** A file name [find_cli_jar] accepts. *)
Definition cli_jar (H : host) (file : string) : Prop :=
  has_suffix file ".jar"
  /\ exists q, os_path_basename H file = "signal-cli" ++ q.

(** The version string and the archive path of [download_openjdk]. *)
Definition openjdk_archive (P : platform) (version download_path : string)
  : string :=
  os_path_join P download_path
    ("openjdk-" ++ JavaUtils.download_openjdk_version version ++ ".zip").

(** A phrase that neither starts nor ends with white space. *)
Definition solid (x : string) : Prop :=
  (exists a t, x = String a t /\ Py.is_ascii_space a = false)
  /\ (exists y b, x = y ++ String b EmptyString /\ Py.is_ascii_space b = false).

Definition register_command (self : SignalCLIInteraction.t) (captcha : string)
  : string :=
  SignalCLIInteraction.signal_cli_path self ++ " -u "
  ++ SignalCLIInteraction.phone_number self
  ++ " register --captcha " ++ captcha.

Definition verify_command (self : SignalCLIInteraction.t) (code : string)
  : string :=
  SignalCLIInteraction.signal_cli_path self ++ " -u "
  ++ SignalCLIInteraction.phone_number self ++ " verify " ++ code.

(** The character [c] does not occur in [s]. *)
Definition no_char (c : ascii) (s : string) : bool :=
  Py.all_chars (fun x => negb (Ascii.eqb x c)) s.

(** A line with its terminator: no line feed before the final one. *)
Definition full_line (l : string) : Prop :=
  exists body, l = body ++ nl /\ no_char LF body = true.

(** A last line without terminator: not empty, no line feed. *)
Definition part_line (l : string) : Prop :=
  l <> EmptyString /\ no_char LF l = true.

(** Lines as [readlines] gives them: all with their terminator, except
    that the last one may lack it. *)
Fixpoint proper_lines (ls : list string) : Prop :=
  match ls with
  | [] => True
  | l :: rest =>
      match rest with
      | [] => full_line l \/ part_line l
      | _ :: _ => full_line l /\ proper_lines rest
      end
  end.

(** ** A concrete host, for running the rest of the script *)

(** [posixpath.basename]: the text after the last slash. *)
Fixpoint posix_basename (s : string) : string :=
  match s with
  | EmptyString => EmptyString
  | String c rest =>
      if Ascii.eqb c "/"%char || Py.contains "/" rest then posix_basename rest
      else s
  end.

(** A platform that differs from [P] in how it reads zip archives. *)
Definition with_zipfile_parse (P : platform)
    (parse : string -> option ZipFile) : platform := {|
  os_linesep := os_linesep P;
  os_path_join := os_path_join P;
  os_makedirs := os_makedirs P;
  os_open_write := os_open_write P;
  locale_decode := locale_decode P;
  locale_encode := locale_encode P;
  zipfile_parse := parse;
  zip_extractall := zip_extractall P;
  image := image P;
  pil_parse := pil_parse P;
  pyzbar_decode := pyzbar_decode P;
  subprocess_run := subprocess_run P;
  jdk_get_download_url := jdk_get_download_url P;
  requests_get := requests_get P
|}.

(** The sample platform with a screenshot that holds a linking code and a
    client that prints [text] on its error stream. *)
Definition client_platform (text : string) : platform := {|
  os_linesep := os_linesep sample_platform;
  os_path_join := os_path_join sample_platform;
  os_makedirs := os_makedirs sample_platform;
  os_open_write := os_open_write sample_platform;
  locale_decode := locale_decode sample_platform;
  locale_encode := locale_encode sample_platform;
  zipfile_parse := zipfile_parse sample_platform;
  zip_extractall := zip_extractall sample_platform;
  image := list Decoded;
  pil_parse := fun raw =>
    if String.eqb raw "qr"
    then Some [ {| data := list_byte_of_string "sgnl://linkdevice?uuid=1" |} ]
    else None;
  pyzbar_decode := fun img => img;
  subprocess_run := fun _ =>
    {| returncode := 1; stdout := EmptyString; stderr := text |};
  jdk_get_download_url := jdk_get_download_url sample_platform;
  requests_get := requests_get sample_platform
|}.

(** A platform that differs from [P] in the status of every response. *)
Definition with_status (P : platform) (status : Z) : platform := {|
  os_linesep := os_linesep P;
  os_path_join := os_path_join P;
  os_makedirs := os_makedirs P;
  os_open_write := os_open_write P;
  locale_decode := locale_decode P;
  locale_encode := locale_encode P;
  zipfile_parse := zipfile_parse P;
  zip_extractall := zip_extractall P;
  image := image P;
  pil_parse := pil_parse P;
  pyzbar_decode := pyzbar_decode P;
  subprocess_run := subprocess_run P;
  jdk_get_download_url := jdk_get_download_url P;
  requests_get := fun url =>
    {| status_code := status;
       content_length := content_length (requests_get P url);
       iter_content := iter_content (requests_get P url) |}
|}.

(** A platform that differs from [P] in the codec of the locale. *)
Definition with_codec (P : platform)
    (decode encode : string -> exception + string) : platform := {|
  os_linesep := os_linesep P;
  os_path_join := os_path_join P;
  os_makedirs := os_makedirs P;
  os_open_write := os_open_write P;
  locale_decode := decode;
  locale_encode := encode;
  zipfile_parse := zipfile_parse P;
  zip_extractall := zip_extractall P;
  image := image P;
  pil_parse := pil_parse P;
  pyzbar_decode := pyzbar_decode P;
  subprocess_run := subprocess_run P;
  jdk_get_download_url := jdk_get_download_url P;
  requests_get := requests_get P
|}.

(** The sample platform in a locale whose codec is ASCII. *)
Definition ascii_platform : platform :=
  with_codec sample_platform ascii_decode ascii_encode.

Definition empty_zip : ZipFile := {|
  namelist := [];
  zip_read := fun _ => inr []
|}.

(** The members of a tar archive: a path below the destination with a
    directory or the contents of a file. *)
Definition sample_tar : list (string * node) :=
  [ ("signal-cli-1.0", Dir);
    ("signal-cli-1.0/bin", Dir);
    ("signal-cli-1.0/bin/signal-cli.bat", File sample_script);
    ("signal-cli-1.0/lib", Dir);
    ("signal-cli-1.0/lib/signal-cli-1.0.jar", File "PK-sample") ].

Definition sample_walk (dir : string)
  : list (string * list string * list string) :=
  if String.eqb dir "/opt/app/assets/signal-cli" then
    [ ("/opt/app/assets/signal-cli", ["signal-cli-1.0"], []);
      ("/opt/app/assets/signal-cli/signal-cli-1.0", ["bin"; "lib"],
       ["README.md"]);
      ("/opt/app/assets/signal-cli/signal-cli-1.0/bin", [],
       ["signal-cli"; "signal-cli.bat"]);
      ("/opt/app/assets/signal-cli/signal-cli-1.0/lib", [],
       ["bcprov.jar"; "signal-cli-1.0.jar"; "signal-cli-sources.jar"]) ]
  else [].

(** A host over [P] with the given walk and release assets. *)
Definition make_host (P : platform)
    (walk : string -> list (string * list string * list string))
    (assets : list GithubUtils.Asset) : host := {|
  host_platform := P;
  os_path_basename := posix_basename;
  os_walk := fun _ dir => walk dir;
  tarfile := list (string * node);
  tarfile_parse := fun raw =>
    if String.eqb raw "TGZ-sample" then inr sample_tar
    else inl (Exception OSError "not a gzip file");
  tar_extractall := fun tar dest m =>
    inr (foldr (fun member acc =>
                  <[posix_join dest (fst member) := snd member]> acc)
               m tar);
  github_assets := fun _ => assets;
  script_directory := "/opt/app"
|}.

Definition sample_host : host :=
  make_host sample_platform sample_walk [linux_asset; plain_asset].

(** A platform that also reads an archive without entries. *)
Definition empty_zip_platform : platform :=
  with_zipfile_parse sample_platform (fun raw =>
    if String.eqb raw "PK-empty" then Some empty_zip
    else zipfile_parse sample_platform raw).

(** A machine on which the release was downloaded and extracted before. *)
Definition release_world : world := {|
  fs := list_to_map
          [ ("/opt/app/assets/signal-cli-1.0.tar.gz", File "TGZ-sample");
            ("/opt/app/assets/broken.tar.gz", File "garbage");
            ("/opt/app/assets/signal-cli/signal-cli-1.0", Dir);
            ("/opt/app/assets/signal-cli/signal-cli-1.0/bin/signal-cli.bat",
             File sample_script);
            ("/opt/app/assets/empty.zip", File "PK-empty");
            ("/opt/app/assets/notes.txt", File "hello");
            ("/opt/app/qr.png", File "qr") ];
  events := []
|}.

Definition sample_setup : SignalCLISetupRest.t :=
  SignalCLISetupRest.init sample_host "assets".

(** A machine on which only the release archive is present. *)
Definition fresh_world : world := {|
  fs := list_to_map
          [ ("/opt/app/assets/signal-cli-1.0.tar.gz", File "TGZ-sample") ];
  events := []
|}.

(** The destination [extract_signal_cli] hands to [extract_tar_gz]. *)
Definition release_destination (H : host) (self : SignalCLISetupRest.t)
  : string :=
  match os_path_basename H (SignalCLISetupRest.signal_cli_dir self) with
  | String c f =>
      os_path_join (host_platform H) (SignalCLISetupRest.dep_dir self)
        (String c f)
  | EmptyString => SignalCLISetupRest.dep_dir self
  end.

(** The directory [extract_signal_cli] expects the release in. *)
Definition release_directory (H : host) (self : SignalCLISetupRest.t)
    (zipped_path : string) : string :=
  os_path_join (host_platform H) (SignalCLISetupRest.signal_cli_dir self)
    (FileUtilsRest.get_name_without_extension H zipped_path).

(** The launcher [setup] patches. *)
Definition launcher_path (H : host) (signal_cli_path : string) : string :=
  os_path_join (host_platform H)
    (os_path_join (host_platform H) signal_cli_path "bin") "signal-cli.bat".

(** A machine on which the release and a runtime are installed. *)
Definition installed_walk (dir : string)
  : list (string * list string * list string) :=
  if String.eqb dir "/opt/app/assets/openjdk"
  then [ ("/opt/app/assets/openjdk", ["jdk-17"], []) ]
  else sample_walk dir.

Definition installed_host : host :=
  make_host sample_platform installed_walk [linux_asset; plain_asset].

Definition installed_world : world := {|
  fs := list_to_map
          [ ("/opt/app/assets", Dir);
            ("/opt/app/assets/signal-cli-1.0.tar.gz", File "TGZ-sample");
            ("/opt/app/assets/signal-cli/signal-cli-1.0", Dir);
            ("/opt/app/assets/signal-cli/signal-cli-1.0/bin/signal-cli.bat",
             File sample_script);
            ("/opt/app/assets/signal-cli/signal-cli-1.0/lib/signal-cli-1.0.jar",
             File "PK-sample");
            ("/opt/app/assets/openjdk", Dir);
            ("/opt/app/assets/openjdk/jdk-17/bin/java.exe", File "MZ") ];
  events := []
|}.

(** * Theorems *)

(** ** Strings *)

#[local] Arguments String.append !_ _ / : simpl nomatch.

Lemma substring_all (s : string) : String.substring 0 (String.length s) s = s.
Proof. induction s as [|c s IH]; simpl; [reflexivity | now rewrite IH]. Qed.

Lemma substring_skip (p s : string) (k : nat) :
  String.substring (String.length p) k (p ++ s) = String.substring 0 k s.
Proof. induction p as [|c p IH]; simpl; [reflexivity | exact IH]. Qed.

Lemma substring_split (s : string) (m k : nat) :
  (m + k = String.length s)%nat ->
  s = String.substring 0 m s ++ String.substring m k s.
Proof.
  revert m k. induction s as [|c s IH]; intros m k Hlen; simpl in Hlen.
  - assert (m = 0%nat) by lia. assert (k = 0%nat) by lia. subst. reflexivity.
  - destruct m as [|m]; simpl.
    + simpl in Hlen. subst k. simpl. now rewrite substring_all.
    + f_equal. apply IH. lia.
Qed.

Lemma string_app_length (a b : string) :
  String.length (a ++ b) = (String.length a + String.length b)%nat.
Proof. induction a as [|c a IH]; simpl; [reflexivity | now rewrite IH]. Qed.

Lemma endswith_spec (s suffix : string) :
  Py.endswith s suffix = true <-> has_suffix s suffix.
Proof.
  unfold Py.endswith, has_suffix. rewrite andb_true_iff, Nat.leb_le, String.eqb_eq.
  split.
  - intros [Hle Hsub].
    exists (String.substring 0 (String.length s - String.length suffix) s).
    pose proof (substring_split s (String.length s - String.length suffix)
                  (String.length suffix) ltac:(lia)) as Hsplit.
    now rewrite Hsub in Hsplit.
  - intros [p ->]. rewrite string_app_length. split; [lia|].
    replace (String.length p + String.length suffix - String.length suffix)%nat
      with (String.length p) by lia.
    rewrite substring_skip. apply substring_all.
Qed.

Lemma prefix_spec (p s : string) :
  String.prefix p s = true <-> exists q, s = p ++ q.
Proof.
  revert s. induction p as [|c p IH]; intros s; simpl.
  - split; [intros _; now exists s | intros _; now destruct s].
  - destruct s as [|c' s]; simpl.
    + split; [discriminate | intros [q Hq]; discriminate].
    + destruct (Ascii.ascii_dec c c') as [->|Hne].
      * rewrite IH. split; intros [q Hq]; exists q; congruence.
      * split; [discriminate | intros [q Hq]; congruence].
Qed.

Lemma contains_spec (sub s : string) :
  Py.contains sub s = true <-> has_substring s sub.
Proof.
  unfold has_substring. induction s as [|c s IH]; cbn [Py.contains].
  - rewrite orb_false_r, prefix_spec. split.
    + intros [q Hq]. now exists EmptyString, q.
    + intros [[|c p] [q Hq]]; [now exists q | discriminate].
  - rewrite orb_true_iff, prefix_spec, IH. split.
    + intros [[q Hq] | [p [q Hq]]].
      * now exists EmptyString, q.
      * exists (String c p), q. simpl. now rewrite Hq.
    + intros [[|c' p] [q Hq]].
      * left. now exists q.
      * right. exists p, q. simpl in Hq. congruence.
Qed.

Lemma is_ascii_digit_spec (c : ascii) :
  Py.is_ascii_digit c = true <-> decimal_digit c.
Proof.
  unfold Py.is_ascii_digit, decimal_digit.
  rewrite andb_true_iff, !N.leb_le. split.
  - intros [Hlo Hhi]. exists (N.to_nat (N_of_ascii c) - 48)%nat. split; [lia|].
    replace (48 + (N.to_nat (N_of_ascii c) - 48))%nat
      with (N.to_nat (N_of_ascii c)) by lia.
    unfold ascii_of_nat. now rewrite N2Nat.id, ascii_N_embedding.
  - intros [d [Hd ->]]. unfold ascii_of_nat.
    rewrite N_ascii_embedding by lia. lia.
Qed.

(** The byte strings that spell code points are the well-formed ones. *)
Lemma utf8_code_points_valid (bs : list byte) :
  utf8_valid bs = true <-> is_Some (utf8_code_points bs).
Proof.
  remember (length bs) as n eqn:Hn. revert bs Hn.
  induction n as [n IH] using lt_wf_ind. intros bs Hn.
  assert (Hno : false = true <-> is_Some (@None (list Z))).
  { split; [discriminate | intros [? ?]; discriminate]. }
  destruct bs as [|b0 r0]; [simpl; split; eauto|].
  cbn [utf8_valid utf8_code_points].
  destruct (byte_between 0x00 0x7F b0).
  { rewrite fmap_is_Some. apply (IH (length r0)); simpl in *; lia. }
  destruct r0 as [|b1 r1]; [exact Hno|].
  destruct (byte_between 0xC2 0xDF b0).
  { destruct (byte_between 0x80 0xBF b1); cbn [andb]; [|exact Hno].
    rewrite fmap_is_Some. apply (IH (length r1)); simpl in *; lia. }
  destruct r1 as [|b2 r2]; [exact Hno|].
  destruct (byte_between 0xE0 0xEF b0).
  { match goal with
    | |- context [if ?c then _ else None] => destruct c
    end; cbn [andb]; [|exact Hno].
    rewrite fmap_is_Some. apply (IH (length r2)); simpl in *; lia. }
  destruct r2 as [|b3 r3]; [exact Hno|].
  match goal with
  | |- context [if ?c then _ else None] => destruct c
  end; cbn [andb]; [|exact Hno].
  rewrite fmap_is_Some. apply (IH (length r3)); simpl in *; lia.
Qed.

(** What [bytes.decode] returns is a text. *)
Lemma bytes_decode_text (payload : list byte) (text : string) :
  bytes_decode payload = Some text -> is_Some (Py.code_points text).
Proof.
  unfold bytes_decode, Py.code_points.
  destruct (utf8_valid payload) eqn:Hvalid; [|discriminate].
  intros [= <-]. rewrite list_byte_of_string_of_list_byte.
  now apply utf8_code_points_valid.
Qed.

Lemma is_unicode_digit_spec (c : Z) :
  Py.is_unicode_digit c = true <-> unicode_digit c.
Proof.
  unfold Py.is_unicode_digit, unicode_digit. rewrite existsb_exists. split.
  - intros ([lo hi] & Hin & Hc). simpl in Hc.
    apply andb_true_iff in Hc as [Hlo Hhi]. exists lo, hi. split; [done | lia].
  - intros (lo & hi & Hin & Hc). exists (lo, hi). split; [done|].
    simpl. apply andb_true_iff. split; lia.
Qed.

Lemma isdigit_spec (s : string) : Py.isdigit s = true <-> numeric s.
Proof.
  unfold Py.isdigit, numeric.
  destruct (Py.code_points s) as [[|c cs]|].
  - split; [discriminate | intros (c & cs & Heq & _); discriminate].
  - rewrite forallb_forall. split.
    + intros Hall. exists c, cs. split; [done|]. apply List.Forall_forall.
      intros x Hx. now apply is_unicode_digit_spec, Hall.
    + intros (c' & cs' & Heq & Hall). injection Heq as <- <-.
      rewrite List.Forall_forall in Hall.
      intros x Hx. now apply is_unicode_digit_spec, Hall.
  - split; [discriminate | intros (c & cs & Heq & _); discriminate].
Qed.

Lemma byte_Z_of_ascii (c : ascii) :
  byte_Z (byte_of_ascii c) = Z.of_N (N_of_ascii c).
Proof. destruct c as [[] [] [] [] [] [] [] []]; reflexivity. Qed.

(** The code points of a text made of the digits [0] to [9] are the codes
    of its characters. *)
Lemma code_points_decimal (s : string) :
  Forall decimal_digit (chars s) ->
  Py.code_points s = Some (map (fun c => Z.of_N (N_of_ascii c)) (chars s))
  /\ Forall unicode_digit (map (fun c => Z.of_N (N_of_ascii c)) (chars s)).
Proof.
  unfold Py.code_points, chars. induction s as [|c s IH]; intros Hall.
  - split; [reflexivity | constructor].
  - simpl in Hall. apply Forall_cons in Hall as [Hc Hall].
    destruct (IH Hall) as [Hcps Hdigits].
    apply is_ascii_digit_spec in Hc. unfold Py.is_ascii_digit in Hc.
    apply andb_true_iff in Hc as [Hlo Hhi].
    apply N.leb_le in Hlo, Hhi.
    cbn [list_byte_of_string list_ascii_of_string map utf8_code_points].
    unfold byte_between. rewrite byte_Z_of_ascii.
    replace ((0 <=? Z.of_N (N_of_ascii c)) && (Z.of_N (N_of_ascii c) <=? 127))
      with true by (symmetry; apply andb_true_iff; split; lia).
    unfold list_byte_of_string in Hcps. rewrite Hcps. split; [reflexivity|].
    constructor; [|exact Hdigits].
    exists 48, 57. split; [now left | lia].
Qed.

(** A non-empty text made of the digits [0] to [9] is numeric. *)
Lemma decimal_numeric (s : string) :
  s <> EmptyString -> Forall decimal_digit (chars s) -> numeric s.
Proof.
  intros Hne Hall. destruct (code_points_decimal s Hall) as [Hcps Hdigits].
  destruct s as [|c s]; [done|].
  eexists _, _. split; [exact Hcps | exact Hdigits].
Qed.

(** ** Running programs *)

Ltac run_prog :=
  repeat (progress (unfold mbind, prog_bind, mret, prog_ret, when, log, print,
                    emit, exit, raise, list_head, run_command; simpl)).

Lemma new_events_app {A : Type} (w : world) (o : outcome A) (m : gmap string node)
    (t : list event) :
  new_events w (o, World m (events w ++ t)) = t.
Proof. unfold new_events. simpl. apply drop_app_length. Qed.

Lemma new_events_same {A : Type} (w : world) (o : outcome A) :
  new_events w (o, w) = [].
Proof. unfold new_events. simpl. apply drop_all. Qed.

(** ** SignalCLIInteraction.verify *)

Lemma verify_rejected (P : platform) (self : SignalCLIInteraction.t)
    (code : string) (w : world) :
  Py.isdigit code = false ->
  SignalCLIInteraction.verify P self code w
  = (Exited 1, World (fs w) (events w ++ [EvLog "Invalid code"])).
Proof. intros H. unfold SignalCLIInteraction.verify. rewrite H. reflexivity. Qed.

Lemma verify_accepted (P : platform) (self : SignalCLIInteraction.t)
    (code : string) (w : world) :
  Py.isdigit code = true ->
  exists o rest,
    SignalCLIInteraction.verify P self code w
    = (o, World (fs w)
            (events w ++
               EvLog "Verifying code"
               :: EvRun (SignalCLIInteraction.signal_cli_path self ++ " -u "
                         ++ SignalCLIInteraction.phone_number self
                         ++ " verify " ++ code)
               :: rest)).
Proof.
  intros H. unfold SignalCLIInteraction.verify. rewrite H. run_prog.
  rewrite <- !app_assoc. simpl.
  destruct (Py.contains _ _); simpl; rewrite <- ?app_assoc; simpl; eauto.
Qed.

(** C6: [verify] hands a command to the external client exactly when the
    code is numeric in the sense of [str.isdigit]: a text of at least one
    character, all of them digits of the Unicode character database.  A
    code that is not numeric ends the process with status 1 after the single
    message [Invalid code]; a numeric code is passed on in the command
    [<client> -u <phone> verify <code>].  The code [abc123] is not numeric
    and [123456] is.  Every non-empty text made of the digits [0] to [9] is
    numeric, and so are the Arabic-Indic digits one, two, three and the
    superscript two; the fraction one half is not. *)
Theorem verify_invokes_client_iff_numeric (P : platform)
    (self : SignalCLIInteraction.t) (code : string) (w : world) :
  (invokes_client w (SignalCLIInteraction.verify P self code w) <-> numeric code)
  /\ (~ numeric code ->
      SignalCLIInteraction.verify P self code w
      = (Exited 1, World (fs w) (events w ++ [EvLog "Invalid code"])))
  /\ (numeric code ->
      exists rest,
        new_events w (SignalCLIInteraction.verify P self code w)
        = EvLog "Verifying code"
          :: EvRun (SignalCLIInteraction.signal_cli_path self ++ " -u "
                    ++ SignalCLIInteraction.phone_number self
                    ++ " verify " ++ code)
          :: rest)
  /\ ~ numeric "abc123" /\ numeric "123456"
  /\ (code <> EmptyString -> Forall decimal_digit (chars code) -> numeric code)
  /\ numeric arabic_indic_123 /\ numeric superscript_two
  /\ ~ numeric one_half.
Proof.
  assert (Hrun : (invokes_client w (SignalCLIInteraction.verify P self code w)
                  <-> numeric code)
                 /\ (~ numeric code ->
                     SignalCLIInteraction.verify P self code w
                     = (Exited 1, World (fs w) (events w ++ [EvLog "Invalid code"])))
                 /\ (numeric code ->
                     exists rest,
                       new_events w (SignalCLIInteraction.verify P self code w)
                       = EvLog "Verifying code"
                         :: EvRun (SignalCLIInteraction.signal_cli_path self
                                   ++ " -u "
                                   ++ SignalCLIInteraction.phone_number self
                                   ++ " verify " ++ code)
                         :: rest)).
  { rewrite <- !isdigit_spec.
    destruct (Py.isdigit code) eqn:Hd.
    - destruct (verify_accepted P self code w Hd) as (o & rest & Hrun).
      unfold invokes_client. rewrite Hrun, !new_events_app.
      repeat split; try done.
      + intros _. eexists. apply list_elem_of_further, list_elem_of_here.
      + intros _. now exists rest.
    - rewrite (verify_rejected P self code w Hd). unfold invokes_client.
      rewrite !new_events_app. repeat split; try done.
      intros [c Hc]. apply list_elem_of_singleton in Hc. discriminate. }
  destruct Hrun as (Hiff & Hrejected & Haccepted).
  split; [exact Hiff|]. split; [exact Hrejected|]. split; [exact Haccepted|].
  split; [rewrite <- isdigit_spec; vm_compute; discriminate|].
  split; [apply isdigit_spec; vm_compute; reflexivity|].
  split; [apply decimal_numeric|].
  split; [apply isdigit_spec; vm_compute; reflexivity|].
  split; [apply isdigit_spec; vm_compute; reflexivity|].
  rewrite <- isdigit_spec. vm_compute. discriminate.
Qed.

Lemma verify_sample_codes :
  SignalCLIInteraction.verify sample_platform sample_self "abc123" sample_world
  = (Exited 1, World (fs sample_world) [EvLog "Invalid code"])
  /\ invokes_client sample_world
       (SignalCLIInteraction.verify sample_platform sample_self "123456"
          sample_world)
  /\ invokes_client sample_world
       (SignalCLIInteraction.verify sample_platform sample_self
          arabic_indic_123 sample_world).
Proof.
  split; [|split].
  - destruct (verify_invokes_client_iff_numeric sample_platform sample_self
                "abc123" sample_world) as (_ & Hrejected & _ & Hnot & _).
    exact (Hrejected Hnot).
  - destruct (verify_invokes_client_iff_numeric sample_platform sample_self
                "123456" sample_world) as (Hiff & _ & _ & _ & Hnum & _).
    exact (proj2 Hiff Hnum).
  - destruct (verify_invokes_client_iff_numeric sample_platform sample_self
                arabic_indic_123 sample_world)
      as (Hiff & _ & _ & _ & _ & _ & Harabic & _).
    exact (proj2 Hiff Harabic).
Defined.

(** C10: the empty code is rejected locally.  [verify] ends the process
    with status 1 after the message [Invalid code] and hands nothing to the
    external client: [isdigit] is false on the empty string although every
    character of it (there is none) is a digit. *)
Theorem verify_rejects_empty_code (P : platform)
    (self : SignalCLIInteraction.t) (w : world) :
  SignalCLIInteraction.verify P self EmptyString w
  = (Exited 1, World (fs w) (events w ++ [EvLog "Invalid code"]))
  /\ ~ invokes_client w (SignalCLIInteraction.verify P self EmptyString w)
  /\ Py.isdigit EmptyString = false
  /\ Forall decimal_digit (chars EmptyString).
Proof.
  repeat split; try constructor.
  change (SignalCLIInteraction.verify P self EmptyString w)
    with (@Exited unit 1, World (fs w) (events w ++ [EvLog "Invalid code"])).
  unfold invokes_client. rewrite new_events_app.
  intros [c Hc]. apply list_elem_of_singleton in Hc. discriminate.
Qed.

(** ** JavaUtils.java_version_from_major *)

Lemma forallb_Z_range (f : Z -> bool) (lo : Z) (n : nat) :
  forallb f (map (fun i => lo + Z.of_nat i) (seq 0 n)) = true ->
  forall m, lo <= m < lo + Z.of_nat n -> f m = true.
Proof.
  intros Hall m Hm. rewrite forallb_forall in Hall. apply Hall.
  apply in_map_iff. exists (Z.to_nat (m - lo)). split; [lia|].
  apply in_seq. lia.
Qed.

Lemma version_mapping_outside (m : Z) :
  ~ (45 <= m <= 74) -> JavaUtils.version_mapping !! m = None.
Proof.
  intros Hm. apply not_elem_of_list_to_map_1. intros Hin.
  apply list_elem_of_In in Hin. simpl in Hin. lia.
Qed.

(** C5, as the code has it: major 52 is labelled [Java 8], and every major
    outside 45..74 is given the sentinel label [Unknown Java version]: the
    lookup never fails. *)
Theorem java_version_from_major_table :
  JavaUtils.java_version_from_major 52 = "Java 8"
  /\ forall m, ~ (45 <= m <= 74) ->
       JavaUtils.java_version_from_major m = "Unknown Java version".
Proof.
  split; [vm_compute; reflexivity|].
  intros m Hm. unfold JavaUtils.java_version_from_major.
  now rewrite version_mapping_outside.
Qed.

Lemma java_version_from_major_table_999 :
  JavaUtils.java_version_from_major 999 = "Unknown Java version".
Proof. apply (proj2 java_version_from_major_table 999). lia. Defined.

(** C5 as stated fails at major 999: the label is not the string
    [Unknown]. *)
Lemma java_version_from_major_not_Unknown :
  JavaUtils.java_version_from_major 999 = "Unknown Java version"
  /\ JavaUtils.java_version_from_major 999 <> "Unknown".
Proof. split; [vm_compute; reflexivity | vm_compute; discriminate]. Qed.

(** ** GithubUtils.get_latest_release *)

Lemma asset_test_spec (asset : GithubUtils.Asset) :
  Py.endswith (GithubUtils.name asset) ".tar.gz"
  && negb (Py.contains "linux" (Py.lower (GithubUtils.name asset))) = true
  <-> accepted_asset asset.
Proof.
  unfold accepted_asset.
  rewrite andb_true_iff, negb_true_iff, endswith_spec, <- contains_spec.
  now rewrite not_true_iff_false.
Qed.

Lemma first_matching_asset_Some (assets : list GithubUtils.Asset)
    (a : GithubUtils.Asset) :
  GithubUtils.first_matching_asset assets = Some a <->
  exists pre post,
    assets = (pre ++ a :: post)%list /\ accepted_asset a
    /\ Forall (fun b => ~ accepted_asset b) pre.
Proof.
  induction assets as [|b assets IH]; simpl.
  - split; [discriminate | intros ([|? ?] & ? & ? & _); discriminate].
  - destruct (Py.endswith _ _ && negb _) eqn:Hb.
    + apply asset_test_spec in Hb. split.
      * intros [= ->]. exists [], assets.
        split; [done | split; [done | constructor]].
      * intros ([|c pre] & post & Heq & Ha & Hpre); simplify_eq/=; [done|].
        now apply Forall_cons in Hpre as [Hc _].
    + assert (Hnb : ~ accepted_asset b).
      { rewrite <- asset_test_spec. now rewrite Hb. }
      rewrite IH. split.
      * intros (pre & post & -> & Ha & Hpre).
        exists (b :: pre), post.
        split; [done | split; [done | now constructor]].
      * intros ([|c pre] & post & Heq & Ha & Hpre); simplify_eq/=; [done|].
        apply Forall_cons in Hpre as [_ Hpre]. now exists pre, post.
Qed.

Lemma first_matching_asset_None (assets : list GithubUtils.Asset) :
  GithubUtils.first_matching_asset assets = None <->
  Forall (fun b => ~ accepted_asset b) assets.
Proof.
  induction assets as [|b assets IH]; simpl.
  - split; [constructor | reflexivity].
  - rewrite Forall_cons, <- asset_test_spec.
    destruct (Py.endswith _ _ && negb _).
    + split; [discriminate | intros [Hn _]; now destruct Hn].
    + rewrite IH. split; [intros H; split; [discriminate | exact H] | tauto].
Qed.

(** C2, as the code has it: [get_latest_release] returns the first asset
    of the latest release whose name ends with [.tar.gz] and whose
    lowercased name does not contain [linux], and returns nothing exactly when
    no asset is of that kind.  For the list [signal-cli-1.0-linux.tar.gz],
    [signal-cli-1.0.tar.gz] it selects the second asset. *)
Theorem get_latest_release_first_accepted
    (github : string -> list GithubUtils.Asset) (repo_name : string) :
  (forall a,
     GithubUtils.get_latest_release github repo_name = Some a <->
     exists pre post,
       github repo_name = (pre ++ a :: post)%list /\ accepted_asset a
       /\ Forall (fun b => ~ accepted_asset b) pre)
  /\ (GithubUtils.get_latest_release github repo_name = None <->
      Forall (fun b => ~ accepted_asset b) (github repo_name))
  /\ GithubUtils.get_latest_release (fun _ => [linux_asset; plain_asset]) repo_name
     = Some plain_asset.
Proof.
  unfold GithubUtils.get_latest_release. split; [|split].
  - intros a. apply first_matching_asset_Some.
  - apply first_matching_asset_None.
  - vm_compute. reflexivity.
Qed.

Lemma get_latest_release_sample_assets :
  GithubUtils.get_latest_release (fun _ => [linux_asset; plain_asset])
    "AsamK/signal-cli" = Some plain_asset.
Proof.
  apply (proj1 (get_latest_release_first_accepted
                  (fun _ => [linux_asset; plain_asset]) "AsamK/signal-cli")).
  exists [linux_asset], []. split; [reflexivity | split].
  - split; [now exists "signal-cli-1.0"|].
    rewrite <- contains_spec. vm_compute. discriminate.
  - constructor; [|constructor].
    intros [_ Hno]. apply Hno, contains_spec. vm_compute. reflexivity.
Defined.

(** C2 as stated fails when a [.zip] asset comes first: the specification's
    filter takes it, the code passes it over for the [.tar.gz] asset. *)
Lemma get_latest_release_passes_over_zip :
  GithubUtils.get_latest_release (fun _ => [zip_asset; plain_asset])
    "AsamK/signal-cli" = Some plain_asset
  /\ GithubUtils.spec_select_asset [zip_asset; plain_asset] = Some zip_asset
  /\ zip_asset <> plain_asset.
Proof. repeat split; vm_compute; (reflexivity || discriminate). Qed.

(** ** JavaUtils.get_java_version_of_file *)

Lemma byte_Z_range (b : byte) : 0 <= byte_Z b <= 255.
Proof. unfold byte_Z. pose proof (Byte.to_N_bounded b). lia. Qed.

Lemma byte_Z_inj (a b : byte) : byte_Z a = byte_Z b -> a = b.
Proof.
  unfold byte_Z. intros H. apply N2Z.inj in H.
  pose proof (Byte.of_to_N a) as Ha. rewrite H, Byte.of_to_N in Ha. congruence.
Qed.

Lemma be_uint_4 (b0 b1 b2 b3 : byte) :
  JavaUtils.be_uint [b0; b1; b2; b3]
  = ((byte_Z b0 * 256 + byte_Z b1) * 256 + byte_Z b2) * 256 + byte_Z b3.
Proof. reflexivity. Qed.

Lemma be_uint_2 (hi lo : byte) :
  JavaUtils.be_uint [hi; lo] = byte_Z hi * 256 + byte_Z lo.
Proof. reflexivity. Qed.

Lemma magic_spec (b0 b1 b2 b3 : byte) :
  JavaUtils.be_uint [b0; b1; b2; b3] = 0xCAFEBABE
  <-> [b0; b1; b2; b3] = class_magic.
Proof.
  split.
  - rewrite be_uint_4. intros H.
    pose proof (byte_Z_range b0). pose proof (byte_Z_range b1).
    pose proof (byte_Z_range b2). pose proof (byte_Z_range b3).
    assert (byte_Z b0 = byte_Z xca) by (change (byte_Z xca) with 202; lia).
    assert (byte_Z b1 = byte_Z xfe) by (change (byte_Z xfe) with 254; lia).
    assert (byte_Z b2 = byte_Z xba) by (change (byte_Z xba) with 186; lia).
    assert (byte_Z b3 = byte_Z xbe) by (change (byte_Z xbe) with 190; lia).
    unfold class_magic. f_equal; [|f_equal; [|f_equal; [|f_equal]]];
      now apply byte_Z_inj.
  - intros [= -> -> -> ->]. reflexivity.
Qed.

Lemma at_least_8 {A : Type} (d : list A) :
  (8 <= length d)%nat ->
  exists b0 b1 b2 b3 b4 b5 b6 b7 tl,
    d = b0 :: b1 :: b2 :: b3 :: b4 :: b5 :: b6 :: b7 :: tl.
Proof.
  intros H.
  do 8 (destruct d as [|? d]; [simpl in H; lia|]).
  repeat eexists.
Qed.

Lemma scan_classes_valid (jar : ZipFile) (file_name : string)
    (rest : list string) (w : world) :
  valid_class_entry jar file_name ->
  JavaUtils.scan_classes jar (file_name :: rest) w
  = (Returned (Some (entry_major jar file_name)), w).
Proof.
  intros (Hsuf & contents & Hread & Hlen & Hmagic). apply endswith_spec in Hsuf.
  unfold entry_major. simpl. rewrite Hsuf, Hread.
  destruct (at_least_8 _ Hlen) as (b0&b1&b2&b3&b4&b5&b6&b7&tl&Hd).
  rewrite Hd in *. simpl in Hmagic. apply magic_spec in Hmagic.
  cbn [take length Nat.ltb Nat.leb].
  unfold JavaUtils.struct_unpack_IHH. cbn [length Nat.eqb take drop].
  rewrite !take_0. cbn [length Nat.eqb].
  rewrite Hmagic, be_uint_2. reflexivity.
Qed.

Lemma scan_classes_unreadable (jar : ZipFile) (file_name : string)
    (rest : list string) (w : world) (e : exception) :
  unreadable_class_entry jar file_name e ->
  JavaUtils.scan_classes jar (file_name :: rest) w = (Raised e, w).
Proof.
  intros [Hsuf Hread]. apply endswith_spec in Hsuf.
  simpl. now rewrite Hsuf, Hread.
Qed.

Lemma scan_classes_skip (jar : ZipFile) (file_name : string)
    (rest : list string) (w : world) :
  skipped_entry jar file_name ->
  JavaUtils.scan_classes jar (file_name :: rest) w
  = JavaUtils.scan_classes jar rest w.
Proof.
  intros [Hinvalid Hreadable]. simpl.
  destruct (Py.endswith file_name ".class") eqn:Hsuf; [|reflexivity].
  apply endswith_spec in Hsuf.
  destruct (zip_read jar file_name) as [e|contents] eqn:Hread.
  { now contradiction (Hreadable e). }
  destruct (Nat.le_gt_cases 8 (length contents)) as [Hlen|Hlen].
  - destruct (at_least_8 _ Hlen) as (b0&b1&b2&b3&b4&b5&b6&b7&tl&->).
    cbn [take length Nat.ltb Nat.leb].
    unfold JavaUtils.struct_unpack_IHH. cbn [length Nat.eqb take drop].
    rewrite !take_0. cbn [length Nat.eqb].
    destruct (JavaUtils.be_uint [b0; b1; b2; b3] =? 0xCAFEBABE) eqn:Hm;
      [|reflexivity].
    exfalso. apply Hinvalid. apply Z.eqb_eq, magic_spec in Hm.
    split; [done|]. eexists. split; [exact Hread|]. split; [exact Hlen|].
    exact Hm.
  - rewrite length_take.
    replace (8 `min` length contents)%nat with (length contents) by lia.
    apply Nat.ltb_lt in Hlen. now rewrite Hlen.
Qed.

(** Every entry is of exactly one kind for the version reader: accepted,
    unreadable or passed over. *)
Lemma class_entry_cases (jar : ZipFile) (file_name : string) :
  valid_class_entry jar file_name
  \/ (exists e, unreadable_class_entry jar file_name e)
  \/ skipped_entry jar file_name.
Proof.
  unfold skipped_entry, valid_class_entry, unreadable_class_entry.
  destruct (Py.endswith file_name ".class") eqn:Hs.
  - apply endswith_spec in Hs.
    destruct (zip_read jar file_name) as [e|contents] eqn:Hread.
    { right. left. now exists e. }
    destruct (Nat.le_gt_cases 8 (length contents)) as [Hlen|Hlen].
    + destruct (List.list_eq_dec Byte.byte_eq_dec (take 4 contents) class_magic)
        as [Hmagic|Hmagic].
      * left. split; [done|]. now exists contents.
      * right. right. split.
        -- intros (_ & c & [= <-] & _ & Hm). contradiction.
        -- intros e [_ He]. discriminate.
    + right. right. split.
      * intros (_ & c & [= <-] & Hl & _). lia.
      * intros e [_ He]. discriminate.
  - right. right. split.
    + intros [Hsuf _]. apply endswith_spec in Hsuf. congruence.
    + intros e [Hsuf _]. apply endswith_spec in Hsuf. congruence.
Qed.

Lemma scan_classes_first_valid (jar : ZipFile) (pre : list string)
    (file_name : string) (post : list string) (w : world) :
  valid_class_entry jar file_name ->
  Forall (skipped_entry jar) pre ->
  JavaUtils.scan_classes jar (pre ++ file_name :: post) w
  = (Returned (Some (entry_major jar file_name)), w).
Proof.
  intros Hvalid Hpre. induction Hpre as [|n pre Hn _ IH].
  - now apply scan_classes_valid.
  - rewrite <- app_comm_cons, scan_classes_skip by done. exact IH.
Qed.

Lemma scan_classes_first_unreadable (jar : ZipFile) (pre : list string)
    (file_name : string) (post : list string) (w : world) (e : exception) :
  unreadable_class_entry jar file_name e ->
  Forall (skipped_entry jar) pre ->
  JavaUtils.scan_classes jar (pre ++ file_name :: post) w = (Raised e, w).
Proof.
  intros Hbad Hpre. induction Hpre as [|n pre Hn _ IH].
  - now apply scan_classes_unreadable.
  - rewrite <- app_comm_cons, scan_classes_skip by done. exact IH.
Qed.

Lemma scan_classes_none_valid (jar : ZipFile) (names : list string) (w : world) :
  Forall (skipped_entry jar) names ->
  JavaUtils.scan_classes jar names w = (Returned None, w).
Proof.
  induction 1 as [|n names Hn _ IH]; [reflexivity|].
  now rewrite scan_classes_skip.
Qed.

(** The loop returns an optional number or raises, and leaves the world
    alone. *)
Lemma scan_classes_cases (jar : ZipFile) (names : list string) (w : world) :
  (exists r, JavaUtils.scan_classes jar names w = (Returned r, w))
  \/ (exists e, JavaUtils.scan_classes jar names w = (Raised e, w)).
Proof.
  induction names as [|n names IH]; [left; now exists None|].
  destruct (class_entry_cases jar n) as [Hv | [[e He] | Hs]].
  - rewrite scan_classes_valid by done. eauto.
  - rewrite (scan_classes_unreadable jar n names w e) by done. eauto.
  - now rewrite scan_classes_skip.
Qed.

(** Where every class entry can be read, the loop gives the result the
    specification describes. *)
Lemma scan_classes_spec_read_major (jar : ZipFile) (names : list string)
    (w : world) :
  Forall (fun n => forall e, ~ unreadable_class_entry jar n e) names ->
  JavaUtils.scan_classes jar names w
  = (Returned (JavaUtils.spec_read_major jar names), w).
Proof.
  induction 1 as [|n names Hn _ IH]; [reflexivity|].
  cbn [JavaUtils.scan_classes JavaUtils.spec_read_major].
  unfold JavaUtils.spec_entry_major.
  destruct (Py.endswith n ".class") eqn:Hsuf; [|exact IH].
  apply endswith_spec in Hsuf.
  destruct (zip_read jar n) as [e|contents] eqn:Hread.
  { now contradiction (Hn e). }
  cbv zeta. unfold JavaUtils.struct_unpack_IHH.
  destruct (Nat.le_gt_cases 8 (length contents)) as [Hlen|Hlen].
  - destruct (at_least_8 _ Hlen) as (b0&b1&b2&b3&b4&b5&b6&b7&tl&Hd).
    rewrite Hd. cbn [take length Nat.ltb Nat.leb Nat.eqb drop].
    rewrite !take_0. cbn [length Nat.eqb].
    destruct (JavaUtils.be_uint [b0; b1; b2; b3] =? 0xCAFEBABE);
      [reflexivity | exact IH].
  - rewrite length_take.
    replace (8 `min` length contents)%nat with (length contents) by lia.
    assert (Hlt : (length contents <? 8)%nat = true) by now apply Nat.ltb_lt.
    assert (Hne : (length contents =? 8)%nat = false)
      by (apply Nat.eqb_neq; lia).
    now rewrite Hlt, Hne.
Qed.

Lemma ZipFile_open_ok (P : platform) (path raw : string) (jar : ZipFile)
    (w : world) :
  fs w !! path = Some (File raw) -> zipfile_parse P raw = Some jar ->
  ZipFile_open P path w = (Returned jar, w).
Proof.
  intros Hfile Hparse. unfold ZipFile_open, read_raw. run_prog.
  now rewrite Hfile, Hparse.
Qed.

(** Opening an archive returns it or raises; the world stays as it is. *)
Lemma ZipFile_open_cases (P : platform) (path : string) (w : world) :
  (exists jar, ZipFile_open P path w = (Returned jar, w))
  \/ (exists e, ZipFile_open P path w = (Raised e, w)).
Proof.
  unfold ZipFile_open, read_raw. run_prog.
  destruct (fs w !! path) as [[raw|]|]; [|right; eauto..].
  destruct (zipfile_parse P raw); [left | right]; eauto.
Qed.

Lemma ZipFile_open_Returned (P : platform) (path : string) (w w' : world)
    (jar : ZipFile) :
  ZipFile_open P path w = (Returned jar, w') ->
  w' = w /\ exists raw, fs w !! path = Some (File raw)
                        /\ zipfile_parse P raw = Some jar.
Proof.
  unfold ZipFile_open, read_raw. run_prog.
  destruct (fs w !! path) as [[raw|]|]; try discriminate.
  destruct (zipfile_parse P raw) eqn:Hparse; try discriminate.
  intros [= <- <-]. eauto.
Qed.

(** Every exception is caught: the call returns, and the file system is
    as it was. *)
Lemma get_java_version_returns (P : platform) (jar_path : string) (w : world) :
  exists r w',
    JavaUtils.get_java_version_of_file P jar_path w = (Returned r, w')
    /\ fs w' = fs w.
Proof.
  unfold JavaUtils.get_java_version_of_file, try_except.
  unfold mbind at 1. unfold prog_bind at 1.
  destruct (ZipFile_open_cases P jar_path w) as [[jar ->] | [e ->]].
  - destruct (scan_classes_cases jar (namelist jar) w) as [[r ->] | [e ->]].
    + eauto.
    + run_prog. eauto.
  - run_prog. eauto.
Qed.

(** C1, as the code has it: when the bundle opens, the first entry, in the
    order of [namelist], that is not passed over decides.  Entries with
    another suffix, and class entries that can be read and have fewer than 8
    bytes or another magic number, are passed over.  When the deciding entry
    is a class entry with at least 8 bytes starting with CA FE BA BE, the
    result is its major version (bytes 6 and 7, big-endian).  When it is a
    class entry that cannot be opened or read, the scan ends there: the
    error is logged and the result is [None], whatever follows.  With no
    deciding entry the result is [None].  When the bundle cannot be opened
    (nothing at the path, a directory, a file that is not an archive) the
    error is logged and the result is [None].  In every case the call
    returns: no exception escapes, the process does not exit and the file
    system is unchanged. *)
Theorem get_java_version_of_file_first_valid (P : platform)
    (jar_path : string) (w : world) :
  (forall raw jar pre file_name post,
     fs w !! jar_path = Some (File raw) ->
     zipfile_parse P raw = Some jar ->
     namelist jar = (pre ++ file_name :: post)%list ->
     Forall (skipped_entry jar) pre ->
     (valid_class_entry jar file_name ->
      JavaUtils.get_java_version_of_file P jar_path w
      = (Returned (Some (entry_major jar file_name)), w))
     /\ (forall e,
          unreadable_class_entry jar file_name e ->
          JavaUtils.get_java_version_of_file P jar_path w
          = (Returned None,
             World (fs w)
               (events w
                  ++ [EvLog ("Error reading JAR file: " ++ exc_message e)]))))
  /\ (forall raw jar,
        fs w !! jar_path = Some (File raw) ->
        zipfile_parse P raw = Some jar ->
        Forall (skipped_entry jar) (namelist jar) ->
        JavaUtils.get_java_version_of_file P jar_path w = (Returned None, w))
  /\ ((forall raw jar, fs w !! jar_path = Some (File raw) ->
                       zipfile_parse P raw <> Some jar) ->
      exists e,
        JavaUtils.get_java_version_of_file P jar_path w
        = (Returned None,
           World (fs w)
             (events w ++ [EvLog ("Error reading JAR file: " ++ exc_message e)])))
  /\ (exists r w',
        JavaUtils.get_java_version_of_file P jar_path w = (Returned r, w')
        /\ fs w' = fs w).
Proof.
  split; [|split; [|split]].
  - intros raw jar pre file_name post Hfile Hparse Hnames Hpre.
    split.
    + intros Hvalid.
      unfold JavaUtils.get_java_version_of_file, try_except.
      unfold mbind at 1. unfold prog_bind at 1.
      rewrite (ZipFile_open_ok P jar_path raw jar w Hfile Hparse), Hnames.
      now rewrite scan_classes_first_valid.
    + intros e Hbad.
      unfold JavaUtils.get_java_version_of_file, try_except.
      unfold mbind at 1. unfold prog_bind at 1.
      rewrite (ZipFile_open_ok P jar_path raw jar w Hfile Hparse), Hnames.
      now rewrite (scan_classes_first_unreadable jar pre file_name post w e).
  - intros raw jar Hfile Hparse Hnone.
    unfold JavaUtils.get_java_version_of_file, try_except.
    unfold mbind, prog_bind.
    rewrite (ZipFile_open_ok P jar_path raw jar w Hfile Hparse).
    now rewrite scan_classes_none_valid.
  - intros Hclosed.
    unfold JavaUtils.get_java_version_of_file, try_except.
    unfold mbind at 1. unfold prog_bind at 1.
    destruct (ZipFile_open_cases P jar_path w) as [[jar Hjar] | [e He]].
    + apply ZipFile_open_Returned in Hjar as (_ & raw & Hfile & Hparse).
      now contradiction (Hclosed raw jar Hfile).
    + rewrite He. run_prog. now exists e.
  - apply get_java_version_returns.
Qed.

Lemma sample_jar_skipped :
  Forall (skipped_entry sample_jar)
    ["META-INF/MANIFEST.MF"; "short.class"; "text.class"].
Proof.
  repeat constructor.
  - intros (Hs & _). apply endswith_spec in Hs. vm_compute in Hs. discriminate.
  - intros e (Hs & _). apply endswith_spec in Hs. vm_compute in Hs. discriminate.
  - intros (_ & c & [= <-] & Hlen & _). simpl in Hlen. lia.
  - intros e (_ & He). discriminate.
  - intros (_ & c & [= <-] & _ & Hm). vm_compute in Hm. discriminate.
  - intros e (_ & He). discriminate.
Qed.

Lemma get_java_version_of_sample_jar :
  JavaUtils.get_java_version_of_file sample_platform "lib/signal-cli.jar"
    sample_world = (Returned (Some 61), sample_world).
Proof.
  apply (proj1 (proj1 (get_java_version_of_file_first_valid sample_platform
                         "lib/signal-cli.jar" sample_world)
                  "PK-sample" sample_jar
                  ["META-INF/MANIFEST.MF"; "short.class"; "text.class"]
                  "org/asamk/Main.class" ["org/asamk/Other.class"]
                  ltac:(vm_compute; reflexivity) eq_refl eq_refl
                  sample_jar_skipped)).
  split; [now exists "org/asamk/Main"|].
  exists sample_class. split; [reflexivity | split; [simpl; lia | reflexivity]].
Defined.

(** C1 as stated fails on a bundle whose first class entry cannot be
    opened: a valid class entry follows, and is the first entry with the
    class suffix and the magic number, but the scan ends at the unreadable
    entry and the result is [None]. *)
Lemma get_java_version_of_file_stops_at_unreadable :
  valid_class_entry broken_jar "org/asamk/Main.class"
  /\ JavaUtils.spec_read_major broken_jar (namelist broken_jar) = Some 61
  /\ JavaUtils.get_java_version_of_file sample_platform "lib/broken.jar"
       sample_world
     = (Returned None,
        World (fs sample_world)
          [EvLog "Error reading JAR file: Bad magic number for file header"])
  /\ @None Z <> Some 61.
Proof.
  split; [|split; [|split]].
  - split; [now exists "org/asamk/Main"|].
    exists sample_class. split; [reflexivity | split; [simpl; lia | reflexivity]].
  - vm_compute. reflexivity.
  - vm_compute. reflexivity.
  - discriminate.
Qed.

(** ** FileUtils.extract_zip *)

Lemma split_head_spec (sep : ascii) (s : string) :
  ~ has_substring (Py.split_head sep s) (String sep EmptyString)
  /\ (s = Py.split_head sep s
      \/ exists r, s = Py.split_head sep s ++ String sep r).
Proof.
  induction s as [|c s [IHno IHsplit]]; simpl.
  - split; [|now left].
    intros ([|? ?] & q & Hq); discriminate.
  - destruct (Ascii.eqb_spec c sep) as [->|Hne].
    + split; [|right; now exists s].
      intros ([|? ?] & q & Hq); discriminate.
    + split.
      * intros ([|c' p] & q & Hq); simpl in Hq; injection Hq as Hc Hq.
        -- now apply Hne.
        -- apply IHno. now exists p, q.
      * destruct IHsplit as [Heq | [r Hr]].
        -- left. now f_equal.
        -- right. exists r. simpl. now f_equal.
Qed.

Lemma extract_zip_existing (P : platform) (w : world)
    (file_path extract_to : string) (folder_name : option string)
    (raw : string) (zip_ref : ZipFile) (first_name : string)
    (rest : list string) :
  fs w !! file_path = Some (File raw) ->
  zipfile_parse P raw = Some zip_ref ->
  namelist zip_ref = first_name :: rest ->
  is_Some (fs w !! FileUtils.extract_zip_destination P extract_to folder_name
                     (Py.split_head "/"%char first_name)) ->
  FileUtils.extract_zip P file_path extract_to folder_name w
  = (Returned tt,
     World (fs w)
       (events w ++
          [EvLog ("Extracting " ++ file_path);
           EvLog ("Extraction aborted: " ++ Py.split_head "/"%char first_name
                  ++ " already exists.")])).
Proof.
  intros Hfile Hparse Hnames Hdest.
  unfold FileUtils.extract_zip, ZipFile_open, read_raw, os_path_exists.
  run_prog. rewrite Hfile. simpl. rewrite Hparse. simpl. rewrite Hnames. simpl.
  rewrite bool_decide_eq_true_2 by done. simpl.
  now rewrite <- app_assoc.
Qed.

Lemma extract_zip_fresh (P : platform) (w : world)
    (file_path extract_to : string) (folder_name : option string)
    (raw : string) (zip_ref : ZipFile) (first_name : string)
    (rest : list string) (m1 m2 : gmap string node) :
  fs w !! file_path = Some (File raw) ->
  zipfile_parse P raw = Some zip_ref ->
  namelist zip_ref = first_name :: rest ->
  let dest := FileUtils.extract_zip_destination P extract_to folder_name
                (Py.split_head "/"%char first_name) in
  fs w !! dest = None ->
  os_makedirs P (fs w) dest = inr m1 ->
  zip_extractall P zip_ref dest m1 = inr m2 ->
  FileUtils.extract_zip P file_path extract_to folder_name w
  = (Returned tt,
     World m2
       (events w ++
          [EvLog ("Extracting " ++ file_path);
           EvLog ("Extraction complete to " ++ dest)])).
Proof.
  intros Hfile Hparse Hnames dest Hdest Hmk Hex.
  unfold FileUtils.extract_zip, ZipFile_open, read_raw, os_path_exists, fs_call.
  run_prog. rewrite Hfile. simpl. rewrite Hparse. simpl. rewrite Hnames. simpl.
  fold dest. rewrite bool_decide_eq_false_2 by (rewrite Hdest; now intros [? ?]).
  simpl. rewrite Hmk. simpl. rewrite Hex. simpl.
  now rewrite <- app_assoc.
Qed.

(** An archive without entries: [namelist()[0]] raises, whatever the
    destination. *)
Lemma extract_zip_empty_archive (P : platform) (w : world)
    (file_path extract_to : string) (folder_name : option string)
    (raw : string) (zip_ref : ZipFile) :
  fs w !! file_path = Some (File raw) ->
  zipfile_parse P raw = Some zip_ref ->
  namelist zip_ref = [] ->
  FileUtils.extract_zip P file_path extract_to folder_name w
  = (Raised (Exception IndexError "list index out of range"),
     World (fs w) (events w ++ [EvLog ("Extracting " ++ file_path)])).
Proof.
  intros Hfile Hparse Hnames.
  unfold FileUtils.extract_zip, ZipFile_open, read_raw.
  run_prog. rewrite Hfile. simpl. rewrite Hparse. simpl. now rewrite Hnames.
Qed.

(** C7: for an archive that opens and has a first entry, the destination of
    [extract_zip] is [extract_to] joined with the override [folder_name]
    when one is given (a non-empty string), and otherwise with the first
    top-level name of the archive, the text of its first entry name before
    the first slash.  When that destination exists already the call
    returns normally after two messages and changes nothing in the file
    system, so running it again is again such a no-op.  When it does not
    exist it is created and the archive is extracted into it. *)
Theorem extract_zip_existing_destination_noop (P : platform) (w : world)
    (file_path extract_to : string) (folder_name : option string)
    (raw : string) (zip_ref : ZipFile) (first_name : string)
    (rest : list string) :
  fs w !! file_path = Some (File raw) ->
  zipfile_parse P raw = Some zip_ref ->
  namelist zip_ref = first_name :: rest ->
  let first_folder := Py.split_head "/"%char first_name in
  let dest :=
    FileUtils.extract_zip_destination P extract_to folder_name first_folder in
  let run := FileUtils.extract_zip P file_path extract_to folder_name in
  dest = os_path_join P extract_to
           match folder_name with
           | Some (String c f) => String c f
           | _ => first_folder
           end
  /\ (~ has_substring first_folder "/"
      /\ (first_name = first_folder
          \/ exists r, first_name = first_folder ++ "/" ++ r))
  /\ (is_Some (fs w !! dest) ->
      run w = (Returned tt,
               World (fs w)
                 (events w ++
                    [EvLog ("Extracting " ++ file_path);
                     EvLog ("Extraction aborted: " ++ first_folder
                            ++ " already exists.")]))
      /\ fst (run (snd (run w))) = Returned tt
      /\ fs (snd (run (snd (run w)))) = fs w)
  /\ (fs w !! dest = None ->
      forall m1 m2,
        os_makedirs P (fs w) dest = inr m1 ->
        zip_extractall P zip_ref dest m1 = inr m2 ->
        run w = (Returned tt,
                 World m2
                   (events w ++
                      [EvLog ("Extracting " ++ file_path);
                       EvLog ("Extraction complete to " ++ dest)]))).
Proof.
  intros Hfile Hparse Hnames first_folder dest run.
  split; [|split; [|split]].
  - unfold dest, FileUtils.extract_zip_destination.
    now destruct folder_name as [[|c f]|].
  - apply split_head_spec.
  - intros Hdest.
    assert (Hrun : forall w0, fs w0 = fs w ->
              run w0 = (Returned tt,
                        World (fs w0)
                          (events w0 ++
                             [EvLog ("Extracting " ++ file_path);
                              EvLog ("Extraction aborted: " ++ first_folder
                                     ++ " already exists.")]))).
    { intros w0 Hw0. unfold run.
      apply (extract_zip_existing P w0 _ _ _ raw zip_ref first_name rest);
        rewrite ?Hw0; done. }
    rewrite (Hrun w eq_refl). simpl. rewrite Hrun by done. done.
  - intros Hdest m1 m2 Hmk Hex.
    now apply (extract_zip_fresh P w _ _ _ raw zip_ref first_name rest m1 m2).
Qed.

Lemma extract_zip_sample_openjdk_present :
  FileUtils.extract_zip sample_platform "assets/openjdk-17.zip" "assets"
    (Some "openjdk") sample_world
  = (Returned tt,
     World (fs sample_world)
       [EvLog "Extracting assets/openjdk-17.zip";
        EvLog "Extraction aborted: META-INF already exists."]).
Proof.
  refine (proj1 (proj1 (proj2 (proj2
    (extract_zip_existing_destination_noop sample_platform sample_world
       "assets/openjdk-17.zip" "assets" (Some "openjdk") "PK-sample"
       sample_jar "META-INF/MANIFEST.MF"
       ["short.class"; "text.class"; "org/asamk/Main.class";
        "org/asamk/Other.class"] _ _ _))) _)).
  - vm_compute. reflexivity.
  - reflexivity.
  - reflexivity.
  - exists Dir. vm_compute. reflexivity.
Defined.

(** ** SignalCLIInteraction.add_device *)

Lemma bytes_decode_empty (payload : list byte) :
  bytes_decode payload = Some EmptyString -> payload = [].
Proof.
  unfold bytes_decode. destruct (utf8_valid payload); [|discriminate].
  destruct payload; [reflexivity | discriminate].
Qed.

Lemma add_device_runs (P : platform) (self : SignalCLIInteraction.t)
    (screenshot : string) (w : world) :
  exists o t,
    SignalCLIInteraction.add_device P self screenshot w
    = (o, World (fs w) (events w ++ t))
    /\ add_device_run P self screenshot w o t.
Proof.
  unfold SignalCLIInteraction.add_device, SignalCLIInteraction.Image_open,
    os_path_exists, read_raw.
  run_prog.
  destruct (fs w !! screenshot) as [[raw|]|] eqn:Hfile.
  - rewrite bool_decide_eq_true_2 by eauto. simpl. rewrite Hfile. simpl.
    destruct (pil_parse P raw) as [img|] eqn:Himg; simpl.
    + destruct (pyzbar_decode P img) as [|first rest] eqn:Hdec; simpl.
      * eexists _, []. rewrite app_nil_r. destruct w. split; [done|].
        eapply run_no_region; eauto.
      * destruct (bytes_decode (data first)) as [uri|] eqn:Huri; simpl.
        -- destruct (String.eqb_spec uri EmptyString) as [->|Hne]; simpl.
           ++ eexists _, _. split; [done|].
              eapply run_empty_payload; eauto using bytes_decode_empty.
           ++ rewrite <- !app_assoc. simpl.
              destruct (Py.contains "invalid format" _ || Py.contains "failed" _)
                eqn:Herr; simpl; rewrite <- ?app_assoc; simpl.
              ** eexists _, _. split; [done|].
                 eapply run_client_fails; eauto.
              ** eexists _, _. split; [done|]. eapply run_added; eauto.
        -- eexists _, []. rewrite app_nil_r. destruct w. split; [done|].
           eapply run_bad_payload; eauto.
    + eexists _, []. rewrite app_nil_r. destruct w. split; [done|].
      eapply run_not_an_image; eauto.
  - rewrite bool_decide_eq_true_2 by eauto. simpl. rewrite Hfile. simpl.
    eexists _, []. rewrite app_nil_r. destruct w. split; [done|].
    now apply run_directory.
  - rewrite bool_decide_eq_false_2 by (now intros [? ?]). simpl.
    eexists _, _. split; [done|]. now apply run_invalid_path.
Qed.

(** C9: when the screenshot exists and opens as an image in which the
    decoder finds no region, [add_device] ends with the IndexError of
    [decode(img)[0]]: nothing is logged, in particular not [Failed to decode
    QR Code], and no command is handed to the external client.  The branch
    that logs [Failed to decode QR Code] and exits with status 1 is taken when
    the decoder returns at least one region and the payload of the first one
    is empty, and the message is logged in no other case. *)
Theorem add_device_without_code_raises (P : platform)
    (self : SignalCLIInteraction.t) (screenshot : string) (w : world) :
  (forall raw img,
     fs w !! screenshot = Some (File raw) ->
     pil_parse P raw = Some img ->
     pyzbar_decode P img = [] ->
     SignalCLIInteraction.add_device P self screenshot w
     = (Raised (Exception IndexError "list index out of range"), w)
     /\ new_events w (SignalCLIInteraction.add_device P self screenshot w) = []
     /\ ~ invokes_client w (SignalCLIInteraction.add_device P self screenshot w))
  /\ (forall raw img first rest,
        fs w !! screenshot = Some (File raw) ->
        pil_parse P raw = Some img ->
        pyzbar_decode P img = first :: rest ->
        data first = [] ->
        SignalCLIInteraction.add_device P self screenshot w
        = (Exited 1,
           World (fs w) (events w ++ [EvLog "Failed to decode QR Code"])))
  /\ (EvLog "Failed to decode QR Code"
        ∈ new_events w (SignalCLIInteraction.add_device P self screenshot w) ->
      exists raw img first rest,
        fs w !! screenshot = Some (File raw)
        /\ pil_parse P raw = Some img
        /\ pyzbar_decode P img = first :: rest
        /\ data first = []).
Proof.
  split; [|split].
  - intros raw img Hfile Himg Hdec.
    assert (Hresult : SignalCLIInteraction.add_device P self screenshot w
                      = (Raised (Exception IndexError "list index out of range"), w)).
    { unfold SignalCLIInteraction.add_device, SignalCLIInteraction.Image_open,
        os_path_exists, read_raw.
      run_prog. rewrite bool_decide_eq_true_2 by (rewrite Hfile; eauto). simpl.
      rewrite Hfile. simpl. rewrite Himg. simpl. now rewrite Hdec. }
    unfold invokes_client. rewrite Hresult, new_events_same.
    split; [done | split; [done|]].
    intros [c Hc]. now apply elem_of_nil in Hc.
  - intros raw img first rest Hfile Himg Hdec Hdata.
    unfold SignalCLIInteraction.add_device, SignalCLIInteraction.Image_open,
      os_path_exists, read_raw.
    run_prog. rewrite bool_decide_eq_true_2 by (rewrite Hfile; eauto). simpl.
    rewrite Hfile. simpl. rewrite Himg. simpl. rewrite Hdec. simpl.
    now rewrite Hdata.
  - destruct (add_device_runs P self screenshot w) as (o & t & Hrun & Hcase).
    rewrite Hrun, new_events_app. clear Hrun.
    destruct Hcase as
      [ Hnone | Hdir | raw Hfile Himg | raw img Hfile Himg Hdec
      | raw img first rest Hfile Himg Hdec Hbad
      | raw img first rest Hfile Himg Hdec Hdata
      | raw img first rest uri error Hfile Himg Hdec Huri Hne Herr
      | raw img first rest uri Hfile Himg Hdec Huri Hne ];
      intros Hin;
      repeat (apply elem_of_cons in Hin as [Hin|Hin]; [try discriminate|]);
      try (now apply elem_of_nil in Hin).
    + eauto 10.
    + injection Hin as <-. vm_compute in Herr. discriminate.
Qed.

Lemma add_device_blank_screenshot :
  SignalCLIInteraction.add_device sample_platform sample_self "blank.png"
    sample_world
  = (Raised (Exception IndexError "list index out of range"), sample_world).
Proof.
  refine (proj1 (proj1 (add_device_without_code_raises sample_platform
                          sample_self "blank.png" sample_world)
                   "blank" [] _ _ _)).
  - vm_compute. reflexivity.
  - reflexivity.
  - reflexivity.
Defined.

(** ** Text files *)

Lemma string_app_assoc (a b c : string) : (a ++ b) ++ c = a ++ b ++ c.
Proof. induction a as [|x a IH]; simpl; [reflexivity | now rewrite IH]. Qed.

Lemma string_app_nil_r (a : string) : a ++ EmptyString = a.
Proof. induction a as [|x a IH]; simpl; [reflexivity | now rewrite IH]. Qed.

Lemma translate_newlines_app (linesep a b : string) :
  translate_newlines linesep (a ++ b)
  = translate_newlines linesep a ++ translate_newlines linesep b.
Proof.
  induction a as [|x a IH]; simpl; [reflexivity|].
  destruct (Ascii.eqb x LF); rewrite IH; [now rewrite string_app_assoc | reflexivity].
Qed.

(** Joining the lines of a text gives the text back. *)
Lemma text_of_readlines (text : string) : text_of (readlines text) = text.
Proof.
  induction text as [|c text IH]; simpl; [reflexivity|].
  destruct (Ascii.eqb c LF); simpl.
  - now rewrite IH.
  - destruct (readlines text) as [|line lines]; simpl in *.
    + now rewrite <- IH.
    + now rewrite <- IH.
Qed.

Lemma lf_round_trip (raw : string) :
  lf_style raw = true ->
  translate_newlines nl (universal_newlines raw) = raw.
Proof.
  induction raw as [|c raw IH]; simpl; [reflexivity|].
  rewrite andb_true_iff, negb_true_iff. intros [Hc Hraw]. rewrite Hc. simpl.
  rewrite IH by done.
  destruct (Ascii.eqb_spec c LF) as [->|_]; reflexivity.
Qed.

Lemma crlf_round_trip (raw : string) :
  crlf_style raw = true ->
  translate_newlines crlf (universal_newlines raw) = raw.
Proof.
  enough (H : (crlf_style raw = true ->
               translate_newlines crlf (universal_newlines raw) = raw)
              /\ forall c, crlf_style (String c raw) = true ->
                   translate_newlines crlf (universal_newlines (String c raw))
                   = String c raw) by apply H.
  induction raw as [|a raw [IH1 IH2]].
  - split; [reflexivity|]. intros c. simpl.
    destruct (Ascii.eqb c CR); [discriminate|]. simpl.
    destruct (Ascii.eqb c LF); [discriminate | reflexivity].
  - split; [apply IH2|]. intros c.
    cbn [crlf_style universal_newlines].
    destruct (Ascii.eqb_spec c CR) as [->|Hcr].
    + rewrite andb_true_iff. intros [Ha Hraw].
      rewrite Ha. apply Ascii.eqb_eq in Ha as ->.
      cbn [translate_newlines]. change (Ascii.eqb LF LF) with true. cbn iota.
      now rewrite IH1.
    + rewrite andb_true_iff, negb_true_iff. intros [Hlf Hrest].
      cbn [translate_newlines]. rewrite Hlf. f_equal. now apply IH2.
Qed.

Lemma platform_newlines_round_trip (P : platform) (raw : string) :
  platform_newlines P raw = true ->
  translate_newlines (os_linesep P) (universal_newlines raw) = raw.
Proof.
  unfold platform_newlines.
  rewrite orb_true_iff, !andb_true_iff, !String.eqb_eq.
  intros [[-> H] | [-> H]]; [now apply lf_round_trip | now apply crlf_round_trip].
Qed.

(** ** SignalCLISetup.modify_batch_file *)

Lemma text_of_translate (linesep : string) (pieces : list string) :
  text_of (map (translate_newlines linesep) pieces)
  = translate_newlines linesep (text_of pieces).
Proof.
  induction pieces as [|piece pieces IH]; [reflexivity|].
  cbn [map text_of foldr]. fold (text_of pieces).
  fold (text_of (map (translate_newlines linesep) pieces)).
  now rewrite translate_newlines_app, IH.
Qed.

Lemma write_lines_run (P : platform) (path modified : string)
    (lines chunks : list string) (replaced : bool) (w : world) (acc : string) :
  fs w !! path = Some (File acc) ->
  written_as P (map (patch_line modified) lines) chunks ->
  SignalCLISetup.write_lines P path modified lines replaced w
  = (Returned (replaced || existsb is_original_line lines),
     World (<[path := File (acc ++ text_of chunks)]> (fs w)) (events w)).
Proof.
  unfold written_as. revert chunks replaced w acc.
  induction lines as [|line lines IH]; intros chunks replaced w acc Hacc Hchunks.
  - apply Forall2_nil_inv_l in Hchunks as ->.
    simpl. rewrite orb_false_r, string_app_nil_r, insert_id by done.
    now destruct w.
  - cbn [map] in Hchunks.
    apply Forall2_cons_inv_l in Hchunks as (chunk & rest & Hchunk & Hrest & ->).
    cbn [SignalCLISetup.write_lines text_of foldr existsb].
    fold (text_of rest).
    unfold patch_line in Hchunk. unfold is_original_line at 1.
    rewrite <- string_app_assoc.
    destruct (String.eqb line SignalCLISetup.original_line);
      unfold mbind, prog_bind, file_write; rewrite Hacc, Hchunk;
      (rewrite IH with (chunks := rest) (acc := (acc ++ chunk)%string)
         by (simpl; first [apply lookup_insert_eq | exact Hrest]));
      simpl; now rewrite insert_insert_eq, ?orb_true_r.
Qed.

(** The loop stops at the first text the codec cannot encode; the file
    keeps what was written before. *)
Lemma write_lines_stops (P : platform) (path modified : string)
    (pre : list string) (line : string) (post chunks : list string)
    (replaced : bool) (w : world) (acc : string) (e : exception) :
  fs w !! path = Some (File acc) ->
  written_as P (map (patch_line modified) pre) chunks ->
  text_bytes P (patch_line modified line) = inl e ->
  SignalCLISetup.write_lines P path modified (pre ++ line :: post) replaced w
  = (Raised e,
     World (<[path := File (acc ++ text_of chunks)]> (fs w)) (events w)).
Proof.
  unfold written_as. revert chunks replaced w acc.
  induction pre as [|l pre IH]; intros chunks replaced w acc Hacc Hchunks Hbad.
  - apply Forall2_nil_inv_l in Hchunks as ->.
    cbn [app SignalCLISetup.write_lines text_of foldr].
    rewrite string_app_nil_r, insert_id by done.
    unfold patch_line in Hbad.
    destruct (String.eqb line SignalCLISetup.original_line);
      unfold mbind, prog_bind, file_write; rewrite Hacc, Hbad; now destruct w.
  - cbn [map] in Hchunks.
    apply Forall2_cons_inv_l in Hchunks as (chunk & rest & Hchunk & Hrest & ->).
    cbn [app SignalCLISetup.write_lines text_of foldr].
    fold (text_of rest).
    unfold patch_line in Hchunk.
    rewrite <- string_app_assoc.
    destruct (String.eqb l SignalCLISetup.original_line);
      unfold mbind, prog_bind, file_write; rewrite Hacc, Hchunk;
      (rewrite IH with (chunks := rest) (acc := (acc ++ chunk)%string)
         by (simpl; first [apply lookup_insert_eq | exact Hrest | exact Hbad]));
      simpl; now rewrite insert_insert_eq.
Qed.

Lemma modify_batch_file_run (P : platform) (w : world) (path : string)
    (custom_java_exe : option string) (raw text : string)
    (chunks : list string) :
  fs w !! path = Some (File raw) ->
  locale_decode P raw = inr text ->
  os_open_write P (fs w) path = None ->
  let lines := readlines (universal_newlines text) in
  written_as P
    (map (patch_line (SignalCLISetup.modified_line custom_java_exe)) lines)
    chunks ->
  SignalCLISetup.modify_batch_file P path custom_java_exe w
  = (Returned tt,
     World (<[path := File (text_of chunks)]> (fs w))
           (events w ++
              [EvLog (if existsb is_original_line lines
                      then "Successfully modified '" ++ path ++ "'."
                      else "Line not found. No changes made to '" ++ path
                           ++ "'.")])).
Proof.
  intros Hfile Hdecode Hopen lines Hchunks.
  unfold SignalCLISetup.modify_batch_file, os_path_isfile, open_readlines,
    read_raw, open_truncate, lift_result.
  unfold mbind, prog_bind, mret, prog_ret. rewrite Hfile. cbn [negb].
  rewrite Hfile, Hdecode, Hopen. cbv beta iota zeta.
  rewrite write_lines_run with (acc := EmptyString) (chunks := chunks)
    by (simpl; first [apply lookup_insert_eq | exact Hchunks]).
  fold lines. cbn [orb fs events String.append]. rewrite insert_insert_eq.
  destruct (existsb is_original_line lines); reflexivity.
Qed.

(** A script the codec cannot decode, or that cannot be opened for writing,
    is left as it is: the exception leaves the call and nothing is
    logged. *)
Lemma modify_batch_file_not_rewritten (P : platform) (w : world)
    (path : string) (custom_java_exe : option string) (raw : string)
    (e : exception) :
  fs w !! path = Some (File raw) ->
  (locale_decode P raw = inl e
   \/ exists text, locale_decode P raw = inr text
                   /\ os_open_write P (fs w) path = Some e) ->
  SignalCLISetup.modify_batch_file P path custom_java_exe w = (Raised e, w).
Proof.
  intros Hfile Hcase.
  unfold SignalCLISetup.modify_batch_file, os_path_isfile, open_readlines,
    read_raw, open_truncate, lift_result.
  unfold mbind, prog_bind, mret, prog_ret. rewrite Hfile. cbn [negb].
  rewrite Hfile.
  destruct Hcase as [Hdecode | (text & Hdecode & Hopen)]; rewrite Hdecode;
    [reflexivity|].
  cbv beta iota. now rewrite Hopen.
Qed.

(** When the codec cannot encode one of the lines, the script is cut down to
    the lines before it. *)
Lemma modify_batch_file_cut_short (P : platform) (w : world) (path : string)
    (custom_java_exe : option string) (raw text : string)
    (pre : list string) (line : string) (post chunks : list string)
    (e : exception) :
  fs w !! path = Some (File raw) ->
  locale_decode P raw = inr text ->
  os_open_write P (fs w) path = None ->
  readlines (universal_newlines text) = (pre ++ line :: post)%list ->
  let modified := SignalCLISetup.modified_line custom_java_exe in
  written_as P (map (patch_line modified) pre) chunks ->
  text_bytes P (patch_line modified line) = inl e ->
  SignalCLISetup.modify_batch_file P path custom_java_exe w
  = (Raised e, World (<[path := File (text_of chunks)]> (fs w)) (events w)).
Proof.
  intros Hfile Hdecode Hopen Hlines modified Hchunks Hbad.
  unfold SignalCLISetup.modify_batch_file, os_path_isfile, open_readlines,
    read_raw, open_truncate, lift_result.
  unfold mbind, prog_bind, mret, prog_ret. rewrite Hfile. cbn [negb].
  rewrite Hfile, Hdecode, Hopen. cbv beta iota zeta. rewrite Hlines.
  rewrite write_lines_stops with (acc := EmptyString) (chunks := chunks) (e := e)
    by (simpl; first [apply lookup_insert_eq | exact Hchunks | exact Hbad]).
  cbn [fs events String.append]. now rewrite insert_insert_eq.
Qed.

Lemma existsb_is_original_line (lines : list string) :
  existsb is_original_line lines = true
  <-> In SignalCLISetup.original_line lines.
Proof.
  rewrite existsb_exists. unfold is_original_line. split.
  - intros (line & Hin & Heq). apply String.eqb_eq in Heq. now subst.
  - intros Hin. exists SignalCLISetup.original_line.
    split; [done | apply String.eqb_refl].
Qed.

(** The UTF-8 codec of the sample platform gives back the bytes it read. *)
Lemma utf8_reencodes (raw : string) : reencodes sample_platform raw.
Proof.
  intros text pieces chunks Hdecode Hpieces Hchunks.
  cbn [locale_decode sample_platform] in Hdecode. unfold utf8_decode in Hdecode.
  destruct (utf8_valid (list_byte_of_string raw)); [|discriminate].
  injection Hdecode as <-. rewrite <- Hpieces. clear Hpieces.
  induction Hchunks as [|piece chunk pieces chunks Hchunk _ IH]; [reflexivity|].
  cbn [locale_encode sample_platform] in Hchunk. unfold utf8_encode in Hchunk.
  destruct (utf8_valid (list_byte_of_string piece)); [|discriminate].
  injection Hchunk as <-. cbn [text_of foldr]. fold (text_of chunks).
  fold (text_of pieces). now rewrite IH.
Qed.

(** C3, as the code has it: for a script that the codec of the locale
    decodes and that can be opened for writing, [modify_batch_file] writes,
    for each line it read, either that line unchanged or, when the line
    equals the literal [set JAVA_EXE=%JAVA_HOME%/bin/java.exe] with its
    terminator, the line that assigns the given runtime path; every line
    equal to the literal is replaced, not only the first.  When the codec
    encodes these lines, the file then holds their bytes in order, each LF
    written as the line separator of the platform, and the success message
    is logged exactly when some line matched. *)
Theorem modify_batch_file_replaces_every_match (P : platform) (w : world)
    (path : string) (custom_java_exe : option string) (raw text : string)
    (chunks : list string) :
  fs w !! path = Some (File raw) ->
  locale_decode P raw = inr text ->
  os_open_write P (fs w) path = None ->
  let lines := readlines (universal_newlines text) in
  let modified := SignalCLISetup.modified_line custom_java_exe in
  let written := map (patch_line modified) lines in
  written_as P written chunks ->
  SignalCLISetup.modify_batch_file P path custom_java_exe w
  = (Returned tt,
     World (<[path := File (text_of chunks)]> (fs w))
           (events w ++
              [EvLog (if existsb is_original_line lines
                      then "Successfully modified '" ++ path ++ "'."
                      else "Line not found. No changes made to '" ++ path
                           ++ "'.")]))
  /\ (existsb is_original_line lines = true
      <-> In SignalCLISetup.original_line lines)
  /\ length written = length lines
  /\ length chunks = length lines
  /\ (forall i, lines !! i = Some SignalCLISetup.original_line ->
                written !! i = Some modified)
  /\ (forall i line, lines !! i = Some line ->
                     line <> SignalCLISetup.original_line ->
                     written !! i = Some line)
  /\ (forall i chunk, chunks !! i = Some chunk ->
        exists line, written !! i = Some line
                     /\ locale_encode P (translate_newlines (os_linesep P) line)
                        = inr chunk).
Proof.
  intros Hfile Hdecode Hopen lines modified written Hchunks.
  split; [now apply (modify_batch_file_run P w path custom_java_exe raw text)|].
  split; [apply existsb_is_original_line|].
  split; [apply length_map|].
  split.
  { rewrite <- (Forall2_length _ _ _ Hchunks). apply length_map. }
  split; [|split].
  - intros i Hi. unfold written. rewrite list_lookup_fmap, Hi. simpl.
    unfold patch_line. now rewrite String.eqb_refl.
  - intros i line Hi Hne. unfold written. rewrite list_lookup_fmap, Hi. simpl.
    unfold patch_line. apply String.eqb_neq in Hne. now rewrite Hne.
  - intros i chunk Hi.
    destruct (Forall2_lookup_r _ _ _ _ _ Hchunks Hi) as (line & Hline & Henc).
    now exists line.
Qed.

Lemma sample_script_written :
  written_as sample_platform
    (map (patch_line (SignalCLISetup.modified_line (Some "C:/jdk/bin/java.exe")))
       (readlines (universal_newlines sample_script)))
    ["@echo off" ++ nl; "set JAVA_EXE=C:/jdk/bin/java.exe" ++ nl;
     "echo done" ++ nl].
Proof. repeat (constructor; [vm_compute; reflexivity|]). constructor. Qed.

Lemma modify_batch_file_sample_script :
  SignalCLISetup.modify_batch_file sample_platform "bin/signal-cli.bat"
    (Some "C:/jdk/bin/java.exe") sample_world
  = (Returned tt,
     World (<["bin/signal-cli.bat" :=
                File ("@echo off" ++ nl ++ "set JAVA_EXE=C:/jdk/bin/java.exe"
                      ++ nl ++ "echo done" ++ nl)]> (fs sample_world))
           [EvLog "Successfully modified 'bin/signal-cli.bat'."]).
Proof.
  exact (proj1 (modify_batch_file_replaces_every_match sample_platform
                  sample_world "bin/signal-cli.bat"
                  (Some "C:/jdk/bin/java.exe") sample_script sample_script
                  ["@echo off" ++ nl; "set JAVA_EXE=C:/jdk/bin/java.exe" ++ nl;
                   "echo done" ++ nl]
                  ltac:(vm_compute; reflexivity) ltac:(vm_compute; reflexivity)
                  ltac:(vm_compute; reflexivity) sample_script_written)).
Defined.

(** C3 as stated fails on a script that holds the literal line twice: the
    code replaces both occurrences, where the specification lets the second
    one pass through. *)
Lemma modify_batch_file_replaces_second_match :
  readlines (universal_newlines
               (SignalCLISetup.original_line ++ SignalCLISetup.original_line))
  = [SignalCLISetup.original_line; SignalCLISetup.original_line]
  /\ SignalCLISetup.modify_batch_file sample_platform "bin/double.bat"
       (Some "java") sample_world
     = (Returned tt,
        World (<["bin/double.bat" :=
                   File (SignalCLISetup.modified_line (Some "java")
                         ++ SignalCLISetup.modified_line (Some "java"))]>
                 (fs sample_world))
              [EvLog "Successfully modified 'bin/double.bat'."])
  /\ text_of (SignalCLISetup.spec_patch_first
                (SignalCLISetup.modified_line (Some "java"))
                [SignalCLISetup.original_line; SignalCLISetup.original_line])
     = SignalCLISetup.modified_line (Some "java") ++ SignalCLISetup.original_line
  /\ SignalCLISetup.modified_line (Some "java")
       ++ SignalCLISetup.modified_line (Some "java")
     <> SignalCLISetup.modified_line (Some "java")
          ++ SignalCLISetup.original_line.
Proof.
  split; [vm_compute; reflexivity|].
  split; [vm_compute; reflexivity|].
  split; [vm_compute; reflexivity|].
  vm_compute. discriminate.
Qed.

Lemma patch_line_no_match (modified : string) (lines : list string) :
  ~ In SignalCLISetup.original_line lines ->
  map (patch_line modified) lines = lines.
Proof.
  intros Hnone. induction lines as [|l ls IH]; [reflexivity|].
  simpl. rewrite IH by (intros H; apply Hnone; now right).
  unfold patch_line.
  destruct (String.eqb_spec l SignalCLISetup.original_line) as [->|_];
    [|reflexivity].
  exfalso. apply Hnone. now left.
Qed.

(** C4, as the code has it: when no line of a script that the codec decodes
    equals the literal, [modify_batch_file] writes the lines back as it read
    them, logs [Line not found. No changes made to ...] and returns [None].
    The file system is unchanged when the script already uses the line
    separator of the platform and the codec gives back the bytes it read.
    The value returned is the one returned for any script that is rewritten,
    patched or not: only the logged message differs. *)
Theorem modify_batch_file_line_not_found (P : platform) (w : world)
    (path : string) (custom_java_exe : option string) (raw text : string)
    (chunks : list string) :
  fs w !! path = Some (File raw) ->
  locale_decode P raw = inr text ->
  os_open_write P (fs w) path = None ->
  let lines := readlines (universal_newlines text) in
  ~ In SignalCLISetup.original_line lines ->
  written_as P lines chunks ->
  SignalCLISetup.modify_batch_file P path custom_java_exe w
  = (Returned tt,
     World (<[path := File (text_of chunks)]> (fs w))
           (events w ++
              [EvLog ("Line not found. No changes made to '" ++ path ++ "'.")]))
  /\ (platform_newlines P text = true -> reencodes P raw ->
      fs (snd (SignalCLISetup.modify_batch_file P path custom_java_exe w)) = fs w)
  /\ (forall w2 raw2 text2 exe2 chunks2,
        fs w2 !! path = Some (File raw2) ->
        locale_decode P raw2 = inr text2 ->
        os_open_write P (fs w2) path = None ->
        written_as P
          (map (patch_line (SignalCLISetup.modified_line exe2))
             (readlines (universal_newlines text2))) chunks2 ->
        fst (SignalCLISetup.modify_batch_file P path exe2 w2)
        = fst (SignalCLISetup.modify_batch_file P path custom_java_exe w)).
Proof.
  intros Hfile Hdecode Hopen lines Hnone Hchunks.
  assert (Hsame : map (patch_line (SignalCLISetup.modified_line custom_java_exe))
                    lines = lines) by now apply patch_line_no_match.
  assert (Hno : existsb is_original_line lines = false).
  { apply not_true_iff_false. now rewrite existsb_is_original_line. }
  pose proof (modify_batch_file_run P w path custom_java_exe raw text chunks
                Hfile Hdecode Hopen) as Hrun.
  cbv zeta in Hrun. fold lines in Hrun. rewrite Hsame, Hno in Hrun.
  specialize (Hrun Hchunks).
  split; [exact Hrun|]. split.
  - intros Hstyle Hcodec. rewrite Hrun. simpl.
    assert (Hraw : text_of chunks = raw).
    { apply (Hcodec text (map (translate_newlines (os_linesep P)) lines) chunks).
      - exact Hdecode.
      - rewrite text_of_translate. unfold lines. rewrite text_of_readlines.
        now apply platform_newlines_round_trip.
      - apply Forall2_fmap_l. exact Hchunks. }
    rewrite Hraw. now apply insert_id.
  - intros w2 raw2 text2 exe2 chunks2 Hfile2 Hdecode2 Hopen2 Hchunks2.
    rewrite Hrun.
    now rewrite (modify_batch_file_run P w2 path exe2 raw2 text2 chunks2).
Qed.

Lemma modify_batch_file_other_script :
  fst (SignalCLISetup.modify_batch_file sample_platform "bin/other.bat"
         (Some "C:/jdk/bin/java.exe") sample_world) = Returned tt
  /\ fs (snd (SignalCLISetup.modify_batch_file sample_platform "bin/other.bat"
                (Some "C:/jdk/bin/java.exe") sample_world))
     = fs sample_world.
Proof.
  destruct (modify_batch_file_line_not_found sample_platform sample_world
              "bin/other.bat" (Some "C:/jdk/bin/java.exe") ("@echo off" ++ nl)
              ("@echo off" ++ nl) ["@echo off" ++ nl])
    as (Hrun & Hfs & _).
  - vm_compute. reflexivity.
  - vm_compute. reflexivity.
  - vm_compute. reflexivity.
  - vm_compute. intros [H|[]]. discriminate.
  - repeat (constructor; [vm_compute; reflexivity|]). constructor.
  - split; [now rewrite Hrun | apply Hfs; [reflexivity | apply utf8_reencodes]].
Defined.

(** Where the script does not use the line separator of the platform, the
    terminators are rewritten: on a platform whose separator is LF a script
    with CR LF terminators comes back with LF terminators. *)
Lemma modify_batch_file_rewrites_terminators :
  fs sample_world !! "bin/crlf.bat" = Some (File ("@echo off" ++ crlf))
  /\ fs (snd (SignalCLISetup.modify_batch_file sample_platform "bin/crlf.bat"
                (Some "C:/jdk/bin/java.exe") sample_world)) !! "bin/crlf.bat"
     = Some (File ("@echo off" ++ nl)).
Proof. split; vm_compute; reflexivity. Qed.

(** C4 as stated fails: the call returns the same value whether the line
    was found and replaced or not. *)
Lemma modify_batch_file_same_return_value :
  existsb is_original_line
    (readlines (universal_newlines ("@echo off" ++ nl))) = false
  /\ existsb is_original_line (readlines (universal_newlines sample_script))
     = true
  /\ fst (SignalCLISetup.modify_batch_file sample_platform "bin/other.bat"
            (Some "C:/jdk/bin/java.exe") sample_world)
     = fst (SignalCLISetup.modify_batch_file sample_platform
              "bin/signal-cli.bat" (Some "C:/jdk/bin/java.exe") sample_world).
Proof. repeat split; vm_compute; reflexivity. Qed.

(** ** JavaUtils.download_openjdk *)

Lemma write_chunks_run (path : string) (chunks : list string) (w : world)
    (acc : string) :
  fs w !! path = Some (File acc) ->
  JavaUtils.write_chunks path chunks w
  = (Returned tt,
     World (<[path := File (acc ++ text_of chunks)]> (fs w)) (events w)).
Proof.
  revert w acc. induction chunks as [|chunk chunks IH]; intros w acc Hacc.
  - simpl. rewrite string_app_nil_r, insert_id by done. now destruct w.
  - cbn [JavaUtils.write_chunks text_of foldr].
    fold (text_of chunks).
    unfold mbind, prog_bind, file_write_bytes. rewrite Hacc.
    rewrite IH with (acc := (acc ++ chunk)%string)
      by (simpl; apply lookup_insert_eq).
    simpl. now rewrite insert_insert_eq, string_app_assoc.
Qed.

(** Every way [download_openjdk] can run, for the version string [v] it
    hands to the resolver and the archive path [target] it derives from
    it. *)
Lemma download_openjdk_run (P : platform) (version download_path : string)
    (w : world) (v : string) :
  JavaUtils.download_openjdk_version version = v ->
  let target := os_path_join P download_path ("openjdk-" ++ v ++ ".zip") in
  JavaUtils.download_openjdk P version download_path w
  = match jdk_get_download_url P v with
    | None =>
        (Returned None,
         World (fs w)
           (events w ++ [EvLog ("Could not find OpenJDK " ++ v ++ " download URL")]))
    | Some url =>
        if bool_decide (is_Some (fs w !! target)) then
          (Returned (Some target),
           World (fs w)
             (events w ++ [EvLog ("OpenJDK " ++ v ++ " already downloaded")]))
        else if status_code (requests_get P url) =? 200 then
          match os_open_write P (fs w) target with
          | Some e => (Raised e, w)
          | None =>
              (Returned (Some target),
               World (<[target := File (text_of (iter_content (requests_get P url)))]>
                        (fs w))
                 (events w
                    ++ [EvLog ("Downloaded OpenJDK " ++ v ++ " successfully")]))
          end
        else
          (Returned None,
           World (fs w)
             (events w ++
                [EvLog ("Failed to download OpenJDK " ++ v ++ ": "
                        ++ Py.str (status_code (requests_get P url)))]))
    end.
Proof.
  intros <- target. subst target.
  unfold JavaUtils.download_openjdk. cbv zeta.
  destruct (jdk_get_download_url P _) as [url|]; [|reflexivity].
  unfold mbind at 1. unfold prog_bind at 1. unfold os_path_exists.
  destruct (bool_decide _); [reflexivity|].
  destruct (status_code (requests_get P url) =? 200); [|reflexivity].
  unfold mbind at 1. unfold prog_bind at 1. unfold open_truncate.
  destruct (os_open_write P (fs w) _); [reflexivity|].
  unfold mbind, prog_bind.
  rewrite write_chunks_run with (acc := EmptyString)
    by (simpl; apply lookup_insert_eq).
  simpl. now rewrite insert_insert_eq.
Qed.

Lemma download_openjdk_cases (P : platform) (version download_path : string)
    (w : world) :
  let v := JavaUtils.download_openjdk_version version in
  let target := openjdk_archive P version download_path in
  JavaUtils.download_openjdk P version download_path w
  = match jdk_get_download_url P v with
    | None =>
        (Returned None,
         World (fs w)
           (events w ++ [EvLog ("Could not find OpenJDK " ++ v ++ " download URL")]))
    | Some url =>
        if bool_decide (is_Some (fs w !! target)) then
          (Returned (Some target),
           World (fs w)
             (events w ++ [EvLog ("OpenJDK " ++ v ++ " already downloaded")]))
        else if status_code (requests_get P url) =? 200 then
          match os_open_write P (fs w) target with
          | Some e => (Raised e, w)
          | None =>
              (Returned (Some target),
               World (<[target := File (text_of (iter_content (requests_get P url)))]>
                        (fs w))
                 (events w
                    ++ [EvLog ("Downloaded OpenJDK " ++ v ++ " successfully")]))
          end
        else
          (Returned None,
           World (fs w)
             (events w ++
                [EvLog ("Failed to download OpenJDK " ++ v ++ ": "
                        ++ Py.str (status_code (requests_get P url)))]))
    end.
Proof.
  intros v target.
  exact (download_openjdk_run P version download_path w v eq_refl).
Qed.

Lemma legacy_versions (m : Z) :
  45 <= m <= 48 ->
  JavaUtils.download_openjdk_version (JavaUtils.java_version_from_major m)
  = Py.str (m - 34)
  /\ JavaUtils.download_openjdk_version (JavaUtils.java_version_from_major m)
     = JavaUtils.download_openjdk_version
         (JavaUtils.java_version_from_major (m + 10)).
Proof.
  intros Hm.
  pose (f := fun m =>
    String.eqb
      (JavaUtils.download_openjdk_version (JavaUtils.java_version_from_major m))
      (Py.str (m - 34))
    && String.eqb
         (JavaUtils.download_openjdk_version (JavaUtils.java_version_from_major m))
         (JavaUtils.download_openjdk_version
            (JavaUtils.java_version_from_major (m + 10)))).
  assert (Hf : f m = true).
  { apply (forallb_Z_range f 45 4); [vm_compute; reflexivity | lia]. }
  unfold f in Hf. now rewrite andb_true_iff, !String.eqb_eq in Hf.
Qed.

Lemma modern_versions (m : Z) :
  49 <= m <= 74 ->
  JavaUtils.download_openjdk_version (JavaUtils.java_version_from_major m)
  = Py.str (m - 44).
Proof.
  intros Hm.
  pose (f := fun m =>
    String.eqb
      (JavaUtils.download_openjdk_version (JavaUtils.java_version_from_major m))
      (Py.str (m - 44))).
  assert (Hf : f m = true).
  { apply (forallb_Z_range f 49 26); [vm_compute; reflexivity | lia]. }
  unfold f in Hf. now rewrite String.eqb_eq in Hf.
Qed.

(** C8: for the legacy majors 45..48 the labels are [Java 1.1] to
    [Java 1.4], and stripping the non-digits gives [11] to [14]: the version
    requested for major m is the decimal of m - 34, the same string that
    major m + 10 (Java 11 to 14) requests.  For the majors 49..74 the
    stripped label is the decimal of m - 44.  On every platform
    [download_openjdk] does for the label of major 45 what it does for
    [Java 11], and for the label of a major m in 45..48 the resolver is asked
    for the decimal of m - 34 and nothing else: without a URL for that
    version the call logs that version as not found and returns [None], and
    with one it looks for, or downloads from that URL, the archive
    [openjdk-<m - 34>.zip].  For major 45 that is version [11] and the
    archive [openjdk-11.zip]. *)
Theorem download_openjdk_version_of_label :
  (JavaUtils.java_version_from_major 45 = "Java 1.1"
   /\ JavaUtils.java_version_from_major 46 = "Java 1.2"
   /\ JavaUtils.java_version_from_major 47 = "Java 1.3"
   /\ JavaUtils.java_version_from_major 48 = "Java 1.4")
  /\ (JavaUtils.download_openjdk_version "Java 1.1" = "11"
      /\ JavaUtils.download_openjdk_version "Java 1.2" = "12"
      /\ JavaUtils.download_openjdk_version "Java 1.3" = "13"
      /\ JavaUtils.download_openjdk_version "Java 1.4" = "14")
  /\ (forall m, 45 <= m <= 48 ->
        JavaUtils.download_openjdk_version (JavaUtils.java_version_from_major m)
        = Py.str (m - 34)
        /\ JavaUtils.download_openjdk_version
             (JavaUtils.java_version_from_major m)
           = JavaUtils.download_openjdk_version
               (JavaUtils.java_version_from_major (m + 10)))
  /\ (forall m, 49 <= m <= 74 ->
        JavaUtils.download_openjdk_version (JavaUtils.java_version_from_major m)
        = Py.str (m - 44))
  /\ (forall P download_path w,
        JavaUtils.download_openjdk P (JavaUtils.java_version_from_major 45)
          download_path w
        = JavaUtils.download_openjdk P "Java 11" download_path w)
  /\ (forall m P download_path w,
        45 <= m <= 48 ->
        let v := Py.str (m - 34) in
        let target := os_path_join P download_path ("openjdk-" ++ v ++ ".zip") in
        JavaUtils.download_openjdk P (JavaUtils.java_version_from_major m)
          download_path w
        = match jdk_get_download_url P v with
          | None =>
              (Returned None,
               World (fs w)
                 (events w
                    ++ [EvLog ("Could not find OpenJDK " ++ v ++ " download URL")]))
          | Some url =>
              if bool_decide (is_Some (fs w !! target)) then
                (Returned (Some target),
                 World (fs w)
                   (events w
                      ++ [EvLog ("OpenJDK " ++ v ++ " already downloaded")]))
              else if status_code (requests_get P url) =? 200 then
                match os_open_write P (fs w) target with
                | Some e => (Raised e, w)
                | None =>
                    (Returned (Some target),
                     World (<[target :=
                                File (text_of (iter_content (requests_get P url)))]>
                              (fs w))
                       (events w
                          ++ [EvLog ("Downloaded OpenJDK " ++ v
                                     ++ " successfully")]))
                end
              else
                (Returned None,
                 World (fs w)
                   (events w ++
                      [EvLog ("Failed to download OpenJDK " ++ v ++ ": "
                              ++ Py.str (status_code (requests_get P url)))]))
          end)
  /\ (forall P download_path w,
        jdk_get_download_url P "11" = None ->
        JavaUtils.download_openjdk P (JavaUtils.java_version_from_major 45)
          download_path w
        = (Returned None,
           World (fs w)
             (events w ++ [EvLog "Could not find OpenJDK 11 download URL"])))
  /\ (forall P download_path w url,
        jdk_get_download_url P "11" = Some url ->
        is_Some (fs w !! os_path_join P download_path "openjdk-11.zip") ->
        JavaUtils.download_openjdk P (JavaUtils.java_version_from_major 45)
          download_path w
        = (Returned (Some (os_path_join P download_path "openjdk-11.zip")),
           World (fs w) (events w ++ [EvLog "OpenJDK 11 already downloaded"]))).
Proof.
  split; [repeat split; vm_compute; reflexivity|].
  split; [repeat split; vm_compute; reflexivity|].
  split; [exact legacy_versions|].
  split; [exact modern_versions|].
  split; [reflexivity|].
  split; [|split].
  - intros m P download_path w Hm v target.
    apply (download_openjdk_run P _ download_path w v).
    now apply legacy_versions.
  - intros P download_path w Hurl.
    rewrite (download_openjdk_run P (JavaUtils.java_version_from_major 45)
               download_path w "11" ltac:(vm_compute; reflexivity)).
    cbv zeta. now rewrite Hurl.
  - intros P download_path w url Hurl Hthere.
    rewrite (download_openjdk_run P (JavaUtils.java_version_from_major 45)
               download_path w "11" ltac:(vm_compute; reflexivity)).
    cbv zeta. rewrite Hurl.
    change ("openjdk-" ++ "11" ++ ".zip") with "openjdk-11.zip".
    now rewrite bool_decide_eq_true_2.
Qed.

Lemma download_openjdk_version_of_label_45_52 :
  JavaUtils.download_openjdk_version (JavaUtils.java_version_from_major 45) = "11"
  /\ JavaUtils.download_openjdk_version (JavaUtils.java_version_from_major 52) = "8"
  /\ JavaUtils.download_openjdk sample_platform
       (JavaUtils.java_version_from_major 45) "assets" sample_world
     = (Returned None,
        World (fs sample_world)
          [EvLog "Could not find OpenJDK 11 download URL"]).
Proof.
  destruct download_openjdk_version_of_label
    as (_ & _ & Hlegacy & Hmodern & _ & _ & Hnone & _).
  split; [|split].
  - exact (proj1 (Hlegacy 45 ltac:(lia))).
  - exact (Hmodern 52 ltac:(lia)).
  - exact (Hnone sample_platform "assets" sample_world eq_refl).
Defined.

(** * The rest of the script *)

(** ** FileUtils.get_name_without_extension *)

Lemma substring_prefix_app (p q : string) :
  String.substring 0 (String.length p) (p ++ q) = p.
Proof.
  induction p as [|c p IH]; simpl; [now destruct q | now rewrite IH].
Qed.

Lemma drop_last_app (stem suffix : string) :
  FileUtilsRest.drop_last (String.length suffix) (stem ++ suffix) = stem.
Proof.
  unfold FileUtilsRest.drop_last. rewrite string_app_length.
  replace (String.length stem + String.length suffix - String.length suffix)%nat
    with (String.length stem) by lia.
  apply substring_prefix_app.
Qed.

(** Two suffixes of one string: one is a suffix of the other. *)
Lemma has_suffix_comparable (s a b : string) :
  has_suffix s a -> has_suffix s b -> has_suffix a b \/ has_suffix b a.
Proof.
  intros [p Hp] [q Hq]. subst s. revert q Hq.
  induction p as [|c p IH]; intros q Hq; simpl in Hq.
  - left. now exists q.
  - destruct q as [|c' q]; simpl in Hq.
    + right. exists (String c p). now rewrite <- Hq.
    + injection Hq as _ Hq. now apply IH with q.
Qed.

Lemma archive_suffix_unique (s a b : string) :
  In a FileUtilsRest.archive_suffixes -> In b FileUtilsRest.archive_suffixes ->
  has_suffix s a -> has_suffix s b -> a = b.
Proof.
  intros Ha Hb Hsa Hsb.
  destruct (has_suffix_comparable s a b Hsa Hsb) as [Hcmp | Hcmp];
    apply endswith_spec in Hcmp;
    simpl in Ha, Hb;
    repeat (destruct Ha as [<- | Ha]; [|]); try contradiction;
    repeat (destruct Hb as [<- | Hb]; [|]); try contradiction;
    first [reflexivity | vm_compute in Hcmp; discriminate].
Qed.

Lemma strip_first_suffix_found (suffixes : list string) (stem suffix : string) :
  In suffix suffixes ->
  (forall a, In a suffixes -> has_suffix (stem ++ suffix) a -> a = suffix) ->
  FileUtilsRest.strip_first_suffix suffixes (stem ++ suffix) = Some stem.
Proof.
  induction suffixes as [|a suffixes IH]; intros Hin Huniq; [contradiction|].
  simpl. destruct (Py.endswith (stem ++ suffix) a) eqn:Ha.
  - apply endswith_spec in Ha. rewrite (Huniq a (or_introl eq_refl) Ha).
    now rewrite drop_last_app.
  - destruct Hin as [-> | Hin].
    + assert (Py.endswith (stem ++ suffix) suffix = true)
        by (apply endswith_spec; now exists stem).
      congruence.
    + apply IH; [done|]. intros b Hb. apply Huniq. now right.
Qed.

Lemma strip_first_suffix_none (suffixes : list string) (s : string) :
  Forall (fun a => ~ has_suffix s a) suffixes ->
  FileUtilsRest.strip_first_suffix suffixes s = None.
Proof.
  induction 1 as [|a suffixes Ha _ IH]; [reflexivity|].
  simpl. destruct (Py.endswith s a) eqn:E; [|exact IH].
  apply endswith_spec in E. contradiction.
Qed.

Lemma re_sub_archive_suffix_strips (stem suffix : string) :
  In suffix FileUtilsRest.archive_suffixes ->
  FileUtilsRest.re_sub_archive_suffix (stem ++ suffix) = stem.
Proof.
  intros Hin. unfold FileUtilsRest.re_sub_archive_suffix.
  rewrite strip_first_suffix_found; [done | done |].
  intros a Ha Hsa. apply (archive_suffix_unique (stem ++ suffix)); try done.
  now exists stem.
Qed.

(** X1: a path whose base name ends in one of the five archive suffixes
    loses exactly that suffix: the result is the base name up to it. *)
Theorem get_name_without_extension_strips (H : host)
    (filepath stem suffix : string) :
  In suffix FileUtilsRest.archive_suffixes ->
  os_path_basename H filepath = stem ++ suffix ->
  FileUtilsRest.get_name_without_extension H filepath = stem.
Proof.
  intros Hin Hbase. unfold FileUtilsRest.get_name_without_extension.
  rewrite Hbase. now apply re_sub_archive_suffix_strips.
Qed.

Lemma get_name_without_extension_double_suffix :
  FileUtilsRest.get_name_without_extension sample_host
    "/opt/app/assets/signal-cli-1.0.tar.gz.zip" = "signal-cli-1.0.tar.gz".
Proof.
  apply (get_name_without_extension_strips sample_host
           "/opt/app/assets/signal-cli-1.0.tar.gz.zip"
           "signal-cli-1.0.tar.gz" ".zip").
  - simpl. tauto.
  - vm_compute. reflexivity.
Defined.

(** X2: a base name that ends in none of the five suffixes, and not in a
    line feed, is returned as it is. *)
Theorem get_name_without_extension_unchanged (H : host) (filepath : string) :
  Forall (fun a => ~ has_suffix (os_path_basename H filepath) a)
    FileUtilsRest.archive_suffixes ->
  ~ has_suffix (os_path_basename H filepath) nl ->
  FileUtilsRest.get_name_without_extension H filepath
  = os_path_basename H filepath.
Proof.
  intros Hnone Hnl. unfold FileUtilsRest.get_name_without_extension,
    FileUtilsRest.re_sub_archive_suffix.
  rewrite strip_first_suffix_none by done.
  destruct (Py.endswith _ nl) eqn:E; [|reflexivity].
  apply endswith_spec in E. contradiction.
Qed.

Lemma get_name_without_extension_upper_case :
  FileUtilsRest.get_name_without_extension sample_host "assets/SIGNAL.ZIP"
  = "SIGNAL.ZIP".
Proof.
  apply (get_name_without_extension_unchanged sample_host "assets/SIGNAL.ZIP").
  - repeat constructor; intros Hs; apply endswith_spec in Hs;
      vm_compute in Hs; discriminate.
  - intros Hs. apply endswith_spec in Hs. vm_compute in Hs. discriminate.
Defined.

(** X3: the end anchor of the pattern also holds before a line feed that
    ends the base name, so a suffix in front of that line feed is removed
    and the line feed is kept. *)
Theorem get_name_without_extension_before_line_feed (H : host)
    (filepath stem suffix : string) :
  In suffix FileUtilsRest.archive_suffixes ->
  os_path_basename H filepath = stem ++ suffix ++ nl ->
  FileUtilsRest.get_name_without_extension H filepath = stem ++ nl.
Proof.
  intros Hin Hbase. unfold FileUtilsRest.get_name_without_extension,
    FileUtilsRest.re_sub_archive_suffix.
  rewrite Hbase.
  assert (Hend : has_suffix (stem ++ suffix ++ nl) nl).
  { exists (stem ++ suffix). now rewrite string_app_assoc. }
  rewrite strip_first_suffix_none.
  - apply endswith_spec in Hend. rewrite Hend.
    replace (FileUtilsRest.drop_last 1 (stem ++ suffix ++ nl))
      with (stem ++ suffix)
      by (rewrite <- string_app_assoc; symmetry;
          apply (drop_last_app (stem ++ suffix) nl)).
    rewrite strip_first_suffix_found; [done | done |].
    intros a Ha Hsa. apply (archive_suffix_unique (stem ++ suffix)); try done.
    now exists stem.
  - apply List.Forall_forall. intros a Ha Hsa.
    destruct (has_suffix_comparable _ _ _ Hsa Hend) as [Hcmp | Hcmp];
      apply endswith_spec in Hcmp; simpl in Ha;
      repeat (destruct Ha as [<- | Ha]; [vm_compute in Hcmp; discriminate|]);
      contradiction.
Qed.

Lemma get_name_without_extension_line_feed_sample :
  FileUtilsRest.get_name_without_extension sample_host ("a.zip" ++ nl)
  = "a" ++ nl.
Proof.
  apply (get_name_without_extension_before_line_feed sample_host
           ("a.zip" ++ nl) "a" ".zip").
  - simpl. tauto.
  - vm_compute. reflexivity.
Defined.

(** X4: the asset [get_latest_release] selects always carries the suffix
    that [get_name_without_extension] removes: for a path whose base name
    is the name of the asset, the result followed by [.tar.gz] is that
    name. *)
Theorem get_name_without_extension_of_release (H : host)
    (repo_name filepath : string) (asset : GithubUtils.Asset) :
  GithubUtils.get_latest_release (github_assets H) repo_name = Some asset ->
  os_path_basename H filepath = GithubUtils.name asset ->
  FileUtilsRest.get_name_without_extension H filepath ++ ".tar.gz"
  = GithubUtils.name asset.
Proof.
  intros Hsel Hbase. unfold GithubUtils.get_latest_release in Hsel.
  apply first_matching_asset_Some in Hsel as (_ & _ & _ & [[stem Hstem] _] & _).
  unfold FileUtilsRest.get_name_without_extension.
  rewrite Hbase, Hstem, re_sub_archive_suffix_strips; [done | simpl; tauto].
Qed.

Lemma get_name_without_extension_of_sample_release :
  FileUtilsRest.get_name_without_extension sample_host
    "/opt/app/assets/signal-cli-1.0.tar.gz" ++ ".tar.gz"
  = "signal-cli-1.0.tar.gz".
Proof.
  apply (get_name_without_extension_of_release sample_host "AsamK/signal-cli"
           "/opt/app/assets/signal-cli-1.0.tar.gz" plain_asset).
  - vm_compute. reflexivity.
  - vm_compute. reflexivity.
Defined.

(** ** FileUtils.find_cli_jar *)

Lemma cli_jar_test_spec (H : host) (file : string) :
  Py.endswith file ".jar"
  && Py.startswith (os_path_basename H file) "signal-cli" = true
  <-> cli_jar H file.
Proof.
  unfold cli_jar, Py.startswith.
  now rewrite andb_true_iff, endswith_spec, prefix_spec.
Qed.

Lemma find_in_walk_flat (H : host)
    (walk : list (string * list string * list string)) :
  FileUtilsRest.find_in_walk H walk
  = option_map
      (fun rf => os_path_join (host_platform H) (fst rf) (snd rf))
      (List.find
         (fun rf => Py.endswith (snd rf) ".jar"
                    && Py.startswith (os_path_basename H (snd rf)) "signal-cli")
         (walk_files walk)).
Proof.
  induction walk as [|[[root dirs] files] walk IH]; [reflexivity|].
  cbn [FileUtilsRest.find_in_walk walk_files flat_map fst snd].
  rewrite IH. clear IH.
  induction files as [|file files IHf]; [reflexivity|].
  cbn [FileUtilsRest.find_in_files map app List.find fst snd].
  destruct (Py.endswith file ".jar" && _); [reflexivity | exact IHf].
Qed.

Lemma find_first {A : Type} (f : A -> bool) (pre : list A) (x : A)
    (post : list A) :
  f x = true -> Forall (fun y => f y = false) pre ->
  List.find f (pre ++ x :: post) = Some x.
Proof.
  intros Hx Hpre. induction Hpre as [|y pre Hy _ IH]; simpl.
  - now rewrite Hx.
  - now rewrite Hy.
Qed.

Lemma find_nothing {A : Type} (f : A -> bool) (l : list A) :
  List.find f l = None <-> Forall (fun y => f y = false) l.
Proof.
  induction l as [|y l IH]; simpl.
  - split; [constructor | reflexivity].
  - rewrite Forall_cons. destruct (f y).
    + split; [discriminate | intros [? _]; discriminate].
    + rewrite IH. tauto.
Qed.

(** X5: [find_cli_jar] returns the first file, in the order of the walk,
    whose name ends in [.jar] and whose base name starts with
    [signal-cli], joined to the directory it is in; files before it that
    are not of that kind are passed over, and the file system is not
    touched. *)
Theorem find_cli_jar_first (H : host) (dir : string) (w : world)
    (pre : list (string * string)) (root file : string)
    (post : list (string * string)) :
  walk_files (os_walk H (fs w) dir) = (pre ++ (root, file) :: post)%list ->
  cli_jar H file ->
  Forall (fun rf => ~ cli_jar H (snd rf)) pre ->
  FileUtilsRest.find_cli_jar H dir w
  = (Returned (Some (os_path_join (host_platform H) root file)), w).
Proof.
  intros Hwalk Hfile Hpre. unfold FileUtilsRest.find_cli_jar.
  rewrite find_in_walk_flat, Hwalk, find_first; [reflexivity | |].
  - now apply cli_jar_test_spec.
  - eapply Forall_impl; [exact Hpre|]. intros rf Hrf. simpl in Hrf.
    apply not_true_iff_false. now rewrite cli_jar_test_spec.
Qed.

Lemma find_cli_jar_sample :
  FileUtilsRest.find_cli_jar sample_host "/opt/app/assets/signal-cli"
    sample_world
  = (Returned
       (Some "/opt/app/assets/signal-cli/signal-cli-1.0/lib/signal-cli-1.0.jar"),
     sample_world).
Proof.
  apply (find_cli_jar_first sample_host "/opt/app/assets/signal-cli"
           sample_world
           [ ("/opt/app/assets/signal-cli/signal-cli-1.0", "README.md");
             ("/opt/app/assets/signal-cli/signal-cli-1.0/bin", "signal-cli");
             ("/opt/app/assets/signal-cli/signal-cli-1.0/bin", "signal-cli.bat");
             ("/opt/app/assets/signal-cli/signal-cli-1.0/lib", "bcprov.jar") ]
           "/opt/app/assets/signal-cli/signal-cli-1.0/lib" "signal-cli-1.0.jar"
           [ ("/opt/app/assets/signal-cli/signal-cli-1.0/lib",
              "signal-cli-sources.jar") ]).
  - reflexivity.
  - apply cli_jar_test_spec. vm_compute. reflexivity.
  - repeat constructor; intros Hc; apply cli_jar_test_spec in Hc;
      vm_compute in Hc; discriminate.
Defined.

(** X6: [find_cli_jar] returns [None] exactly when no file of the walk has a
    name ending in [.jar] with a base name starting with [signal-cli]; in
    particular when the walk is empty, as for a directory that does not
    exist. *)
Theorem find_cli_jar_none (H : host) (dir : string) (w : world) :
  (FileUtilsRest.find_cli_jar H dir w = (Returned None, w)
   <-> Forall (fun rf => ~ cli_jar H (snd rf))
         (walk_files (os_walk H (fs w) dir)))
  /\ (os_walk H (fs w) dir = [] ->
      FileUtilsRest.find_cli_jar H dir w = (Returned None, w)).
Proof.
  unfold FileUtilsRest.find_cli_jar. rewrite find_in_walk_flat. split.
  - split.
    + intros Hnone. injection Hnone as Hnone.
      destruct (List.find _ _) eqn:Hfind; [discriminate|].
      apply find_nothing in Hfind.
      eapply Forall_impl; [exact Hfind|]. intros rf Hrf. simpl in Hrf.
      rewrite <- cli_jar_test_spec. now rewrite Hrf.
    + intros Hall.
      assert (Hfind : List.find
                (fun rf => Py.endswith (snd rf) ".jar"
                           && Py.startswith (os_path_basename H (snd rf))
                                "signal-cli")
                (walk_files (os_walk H (fs w) dir)) = None).
      { apply find_nothing. eapply Forall_impl; [exact Hall|].
        intros rf Hrf. simpl in Hrf. apply not_true_iff_false.
        now rewrite cli_jar_test_spec. }
      now rewrite Hfind.
  - intros ->. reflexivity.
Qed.

Lemma find_cli_jar_missing_directory :
  FileUtilsRest.find_cli_jar sample_host "/nowhere" sample_world
  = (Returned None, sample_world).
Proof.
  apply (proj2 (find_cli_jar_none sample_host "/nowhere" sample_world)).
  reflexivity.
Defined.

(** ** FileUtils.extract_tar_gz *)

(** X7: [extract_tar_gz] creates its destination ([extract_to], joined with
    [folder_name] when that is a non-empty string) before it opens the
    archive, and never asks whether the destination existed.  When the archive
    opens, its members are extracted there and two messages are logged; when
    the file is missing or is not such an archive, the exception leaves the
    call with the created directory in place. *)
Theorem extract_tar_gz_creates_destination_first (H : host) (w : world)
    (file_path extract_to : string) (folder_name : option string)
    (m1 : gmap string node) :
  let P := host_platform H in
  let dest :=
    match folder_name with
    | Some (String c f) => os_path_join P extract_to (String c f)
    | _ => extract_to
    end in
  os_makedirs P (fs w) dest = inr m1 ->
  (forall raw tar m2,
     m1 !! file_path = Some (File raw) ->
     tarfile_parse H raw = inr tar ->
     tar_extractall H tar dest m1 = inr m2 ->
     FileUtilsRest.extract_tar_gz H file_path extract_to folder_name w
     = (Returned tt,
        World m2 (events w ++ [EvLog ("Extracting " ++ file_path);
                               EvLog ("Extraction complete to " ++ dest)])))
  /\ (forall raw e,
        m1 !! file_path = Some (File raw) ->
        tarfile_parse H raw = inl e ->
        FileUtilsRest.extract_tar_gz H file_path extract_to folder_name w
        = (Raised e, World m1 (events w ++ [EvLog ("Extracting " ++ file_path)])))
  /\ (m1 !! file_path = None ->
      exists e,
        exc_kind e = FileNotFoundError
        /\ FileUtilsRest.extract_tar_gz H file_path extract_to folder_name w
           = (Raised e,
              World m1 (events w ++ [EvLog ("Extracting " ++ file_path)]))).
Proof.
  intros P dest Hmk.
  assert (Hdest : (if Py.truthy folder_name
                   then os_path_join P extract_to (default EmptyString folder_name)
                   else extract_to) = dest).
  { unfold dest. now destruct folder_name as [[|c f]|]. }
  unfold FileUtilsRest.extract_tar_gz, FileUtilsRest.tarfile_open, read_raw,
    fs_call.
  fold P. rewrite Hdest. run_prog. rewrite Hmk. simpl.
  split; [|split].
  - intros raw tar m2 Hfile Hparse Hex.
    rewrite Hfile. simpl. rewrite Hparse. simpl. rewrite Hex. simpl.
    now rewrite <- app_assoc.
  - intros raw e Hfile Hparse. rewrite Hfile. simpl. now rewrite Hparse.
  - intros Hfile. rewrite Hfile. simpl. eexists. split; [|reflexivity]. done.
Qed.

Lemma extract_tar_gz_broken_archive :
  FileUtilsRest.extract_tar_gz sample_host "/opt/app/assets/broken.tar.gz"
    "/opt/app/assets" (Some "fresh") release_world
  = (Raised (Exception OSError "not a gzip file"),
     World (<["/opt/app/assets/fresh" := Dir]> (fs release_world))
       [EvLog "Extracting /opt/app/assets/broken.tar.gz"]).
Proof.
  refine (proj1 (proj2 (extract_tar_gz_creates_destination_first sample_host
            release_world "/opt/app/assets/broken.tar.gz" "/opt/app/assets"
            (Some "fresh")
            (<["/opt/app/assets/fresh" := Dir]> (fs release_world)) _))
            "garbage" (Exception OSError "not a gzip file") _ _).
  - reflexivity.
  - vm_compute. reflexivity.
  - reflexivity.
Defined.

(** ** FileUtils.extract_zip, errors *)

(** X8: on an archive without entries [extract_zip] raises the IndexError
    of [namelist()[0]] right after its first message, whatever the override
    and whether or not the destination exists; the file system is
    unchanged. *)
Theorem extract_zip_without_entries (P : platform) (w : world)
    (file_path extract_to : string) (folder_name : option string)
    (raw : string) (zip_ref : ZipFile) :
  fs w !! file_path = Some (File raw) ->
  zipfile_parse P raw = Some zip_ref ->
  namelist zip_ref = [] ->
  FileUtils.extract_zip P file_path extract_to folder_name w
  = (Raised (Exception IndexError "list index out of range"),
     World (fs w) (events w ++ [EvLog ("Extracting " ++ file_path)])).
Proof. apply extract_zip_empty_archive. Qed.

Lemma extract_zip_empty_sample :
  FileUtils.extract_zip empty_zip_platform "/opt/app/assets/empty.zip"
    "/opt/app/assets" (Some "signal-cli") release_world
  = (Raised (Exception IndexError "list index out of range"),
     World (fs release_world) [EvLog "Extracting /opt/app/assets/empty.zip"]).
Proof.
  refine (extract_zip_without_entries empty_zip_platform release_world
            "/opt/app/assets/empty.zip" "/opt/app/assets" (Some "signal-cli")
            "PK-empty" empty_zip _ _ _).
  - vm_compute. reflexivity.
  - reflexivity.
  - reflexivity.
Defined.

(** X9: when the file is missing, or is not a zip archive, [extract_zip]
    raises right after its first message and leaves the file system as it
    was: nothing is created. *)
Theorem extract_zip_unreadable (P : platform) (w : world)
    (file_path extract_to : string) (folder_name : option string) :
  (fs w !! file_path = None
   \/ exists raw, fs w !! file_path = Some (File raw)
                  /\ zipfile_parse P raw = None) ->
  exists e,
    (exc_kind e = FileNotFoundError \/ exc_kind e = BadZipFile)
    /\ FileUtils.extract_zip P file_path extract_to folder_name w
       = (Raised e, World (fs w) (events w ++ [EvLog ("Extracting " ++ file_path)])).
Proof.
  unfold FileUtils.extract_zip, ZipFile_open, read_raw. run_prog.
  intros [Hnone | (raw & Hfile & Hparse)].
  - rewrite Hnone. simpl. eexists. split; [|reflexivity]. now left.
  - rewrite Hfile. simpl. rewrite Hparse. simpl.
    eexists. split; [|reflexivity]. now right.
Qed.

Lemma extract_zip_text_file :
  exists e,
    (exc_kind e = FileNotFoundError \/ exc_kind e = BadZipFile)
    /\ FileUtils.extract_zip sample_platform "/opt/app/assets/notes.txt"
         "/opt/app/assets" None release_world
       = (Raised e,
          World (fs release_world)
            (events release_world
               ++ [EvLog ("Extracting " ++ "/opt/app/assets/notes.txt")])).
Proof.
  apply (extract_zip_unreadable sample_platform release_world
           "/opt/app/assets/notes.txt" "/opt/app/assets" None).
  right. exists "hello". split; [vm_compute; reflexivity | reflexivity].
Defined.

(** ** JavaUtils.get_java_version_of_file, what a result means *)

Lemma entry_major_range (jar : ZipFile) (file_name : string) :
  0 <= entry_major jar file_name < 65536.
Proof.
  unfold entry_major.
  destruct (zip_read jar file_name)
    as [e|[|b0 [|b1 [|b2 [|b3 [|b4 [|b5 [|hi [|lo tl]]]]]]]]];
    try lia.
  pose proof (byte_Z_range hi). pose proof (byte_Z_range lo). lia.
Qed.

Lemma scan_classes_Some (jar : ZipFile) (names : list string) (w w' : world)
    (major : Z) :
  JavaUtils.scan_classes jar names w = (Returned (Some major), w') ->
  exists file_name,
    In file_name names /\ valid_class_entry jar file_name
    /\ major = entry_major jar file_name.
Proof.
  induction names as [|n names IH]; [discriminate|].
  destruct (class_entry_cases jar n) as [Hv | [[e He] | Hs]].
  - rewrite scan_classes_valid by done. intros [= <- _].
    exists n. split; [now left | done].
  - rewrite (scan_classes_unreadable jar n names w e) by done. discriminate.
  - rewrite scan_classes_skip by done. intros Hscan.
    destruct (IH Hscan) as (f & Hin & Hf). exists f. split; [now right | done].
Qed.

(** X10: a number returned by [get_java_version_of_file] is always the major
    version of some entry of the bundle that has a [.class] name and a
    header with the magic number, and it lies between 0 and 65535; the world
    is left as it was. *)
Theorem get_java_version_of_file_sound (P : platform) (jar_path : string)
    (w w' : world) (major : Z) :
  JavaUtils.get_java_version_of_file P jar_path w = (Returned (Some major), w') ->
  w' = w
  /\ 0 <= major < 65536
  /\ exists raw jar file_name,
       fs w !! jar_path = Some (File raw)
       /\ zipfile_parse P raw = Some jar
       /\ In file_name (namelist jar)
       /\ valid_class_entry jar file_name
       /\ major = entry_major jar file_name.
Proof.
  unfold JavaUtils.get_java_version_of_file, try_except.
  unfold mbind at 1. unfold prog_bind at 1.
  destruct (ZipFile_open P jar_path w) as [[jar|n|e] w1] eqn:Hopen.
  - apply ZipFile_open_Returned in Hopen as (-> & raw & Hfile & Hparse).
    destruct (scan_classes_cases jar (namelist jar) w) as [[r Hr] | [e He]].
    + rewrite Hr. intros [= -> <-].
      apply scan_classes_Some in Hr as (f & Hin & Hvalid & ->).
      split; [done|]. split; [apply entry_major_range|]. eauto 10.
    + rewrite He. run_prog. discriminate.
  - discriminate.
  - run_prog. discriminate.
Qed.

Lemma get_java_version_of_sample_jar_sound :
  sample_world = sample_world
  /\ 0 <= 61 < 65536
  /\ exists raw jar file_name,
       fs sample_world !! "lib/signal-cli.jar" = Some (File raw)
       /\ zipfile_parse sample_platform raw = Some jar
       /\ In file_name (namelist jar)
       /\ valid_class_entry jar file_name
       /\ 61 = entry_major jar file_name.
Proof.
  apply (get_java_version_of_file_sound sample_platform "lib/signal-cli.jar").
  vm_compute. reflexivity.
Defined.

(** ** JavaUtils.download_openjdk and GithubUtils.download_asset *)

(** X11: when [download_openjdk] returns [None] (no download URL for the
    version, or a response whose status is not 200) the file system is as it
    was before the call. *)
Theorem download_openjdk_failure_keeps_files (P : platform)
    (version download_path : string) (w w' : world) :
  JavaUtils.download_openjdk P version download_path w = (Returned None, w') ->
  fs w' = fs w.
Proof.
  rewrite download_openjdk_cases. cbv zeta.
  destruct (jdk_get_download_url P _) as [url|]; [|now intros [= <-]].
  destruct (bool_decide _); [discriminate|].
  destruct (_ =? 200); [|now intros [= <-]].
  destruct (os_open_write P _ _); discriminate.
Qed.

Lemma download_openjdk_unknown_version_keeps_files :
  fs (World (fs sample_world)
        [EvLog "Could not find OpenJDK 30 download URL"])
  = fs sample_world.
Proof.
  apply (download_openjdk_failure_keeps_files sample_platform "Java 30"
           "assets" sample_world).
  vm_compute. reflexivity.
Defined.

(** X12: a path returned by [download_openjdk] is the download directory
    joined with [openjdk-<digits of the label>.zip], and something exists
    at that path when the call returns. *)
Theorem download_openjdk_returns_existing_path (P : platform)
    (version download_path : string) (w w' : world) (path : string) :
  JavaUtils.download_openjdk P version download_path w
  = (Returned (Some path), w') ->
  path = openjdk_archive P version download_path
  /\ is_Some (fs w' !! path).
Proof.
  rewrite download_openjdk_cases. cbv zeta.
  destruct (jdk_get_download_url P _) as [url|]; [|discriminate].
  destruct (bool_decide _) eqn:Hpresent.
  - intros [= <- <-]. split; [done|]. now apply bool_decide_eq_true_1 in Hpresent.
  - destruct (_ =? 200); [|discriminate].
    destruct (os_open_write P _ _); [discriminate|].
    intros [= <- <-]. split; [done|]. simpl. rewrite lookup_insert_eq. eauto.
Qed.

Lemma download_openjdk_sample_path :
  "assets/openjdk-17.zip" = openjdk_archive sample_platform "Java 17" "assets"
  /\ is_Some (fs (World (fs sample_world)
                    [EvLog "OpenJDK 17 already downloaded"])
              !! "assets/openjdk-17.zip").
Proof.
  apply (download_openjdk_returns_existing_path sample_platform "Java 17"
           "assets" sample_world).
  vm_compute. reflexivity.
Defined.

(** X13: after a call of [download_openjdk] that returned a path, the same
    call again returns the same path, only logs that the runtime is already
    downloaded and leaves the file system as the first call left it. *)
Theorem download_openjdk_again (P : platform)
    (version download_path : string) (w w1 : world) (path : string) :
  JavaUtils.download_openjdk P version download_path w
  = (Returned (Some path), w1) ->
  JavaUtils.download_openjdk P version download_path w1
  = (Returned (Some path),
     World (fs w1)
       (events w1 ++
          [EvLog ("OpenJDK " ++ JavaUtils.download_openjdk_version version
                  ++ " already downloaded")])).
Proof.
  intros Hfirst. rewrite download_openjdk_cases in Hfirst. cbv zeta in Hfirst.
  destruct (jdk_get_download_url P (JavaUtils.download_openjdk_version version))
    as [url|] eqn:Hurl; [|discriminate].
  assert (Hthere : path = openjdk_archive P version download_path
                   /\ is_Some (fs w1 !! path)).
  { destruct (bool_decide _) eqn:Hpresent.
    - injection Hfirst as <- <-. split; [done|].
      now apply bool_decide_eq_true_1 in Hpresent.
    - destruct (_ =? 200); [|discriminate].
      destruct (os_open_write P _ _); [discriminate|].
      injection Hfirst as <- <-. split; [done|].
      simpl. rewrite lookup_insert_eq. eauto. }
  destruct Hthere as [-> Hexists].
  rewrite download_openjdk_cases. cbv zeta. rewrite Hurl.
  now rewrite bool_decide_eq_true_2.
Qed.

Lemma download_openjdk_again_sample :
  JavaUtils.download_openjdk sample_platform "Java 17" "fresh"
    (World (<["fresh/openjdk-17.zip" := File "PK-sample"]> (fs sample_world))
       [EvLog "Downloaded OpenJDK 17 successfully"])
  = (Returned (Some "fresh/openjdk-17.zip"),
     World (<["fresh/openjdk-17.zip" := File "PK-sample"]> (fs sample_world))
       [EvLog "Downloaded OpenJDK 17 successfully";
        EvLog "OpenJDK 17 already downloaded"]).
Proof.
  apply (download_openjdk_again sample_platform "Java 17" "fresh" sample_world).
  vm_compute. reflexivity.
Defined.

(** X14: for a major version outside the table 45..74 the label has no
    digit, so [download_openjdk] asks the resolver for the empty version
    string and names the archive [openjdk-.zip]: it does for that label what
    it does for the empty string.  Without a URL for the empty version it
    logs so and returns [None]; with one it returns the archive
    [openjdk-.zip] when that exists, and otherwise downloads it from that
    URL. *)
Theorem download_openjdk_of_unknown_major (m : Z) :
  ~ (45 <= m <= 74) ->
  JavaUtils.download_openjdk_version (JavaUtils.java_version_from_major m)
  = EmptyString
  /\ forall P download_path w,
       let run :=
         JavaUtils.download_openjdk P (JavaUtils.java_version_from_major m)
           download_path w in
       let target := os_path_join P download_path "openjdk-.zip" in
       run = JavaUtils.download_openjdk P EmptyString download_path w
       /\ (jdk_get_download_url P EmptyString = None ->
           run = (Returned None,
                  World (fs w)
                    (events w
                       ++ [EvLog "Could not find OpenJDK  download URL"])))
       /\ (forall url,
             jdk_get_download_url P EmptyString = Some url ->
             (is_Some (fs w !! target) ->
              run = (Returned (Some target),
                     World (fs w)
                       (events w ++ [EvLog "OpenJDK  already downloaded"])))
             /\ (fs w !! target = None ->
                 status_code (requests_get P url) = 200 ->
                 os_open_write P (fs w) target = None ->
                 run = (Returned (Some target),
                        World (<[target :=
                                   File (text_of
                                           (iter_content (requests_get P url)))]>
                                 (fs w))
                          (events w
                             ++ [EvLog "Downloaded OpenJDK  successfully"])))).
Proof.
  intros Hm.
  assert (Hlabel : JavaUtils.java_version_from_major m = "Unknown Java version").
  { unfold JavaUtils.java_version_from_major.
    now rewrite version_mapping_outside. }
  rewrite Hlabel. split; [reflexivity|].
  intros P download_path w run target. split; [reflexivity|].
  pose proof (download_openjdk_run P "Unknown Java version" download_path w
                EmptyString eq_refl) as Hrun.
  cbv zeta in Hrun.
  change ("openjdk-" ++ EmptyString ++ ".zip") with "openjdk-.zip" in Hrun.
  fold target in Hrun. fold run in Hrun. split.
  - intros Hurl. now rewrite Hurl in Hrun.
  - intros url Hurl. rewrite Hurl in Hrun. split.
    + intros Hthere. now rewrite bool_decide_eq_true_2 in Hrun.
    + intros Hmissing Hstatus Hopen.
      rewrite bool_decide_eq_false_2 in Hrun
        by (rewrite Hmissing; now intros [? ?]).
      now rewrite Hstatus, Hopen in Hrun.
Qed.

Lemma download_openjdk_of_major_999 :
  JavaUtils.download_openjdk_version (JavaUtils.java_version_from_major 999)
  = EmptyString
  /\ JavaUtils.download_openjdk sample_platform
       (JavaUtils.java_version_from_major 999) "assets" sample_world
     = (Returned None,
        World (fs sample_world)
          [EvLog "Could not find OpenJDK  download URL"]).
Proof.
  destruct (download_openjdk_of_unknown_major 999 ltac:(lia)) as [Hversion Hrun].
  split; [exact Hversion|].
  exact (proj1 (proj2 (Hrun sample_platform "assets" sample_world)) eq_refl).
Defined.

(** X15: with a response of status 200 [download_asset] opens the
    download path for writing.  When the path opens, the file then holds the
    chunks of the body in order, nothing is logged and the path is
    returned; when it does not open (no parent directory, a directory at the
    path), the exception leaves the call and nothing is written.  With any
    other status [download_asset] returns [None], logs the asset name with
    the status and leaves the file system as it was. *)
Theorem download_asset_by_status (P : platform) (asset : GithubUtils.Asset)
    (download_path : string) (w : world) :
  let response := requests_get P (GithubUtils.browser_download_url asset) in
  (status_code response = 200 ->
   (os_open_write P (fs w) download_path = None ->
    GithubUtilsRest.download_asset P asset download_path w
    = (Returned (Some download_path),
       World (<[download_path := File (text_of (iter_content response))]> (fs w))
         (events w)))
   /\ (forall e,
         os_open_write P (fs w) download_path = Some e ->
         GithubUtilsRest.download_asset P asset download_path w = (Raised e, w)))
  /\ (status_code response <> 200 ->
      GithubUtilsRest.download_asset P asset download_path w
      = (Returned None,
         World (fs w)
           (events w ++
              [EvLog ("Failed to download " ++ GithubUtils.name asset ++ ": "
                      ++ Py.str (status_code response))]))).
Proof.
  intros response. unfold GithubUtilsRest.download_asset. fold response. split.
  - intros ->. change (200 =? 200) with true. cbv iota. split.
    + intros Hopen. unfold mbind at 1. unfold prog_bind at 1.
      unfold open_truncate. rewrite Hopen. unfold mbind, prog_bind.
      rewrite write_chunks_run with (acc := EmptyString)
        by (simpl; apply lookup_insert_eq).
      simpl. now rewrite insert_insert_eq.
    + intros e Hopen. unfold mbind at 1. unfold prog_bind at 1.
      unfold open_truncate. now rewrite Hopen.
  - intros Hne. apply Z.eqb_neq in Hne. now rewrite Hne.
Qed.

Lemma download_asset_sample_statuses :
  GithubUtilsRest.download_asset sample_platform plain_asset
    "assets/signal-cli-1.0.tar.gz" sample_world
  = (Returned (Some "assets/signal-cli-1.0.tar.gz"),
     World (<["assets/signal-cli-1.0.tar.gz" := File "PK-sample"]>
              (fs sample_world)) [])
  /\ GithubUtilsRest.download_asset sample_platform plain_asset
       "nodir/sub/signal-cli-1.0.tar.gz" sample_world
     = (Raised (Exception FileNotFoundError "No such file or directory"),
        sample_world)
  /\ GithubUtilsRest.download_asset sample_platform plain_asset
       "assets/openjdk" sample_world
     = (Raised (Exception IsADirectoryError "Is a directory"), sample_world)
  /\ GithubUtilsRest.download_asset (with_status sample_platform 404)
       plain_asset "assets/signal-cli-1.0.tar.gz" sample_world
     = (Returned None,
        World (fs sample_world)
          [EvLog "Failed to download signal-cli-1.0.tar.gz: 404"]).
Proof.
  split; [|split; [|split]].
  - apply (proj1 (proj1 (download_asset_by_status sample_platform plain_asset
                           "assets/signal-cli-1.0.tar.gz" sample_world)
                    eq_refl)).
    vm_compute. reflexivity.
  - apply (proj2 (proj1 (download_asset_by_status sample_platform plain_asset
                           "nodir/sub/signal-cli-1.0.tar.gz" sample_world)
                    eq_refl)).
    vm_compute. reflexivity.
  - apply (proj2 (proj1 (download_asset_by_status sample_platform plain_asset
                           "assets/openjdk" sample_world)
                    eq_refl)).
    vm_compute. reflexivity.
  - apply (proj2 (download_asset_by_status (with_status sample_platform 404)
                    plain_asset "assets/signal-cli-1.0.tar.gz" sample_world)).
    discriminate.
Defined.

(** ** White space around the diagnostics of the external client *)

Lemma lstrip_prefix (s : string) : exists l, s = l ++ Py.lstrip s.
Proof.
  induction s as [|c s [l IH]]; [now exists EmptyString|].
  simpl. destruct (Py.is_ascii_space c).
  - exists (String c l). simpl. now rewrite <- IH.
  - now exists EmptyString.
Qed.

Lemma rstrip_suffix (s : string) : exists r, s = Py.rstrip s ++ r.
Proof.
  induction s as [|c s [r IH]]; [now exists EmptyString|].
  simpl. destruct (Py.rstrip s) as [|c' s'] eqn:Hs.
  - destruct (Py.is_ascii_space c).
    + exists (String c r). simpl. now rewrite IH at 1.
    + exists r. simpl. now rewrite IH at 1.
  - exists r. simpl. now rewrite IH at 1.
Qed.

Lemma lstrip_keeps (p : string) (a : ascii) (t : string) :
  Py.is_ascii_space a = false ->
  exists p', Py.lstrip (p ++ String a t) = p' ++ String a t.
Proof.
  intros Ha. induction p as [|c p [p' IH]]; simpl.
  - rewrite Ha. now exists EmptyString.
  - destruct (Py.is_ascii_space c); [now exists p'|].
    now exists (String c p).
Qed.

Lemma rstrip_keeps (u : string) (b : ascii) (q : string) :
  Py.is_ascii_space b = false ->
  exists q', Py.rstrip (u ++ String b q) = u ++ String b q'.
Proof.
  intros Hb. induction u as [|c u [q' IH]]; simpl.
  - exists (Py.rstrip q). destruct (Py.rstrip q); [now rewrite Hb | reflexivity].
  - exists q'. rewrite IH. now destruct u.
Qed.

Lemma has_substring_strip (x s : string) :
  solid x -> has_substring (Py.strip s) x <-> has_substring s x.
Proof.
  intros [(a & t & Hfirst & Ha) (y & b & Hlast & Hb)]. unfold Py.strip. split.
  - intros (p & q & Hpq).
    destruct (lstrip_prefix s) as [l Hl].
    destruct (rstrip_suffix (Py.lstrip s)) as [r Hr].
    exists (l ++ p), (q ++ r).
    rewrite Hl at 1. rewrite Hr at 1. rewrite Hpq.
    now rewrite !string_app_assoc.
  - intros (p & q & ->).
    destruct (lstrip_keeps p a (t ++ q) Ha) as [p' Hp'].
    replace (p ++ x ++ q) with (p ++ String a (t ++ q))
      by (rewrite Hfirst; reflexivity).
    rewrite Hp'.
    replace (p' ++ String a (t ++ q)) with ((p' ++ y) ++ String b q).
    + destruct (rstrip_keeps (p' ++ y) b q Hb) as [q' ->].
      exists p', q'. rewrite Hlast. now rewrite !string_app_assoc.
    + change (String a (t ++ q)) with (String a t ++ q).
      rewrite <- Hfirst, Hlast. now rewrite !string_app_assoc.
Qed.

Lemma contains_strip (x s : string) :
  solid x -> Py.contains x (Py.strip s) = Py.contains x s.
Proof.
  intros Hx. apply eq_true_iff_eq.
  rewrite !contains_spec. now apply has_substring_strip.
Qed.

Lemma solid_phrases :
  solid "Failed to register" /\ solid "Verify error"
  /\ solid "invalid format" /\ solid "failed".
Proof.
  repeat split.
  - now exists "F"%char, "ailed to register".
  - now exists "Failed to registe", "r"%char.
  - now exists "V"%char, "erify error".
  - now exists "Verify erro", "r"%char.
  - now exists "i"%char, "nvalid format".
  - now exists "invalid forma", "t"%char.
  - now exists "f"%char, "ailed".
  - now exists "faile", "d"%char.
Qed.

(** ** SignalCLIInteraction.register, verify and add_device: the diagnostics *)

(** X16: [register] checks nothing locally: with any captcha it runs
    [<client> -u <phone> register --captcha <captcha>].  It ends the process
    with status 1 exactly when the error stream of the client contains
    [Failed to register], after logging that text stripped; any other output
    counts as success. *)
Theorem register_fails_on_phrase (P : platform)
    (self : SignalCLIInteraction.t) (captcha : string) (w : world) :
  let command := register_command self captcha in
  let error := stderr (subprocess_run P command) in
  (has_substring error "Failed to register" ->
   SignalCLIInteraction.register P self captcha w
   = (Exited 1,
      World (fs w)
        (events w ++
           [EvLog "Registering Phone Number"; EvRun command;
            EvLog "Failed to register"; EvLog (Py.strip error)])))
  /\ (~ has_substring error "Failed to register" ->
      SignalCLIInteraction.register P self captcha w
      = (Returned tt,
         World (fs w)
           (events w ++
              [EvLog "Registering Phone Number"; EvRun command;
               EvLog "Successfully sent registration code"]))).
Proof.
  intros command error.
  rewrite <- (has_substring_strip "Failed to register" error)
    by apply solid_phrases.
  rewrite <- contains_spec.
  unfold SignalCLIInteraction.register. fold (register_command self captcha).
  fold command. run_prog. fold error.
  destruct (Py.contains "Failed to register" (Py.strip error)); simpl;
    rewrite <- !app_assoc; simpl; split; intros Hc; done.
Qed.

Lemma register_sample_diagnostics :
  SignalCLIInteraction.register
    (client_platform "  Failed to register: captcha invalid ") sample_self
    EmptyString sample_world
  = (Exited 1,
     World (fs sample_world)
       [EvLog "Registering Phone Number";
        EvRun "bin/signal-cli.bat -u +491700000000 register --captcha ";
        EvLog "Failed to register";
        EvLog "Failed to register: captcha invalid"])
  /\ SignalCLIInteraction.register (client_platform "Connection refused")
       sample_self EmptyString sample_world
     = (Returned tt,
        World (fs sample_world)
          [EvLog "Registering Phone Number";
           EvRun "bin/signal-cli.bat -u +491700000000 register --captcha ";
           EvLog "Successfully sent registration code"]).
Proof.
  split.
  - apply (proj1 (register_fails_on_phrase
                    (client_platform "  Failed to register: captcha invalid ")
                    sample_self EmptyString sample_world)).
    now exists "  ", ": captcha invalid ".
  - apply (proj2 (register_fails_on_phrase (client_platform "Connection refused")
                    sample_self EmptyString sample_world)).
    rewrite <- contains_spec. vm_compute. discriminate.
Defined.

(** X17: for a numeric code [verify] ends the process with status 1
    exactly when the error stream of the client contains [Verify error];
    with any other output it logs success and returns. *)
Theorem verify_fails_on_phrase (P : platform)
    (self : SignalCLIInteraction.t) (code : string) (w : world) :
  numeric code ->
  let command := verify_command self code in
  let error := stderr (subprocess_run P command) in
  (has_substring error "Verify error" ->
   SignalCLIInteraction.verify P self code w
   = (Exited 1,
      World (fs w)
        (events w ++
           [EvLog "Verifying code"; EvRun command;
            EvLog "Failed to verify code"; EvLog (Py.strip error)])))
  /\ (~ has_substring error "Verify error" ->
      SignalCLIInteraction.verify P self code w
      = (Returned tt,
         World (fs w)
           (events w ++
              [EvLog "Verifying code"; EvRun command;
               EvLog "Successfully verified the account"]))).
Proof.
  intros Hnum command error. apply isdigit_spec in Hnum.
  rewrite <- (has_substring_strip "Verify error" error) by apply solid_phrases.
  rewrite <- contains_spec.
  unfold SignalCLIInteraction.verify. rewrite Hnum.
  fold (verify_command self code). fold command. run_prog. fold error.
  destruct (Py.contains "Verify error" (Py.strip error)); simpl;
    rewrite <- !app_assoc; simpl; split; intros Hc; done.
Qed.

Lemma verify_sample_diagnostics :
  SignalCLIInteraction.verify (client_platform "Verify error: wrong code")
    sample_self "123456" sample_world
  = (Exited 1,
     World (fs sample_world)
       [EvLog "Verifying code";
        EvRun "bin/signal-cli.bat -u +491700000000 verify 123456";
        EvLog "Failed to verify code"; EvLog "Verify error: wrong code"]).
Proof.
  refine (proj1 (verify_fails_on_phrase
                   (client_platform "Verify error: wrong code") sample_self
                   "123456" sample_world _) _).
  - apply isdigit_spec. reflexivity.
  - now exists EmptyString, ": wrong code".
Defined.

(** What [add_device] does once a non-empty linking text was decoded: it
    logs, runs the command that carries the text, and logs again. *)
Lemma add_device_decoded (P : platform) (self : SignalCLIInteraction.t)
    (screenshot : string) (w : world) (raw : string) (img : image P)
    (first : Decoded) (rest : list Decoded) (uri : string) :
  fs w !! screenshot = Some (File raw) ->
  pil_parse P raw = Some img ->
  pyzbar_decode P img = first :: rest ->
  bytes_decode (data first) = Some uri ->
  uri <> EmptyString ->
  exists o logs,
    SignalCLIInteraction.add_device P self screenshot w
    = (o, World (fs w)
            (events w ++ EvLog "Adding Device"
                         :: EvRun (add_device_command self uri) :: map EvLog logs)).
Proof.
  intros Hfile Himg Hdec Huri Hne.
  unfold SignalCLIInteraction.add_device, SignalCLIInteraction.Image_open,
    os_path_exists, read_raw.
  run_prog. rewrite bool_decide_eq_true_2 by (rewrite Hfile; eauto). simpl.
  rewrite Hfile. simpl. rewrite Himg. simpl. rewrite Hdec. simpl.
  rewrite Huri. apply String.eqb_neq in Hne. rewrite Hne. simpl.
  unfold add_device_command. simpl.
  match goal with
  | |- context [Py.contains "invalid format" ?e || _] =>
      destruct (Py.contains "invalid format" e || Py.contains "failed" e);
      [exists (Exited 1), ["Failed to add device"; e]
      | exists (Returned tt), ["Successfully added device"]]
  end; simpl; rewrite <- !app_assoc; reflexivity.
Qed.

(** X18: [add_device] hands a command to the external client exactly when
    the screenshot exists, opens as an image, the decoder finds a region and
    the payload of the first region decodes to a non-empty text; it then
    runs one command, which carries that text between double quotes. *)
Theorem add_device_invokes_client_iff_payload (P : platform)
    (self : SignalCLIInteraction.t) (screenshot : string) (w : world) :
  (invokes_client w (SignalCLIInteraction.add_device P self screenshot w)
   <-> exists raw img first rest uri,
         fs w !! screenshot = Some (File raw)
         /\ pil_parse P raw = Some img
         /\ pyzbar_decode P img = first :: rest
         /\ bytes_decode (data first) = Some uri
         /\ uri <> EmptyString)
  /\ (forall raw img first rest uri,
        fs w !! screenshot = Some (File raw) ->
        pil_parse P raw = Some img ->
        pyzbar_decode P img = first :: rest ->
        bytes_decode (data first) = Some uri ->
        uri <> EmptyString ->
        forall command,
          EvRun command
            ∈ new_events w (SignalCLIInteraction.add_device P self screenshot w)
          <-> command = add_device_command self uri).
Proof.
  split.
  - split.
    + destruct (add_device_runs P self screenshot w) as (o & t & Hrun & Hcase).
      unfold invokes_client. rewrite Hrun, !new_events_app.
      intros [c Hin].
      destruct Hcase as
        [ Hnone | Hdir | raw Hfile Himg | raw img Hfile Himg Hdec
        | raw img first rest Hfile Himg Hdec Hbad
        | raw img first rest Hfile Himg Hdec Hdata
        | raw img first rest uri error Hfile Himg Hdec Huri Hne Herr
        | raw img first rest uri Hfile Himg Hdec Huri Hne ];
        repeat (apply elem_of_cons in Hin as [Hin|Hin]; [try discriminate|]);
        try (now apply elem_of_nil in Hin);
        exists raw, img, first, rest, uri; repeat split; done.
    + intros (raw & img & first & rest & uri & Hfile & Himg & Hdec & Huri & Hne).
      destruct (add_device_decoded P self screenshot w raw img first rest uri
                  Hfile Himg Hdec Huri Hne) as (o & logs & Hrun).
      unfold invokes_client. rewrite Hrun, new_events_app.
      eexists. apply list_elem_of_further, list_elem_of_here.
  - intros raw img first rest uri Hfile Himg Hdec Huri Hne command.
    destruct (add_device_decoded P self screenshot w raw img first rest uri
                Hfile Himg Hdec Huri Hne) as (o & logs & Hrun).
    rewrite Hrun, new_events_app. split.
    + intros Hin. apply elem_of_cons in Hin as [Hin|Hin]; [discriminate|].
      apply elem_of_cons in Hin as [Hin|Hin]; [now injection Hin|].
      apply list_elem_of_fmap in Hin as (text & Htext & _). discriminate.
    + intros ->. apply list_elem_of_further, list_elem_of_here.
Qed.

Lemma add_device_invokes_client_sample :
  invokes_client release_world
    (SignalCLIInteraction.add_device (client_platform "Failed to link device")
       sample_self "/opt/app/qr.png" release_world)
  /\ ~ invokes_client sample_world
         (SignalCLIInteraction.add_device sample_platform sample_self
            "empty.png" sample_world).
Proof.
  split.
  - apply (proj1 (add_device_invokes_client_iff_payload
                    (client_platform "Failed to link device") sample_self
                    "/opt/app/qr.png" release_world)).
    exists "qr",
      [ {| data := list_byte_of_string "sgnl://linkdevice?uuid=1" |} ],
      {| data := list_byte_of_string "sgnl://linkdevice?uuid=1" |}, [],
      "sgnl://linkdevice?uuid=1".
    split; [vm_compute; reflexivity|]. split; [reflexivity|].
    split; [reflexivity|]. split; [vm_compute; reflexivity | discriminate].
  - intros Hrun.
    apply (proj1 (add_device_invokes_client_iff_payload sample_platform
                    sample_self "empty.png" sample_world)) in Hrun
      as (raw & img & first & rest & uri & Hfile & Himg & Hdec & Huri & Hne).
    vm_compute in Hfile. injection Hfile as <-.
    vm_compute in Himg. injection Himg as <-.
    vm_compute in Hdec. injection Hdec as <- <-.
    vm_compute in Huri. injection Huri as <-. now apply Hne.
Defined.

(** X19: once a non-empty linking text was decoded, [add_device] ends the
    process with status 1 exactly when the error stream of the client
    contains [invalid format] or [failed], in lower case as written; with
    any other output it logs success and returns. *)
Theorem add_device_fails_on_phrases (P : platform)
    (self : SignalCLIInteraction.t) (screenshot : string) (w : world)
    (raw : string) (img : image P) (first : Decoded) (rest : list Decoded)
    (uri : string) :
  fs w !! screenshot = Some (File raw) ->
  pil_parse P raw = Some img ->
  pyzbar_decode P img = first :: rest ->
  bytes_decode (data first) = Some uri ->
  uri <> EmptyString ->
  let command := add_device_command self uri in
  let error := stderr (subprocess_run P command) in
  (has_substring error "invalid format" \/ has_substring error "failed" ->
   SignalCLIInteraction.add_device P self screenshot w
   = (Exited 1,
      World (fs w)
        (events w ++
           [EvLog "Adding Device"; EvRun command;
            EvLog "Failed to add device"; EvLog (Py.strip error)])))
  /\ (~ (has_substring error "invalid format" \/ has_substring error "failed") ->
      SignalCLIInteraction.add_device P self screenshot w
      = (Returned tt,
         World (fs w)
           (events w ++
              [EvLog "Adding Device"; EvRun command;
               EvLog "Successfully added device"]))).
Proof.
  intros Hfile Himg Hdec Huri Hne command error.
  rewrite <- (has_substring_strip "invalid format" error) by apply solid_phrases.
  rewrite <- (has_substring_strip "failed" error) by apply solid_phrases.
  rewrite <- !contains_spec, <- orb_true_iff.
  unfold SignalCLIInteraction.add_device, SignalCLIInteraction.Image_open,
    os_path_exists, read_raw.
  run_prog. rewrite bool_decide_eq_true_2 by (rewrite Hfile; eauto). simpl.
  rewrite Hfile. simpl. rewrite Himg. simpl. rewrite Hdec. simpl.
  rewrite Huri. apply String.eqb_neq in Hne. rewrite Hne. simpl.
  subst command error. unfold add_device_command. simpl.
  match goal with
  | |- context [Py.contains "invalid format" ?e || _] =>
      destruct (Py.contains "invalid format" e || Py.contains "failed" e)
  end; simpl; rewrite <- !app_assoc; simpl; split; intros Hc; done.
Qed.

Lemma add_device_sample_diagnostics :
  SignalCLIInteraction.add_device (client_platform "Failed to link device")
    sample_self "/opt/app/qr.png" release_world
  = (Returned tt,
     World (fs release_world)
       [EvLog "Adding Device";
        EvRun (add_device_command sample_self "sgnl://linkdevice?uuid=1");
        EvLog "Successfully added device"]).
Proof.
  refine (proj2 (add_device_fails_on_phrases
                   (client_platform "Failed to link device") sample_self
                   "/opt/app/qr.png" release_world "qr"
                   [ {| data := list_byte_of_string "sgnl://linkdevice?uuid=1" |} ]
                   {| data := list_byte_of_string "sgnl://linkdevice?uuid=1" |}
                   [] "sgnl://linkdevice?uuid=1" _ _ _ _ _) _).
  - vm_compute. reflexivity.
  - reflexivity.
  - reflexivity.
  - vm_compute. reflexivity.
  - discriminate.
  - rewrite <- !contains_spec. vm_compute. intros [Hc | Hc]; discriminate.
Defined.

(** ** Lines of text *)

Lemma no_char_app (c : ascii) (a b : string) :
  no_char c (a ++ b) = no_char c a && no_char c b.
Proof.
  unfold no_char. induction a as [|x a IH]; simpl; [reflexivity|].
  now rewrite IH, andb_assoc.
Qed.

Lemma readlines_full_line (body t : string) :
  no_char LF body = true ->
  readlines (body ++ nl ++ t) = (body ++ nl) :: readlines t.
Proof.
  induction body as [|c body IH]; intros Hbody.
  - reflexivity.
  - unfold no_char in Hbody. simpl in Hbody.
    apply andb_true_iff in Hbody as [Hc Hbody]. apply negb_true_iff in Hc.
    cbn [String.append readlines]. rewrite Hc, IH by exact Hbody. reflexivity.
Qed.

Lemma readlines_part_line (l : string) :
  part_line l -> readlines l = [l].
Proof.
  intros [Hne Hl]. induction l as [|c l IH]; [done|].
  unfold no_char in Hl. simpl in Hl.
  apply andb_true_iff in Hl as [Hc Hl]. apply negb_true_iff in Hc.
  simpl. rewrite Hc. destruct l as [|c' l]; [reflexivity|].
  now rewrite IH.
Qed.

(** Reading back the lines that were joined gives the same lines. *)
Lemma readlines_text_of (ls : list string) :
  proper_lines ls -> readlines (text_of ls) = ls.
Proof.
  induction ls as [|l ls IH]; [reflexivity|].
  cbn [proper_lines text_of foldr]. fold (text_of ls).
  destruct ls as [|l' ls].
  - simpl. rewrite string_app_nil_r. intros [[body [-> Hbody]] | Hpart].
    + rewrite <- (string_app_nil_r (body ++ nl)), string_app_assoc.
      now rewrite readlines_full_line.
    + now apply readlines_part_line.
  - intros [[body [-> Hbody]] Hrest].
    rewrite string_app_assoc, readlines_full_line by done.
    now rewrite IH.
Qed.

Lemma full_line_cons (c : ascii) (l : string) :
  Ascii.eqb c LF = false -> full_line l -> full_line (String c l).
Proof.
  intros Hc [body [-> Hbody]]. exists (String c body). split; [reflexivity|].
  unfold no_char in *. simpl. now rewrite Hc, Hbody.
Qed.

Lemma part_line_cons (c : ascii) (l : string) :
  Ascii.eqb c LF = false -> part_line l -> part_line (String c l).
Proof.
  intros Hc [_ Hl]. split; [discriminate|].
  unfold no_char in *. simpl. now rewrite Hc, Hl.
Qed.

Lemma readlines_proper (text : string) : proper_lines (readlines text).
Proof.
  induction text as [|c text IH]; [exact I|].
  simpl. destruct (Ascii.eqb c LF) eqn:Hc.
  - apply Ascii.eqb_eq in Hc as ->.
    assert (Hfull : full_line (String LF EmptyString))
      by now exists EmptyString.
    cbn [proper_lines]. destruct (readlines text); [now left | now split].
  - destruct (readlines text) as [|line lines].
    + right. split; [discriminate|]. unfold no_char. simpl. now rewrite Hc.
    + cbn [proper_lines] in *. destruct lines as [|l' lines].
      * destruct IH as [Hf | Hp];
          [left; now apply full_line_cons | right; now apply part_line_cons].
      * destruct IH as [Hf Hrest]. split; [now apply full_line_cons | done].
Qed.

Lemma patch_line_proper (modified : string) (ls : list string) :
  full_line modified -> proper_lines ls ->
  proper_lines (map (patch_line modified) ls).
Proof.
  intros Hmod. induction ls as [|l ls IH]; [done|].
  assert (Hfull : full_line l -> full_line (patch_line modified l)).
  { intros Hl. unfold patch_line. now destruct (String.eqb l _). }
  cbn [proper_lines map]. destruct ls as [|l' ls]; cbn [map].
  - intros [Hl | Hl]; [left; now apply Hfull|].
    unfold patch_line. destruct (String.eqb l _); [now left | now right].
  - intros [Hl Hrest]. split; [now apply Hfull | now apply IH].
Qed.

Lemma patch_line_twice (modified l : string) :
  patch_line modified (patch_line modified l) = patch_line modified l.
Proof.
  unfold patch_line.
  destruct (String.eqb l SignalCLISetup.original_line) eqn:Hl.
  - now destruct (String.eqb modified SignalCLISetup.original_line).
  - now rewrite Hl.
Qed.

Lemma universal_newlines_no_CR (raw : string) :
  no_char CR (universal_newlines raw) = true.
Proof.
  enough (Hboth : no_char CR (universal_newlines raw) = true
                  /\ forall c, no_char CR (universal_newlines (String c raw)) = true)
    by apply Hboth.
  induction raw as [|a raw [IH1 IH2]].
  - split; [reflexivity|]. intros c. simpl.
    destruct (Ascii.eqb c CR) eqn:Hc; [reflexivity|].
    unfold no_char. simpl. now rewrite Hc.
  - split; [apply IH2|]. intros c. cbn [universal_newlines].
    destruct (Ascii.eqb c CR) eqn:Hc.
    + destruct (Ascii.eqb a LF); unfold no_char in *; simpl;
        [exact IH1 | apply IH2].
    + unfold no_char in *. cbn [Py.all_chars]. rewrite Hc. apply IH2.
Qed.

Lemma universal_of_translated (linesep text : string) :
  linesep = nl \/ linesep = crlf ->
  no_char CR text = true ->
  universal_newlines (translate_newlines linesep text) = text.
Proof.
  intros Hsep. induction text as [|c text IH]; [reflexivity|].
  unfold no_char. simpl. rewrite andb_true_iff, negb_true_iff.
  intros [Hc Htext]. specialize (IH Htext).
  destruct (Ascii.eqb_spec c LF) as [->|Hlf].
  - destruct Hsep as [-> | ->]; simpl; now rewrite IH.
  - simpl. now rewrite Hc, IH.
Qed.

Lemma no_char_text_of (c : ascii) (ls : list string) :
  no_char c (text_of ls) = forallb (no_char c) ls.
Proof.
  induction ls as [|l ls IH]; [reflexivity|].
  cbn [text_of foldr forallb]. fold (text_of ls). now rewrite no_char_app, IH.
Qed.

(** ** SignalCLISetup.modify_batch_file, missing scripts and second runs *)

(** X20: when the path is not a regular file (nothing there, or a
    directory) [modify_batch_file] prints that the file does not exist and
    returns; it creates nothing and logs nothing. *)
Theorem modify_batch_file_missing_script (P : platform) (w : world)
    (path : string) (custom_java_exe : option string) :
  (forall raw, fs w !! path <> Some (File raw)) ->
  SignalCLISetup.modify_batch_file P path custom_java_exe w
  = (Returned tt,
     World (fs w)
       (events w ++
          [EvPrint ("Error: The file '" ++ path ++ "' does not exist.")])).
Proof.
  intros Hmissing. unfold SignalCLISetup.modify_batch_file, os_path_isfile.
  unfold mbind, prog_bind.
  destruct (fs w !! path) as [[raw|]|] eqn:Hfile; [|reflexivity..].
  now contradiction (Hmissing raw).
Qed.

Lemma modify_batch_file_on_directory :
  SignalCLISetup.modify_batch_file sample_platform "assets/openjdk"
    (Some "C:/jdk/bin/java.exe") sample_world
  = (Returned tt,
     World (fs sample_world)
       [EvPrint "Error: The file 'assets/openjdk' does not exist."]).
Proof.
  apply (modify_batch_file_missing_script sample_platform sample_world
           "assets/openjdk" (Some "C:/jdk/bin/java.exe")).
  intros raw. vm_compute. discriminate.
Defined.

Lemma modified_line_full (custom_java_exe : option string) :
  no_char LF (SignalCLISetup.format_optional custom_java_exe) = true ->
  full_line (SignalCLISetup.modified_line custom_java_exe).
Proof.
  intros Hexe. unfold SignalCLISetup.modified_line.
  exists ("set JAVA_EXE=" ++ SignalCLISetup.format_optional custom_java_exe).
  split; [now rewrite string_app_assoc|].
  now rewrite no_char_app, Hexe.
Qed.

(** X21: on a platform whose line separator is LF or CR LF, with a runtime
    path free of line terminators and a codec that reads back what it wrote,
    running [modify_batch_file] a second time returns normally and leaves the
    file system as the first run left it.  Unless the path is the one the
    launcher had already, the second run finds no line to replace and logs
    so. *)
Theorem modify_batch_file_second_run (P : platform) (w : world)
    (path : string) (custom_java_exe : option string) (raw text : string)
    (chunks : list string) :
  fs w !! path = Some (File raw) ->
  locale_decode P raw = inr text ->
  os_open_write P (fs w) path = None ->
  os_linesep P = nl \/ os_linesep P = crlf ->
  no_char CR (SignalCLISetup.format_optional custom_java_exe) = true ->
  no_char LF (SignalCLISetup.format_optional custom_java_exe) = true ->
  let modified := SignalCLISetup.modified_line custom_java_exe in
  let written :=
    map (patch_line modified) (readlines (universal_newlines text)) in
  written_as P written chunks ->
  locale_decode P (text_of chunks)
  = inr (translate_newlines (os_linesep P) (text_of written)) ->
  os_open_write P (<[path := File (text_of chunks)]> (fs w)) path = None ->
  let run := SignalCLISetup.modify_batch_file P path custom_java_exe in
  let w1 := snd (run w) in
  fst (run w1) = Returned tt
  /\ fs (snd (run w1)) = fs w1
  /\ (modified <> SignalCLISetup.original_line ->
      new_events w1 (run w1)
      = [EvLog ("Line not found. No changes made to '" ++ path ++ "'.")]).
Proof.
  intros Hfile Hdecode Hopen Hsep Hcr Hlf modified written Hchunks Hback Hopen1
    run w1.
  set (lines := readlines (universal_newlines text)) in *.
  set (raw1 := text_of chunks) in *.
  assert (Hw1 : fs w1 = <[path := File raw1]> (fs w)).
  { unfold w1, run.
    now rewrite (modify_batch_file_run P w path _ raw text chunks). }
  assert (Hfile1 : fs w1 !! path = Some (File raw1))
    by (rewrite Hw1; apply lookup_insert_eq).
  assert (Hmod_cr : no_char CR modified = true).
  { unfold modified, SignalCLISetup.modified_line.
    now rewrite !no_char_app, Hcr. }
  assert (Hwritten_cr : no_char CR (text_of written) = true).
  { rewrite no_char_text_of. unfold written. rewrite forallb_forall.
    intros l Hl. apply in_map_iff in Hl as (l0 & <- & Hl0).
    unfold patch_line. destruct (String.eqb l0 _); [exact Hmod_cr|].
    pose proof (universal_newlines_no_CR text) as Hu.
    rewrite <- (text_of_readlines (universal_newlines text)) in Hu.
    rewrite no_char_text_of, forallb_forall in Hu. now apply Hu. }
  assert (Hlines1 : readlines (universal_newlines
                                 (translate_newlines (os_linesep P)
                                    (text_of written))) = written).
  { rewrite universal_of_translated by done.
    apply readlines_text_of, patch_line_proper;
      [now apply modified_line_full | apply readlines_proper]. }
  assert (Hwritten1 : map (patch_line modified) written = written).
  { unfold written. rewrite map_map. apply map_ext. intros l.
    apply patch_line_twice. }
  pose proof (modify_batch_file_run P w1 path custom_java_exe raw1
                (translate_newlines (os_linesep P) (text_of written)) chunks
                Hfile1 Hback) as Hrun1.
  rewrite Hw1 in Hrun1 at 1. specialize (Hrun1 Hopen1).
  cbv zeta in Hrun1. fold modified in Hrun1.
  rewrite Hlines1, Hwritten1 in Hrun1. specialize (Hrun1 Hchunks).
  fold raw1 in Hrun1. fold run in Hrun1. rewrite Hrun1. cbn [fst snd fs].
  split; [done|]. split; [now apply insert_id|].
  intros Hne. rewrite new_events_app.
  assert (Hnone : existsb is_original_line written = false).
  { apply not_true_iff_false. rewrite existsb_exists.
    intros (l & Hl & Horig). unfold written in Hl.
    apply in_map_iff in Hl as (l0 & <- & _).
    unfold is_original_line, patch_line in Horig.
    destruct (String.eqb l0 SignalCLISetup.original_line) eqn:Hl0.
    - apply String.eqb_eq in Horig. contradiction.
    - congruence. }
  now rewrite Hnone.
Qed.

Lemma modify_batch_file_second_run_sample :
  let run :=
    SignalCLISetup.modify_batch_file sample_platform "bin/signal-cli.bat"
      (Some "C:/jdk/bin/java.exe") in
  fst (run (snd (run sample_world))) = Returned tt
  /\ fs (snd (run (snd (run sample_world)))) = fs (snd (run sample_world))
  /\ (SignalCLISetup.modified_line (Some "C:/jdk/bin/java.exe")
        <> SignalCLISetup.original_line ->
      new_events (snd (run sample_world)) (run (snd (run sample_world)))
      = [EvLog ("Line not found. No changes made to '" ++ "bin/signal-cli.bat"
                ++ "'.")]).
Proof.
  apply (modify_batch_file_second_run sample_platform sample_world
           "bin/signal-cli.bat" (Some "C:/jdk/bin/java.exe") sample_script
           sample_script
           ["@echo off" ++ nl; "set JAVA_EXE=C:/jdk/bin/java.exe" ++ nl;
            "echo done" ++ nl]).
  - vm_compute. reflexivity.
  - vm_compute. reflexivity.
  - vm_compute. reflexivity.
  - now left.
  - reflexivity.
  - reflexivity.
  - exact sample_script_written.
  - vm_compute. reflexivity.
  - vm_compute. reflexivity.
Defined.

(** X28: what the codec of the locale can do to the launcher.  A script
    that the codec cannot decode, or that cannot be opened for writing, makes
    [modify_batch_file] raise before anything is written or logged: the
    script stays as it is.  When the codec cannot encode one of the lines to
    write (the line that assigns the runtime path, say), the call raises
    after the script was truncated: the file keeps the lines written before
    that line and loses the rest, and nothing is logged. *)
Theorem modify_batch_file_codec_errors (P : platform) (w : world)
    (path : string) (custom_java_exe : option string) (raw : string) :
  fs w !! path = Some (File raw) ->
  (forall e,
     locale_decode P raw = inl e ->
     SignalCLISetup.modify_batch_file P path custom_java_exe w = (Raised e, w))
  /\ (forall text e,
        locale_decode P raw = inr text ->
        os_open_write P (fs w) path = Some e ->
        SignalCLISetup.modify_batch_file P path custom_java_exe w = (Raised e, w))
  /\ (forall text pre line post chunks e,
        locale_decode P raw = inr text ->
        os_open_write P (fs w) path = None ->
        readlines (universal_newlines text) = (pre ++ line :: post)%list ->
        let modified := SignalCLISetup.modified_line custom_java_exe in
        written_as P (map (patch_line modified) pre) chunks ->
        text_bytes P (patch_line modified line) = inl e ->
        SignalCLISetup.modify_batch_file P path custom_java_exe w
        = (Raised e,
           World (<[path := File (text_of chunks)]> (fs w)) (events w))).
Proof.
  intros Hfile. split; [|split].
  - intros e Hdecode.
    apply (modify_batch_file_not_rewritten P w path custom_java_exe raw e Hfile).
    now left.
  - intros text e Hdecode Hopen.
    apply (modify_batch_file_not_rewritten P w path custom_java_exe raw e Hfile).
    right. now exists text.
  - intros text pre line post chunks e Hdecode Hopen Hlines modified Hchunks Hbad.
    now apply (modify_batch_file_cut_short P w path custom_java_exe raw text
                 pre line post chunks e).
Qed.

Lemma modify_batch_file_codec_errors_sample :
  SignalCLISetup.modify_batch_file sample_platform "bin/latin1.bat"
    (Some "C:/jdk/bin/java.exe") sample_world
  = (Raised (Exception UnicodeDecodeError "'utf-8' codec can't decode byte"),
     sample_world)
  /\ SignalCLISetup.modify_batch_file ascii_platform "bin/signal-cli.bat"
       (Some accented_path) sample_world
     = (Raised (Exception UnicodeEncodeError
                  "'ascii' codec can't encode character"),
        World (<["bin/signal-cli.bat" := File ("@echo off" ++ nl)]>
                 (fs sample_world)) []).
Proof.
  split.
  - apply (proj1 (modify_batch_file_codec_errors sample_platform sample_world
                    "bin/latin1.bat" (Some "C:/jdk/bin/java.exe") latin1_script
                    ltac:(vm_compute; reflexivity))).
    vm_compute. reflexivity.
  - apply (proj2 (proj2 (modify_batch_file_codec_errors ascii_platform
                           sample_world "bin/signal-cli.bat"
                           (Some accented_path) sample_script
                           ltac:(vm_compute; reflexivity)))
             sample_script ["@echo off" ++ nl] SignalCLISetup.original_line
             ["echo done" ++ nl] ["@echo off" ++ nl]).
    + vm_compute. reflexivity.
    + vm_compute. reflexivity.
    + vm_compute. reflexivity.
    + repeat (constructor; [vm_compute; reflexivity|]). constructor.
    + vm_compute. reflexivity.
Defined.

(** ** SignalCLISetup: the steps of setup *)

Lemma create_directories_run (H : host) (self : SignalCLISetupRest.t)
    (w : world) (m1 m2 : gmap string node) :
  os_makedirs (host_platform H) (fs w) (SignalCLISetupRest.dep_dir self) = inr m1 ->
  os_makedirs (host_platform H) m1 (SignalCLISetupRest.signal_cli_dir self)
  = inr m2 ->
  SignalCLISetupRest.create_directories H self w
  = (Returned tt,
     World m2 (events w ++ [EvLog "Creating dependencies directory"])).
Proof.
  intros Hdep Hsig. unfold SignalCLISetupRest.create_directories, fs_call.
  run_prog. rewrite Hdep. simpl. now rewrite Hsig.
Qed.

Lemma download_signal_cli_present (H : host) (self : SignalCLISetupRest.t)
    (asset : GithubUtils.Asset) (w : world) :
  let download_dir :=
    os_path_join (host_platform H) (SignalCLISetupRest.dep_dir self)
      (GithubUtils.name asset) in
  is_Some (fs w !! download_dir) ->
  SignalCLISetupRest.download_signal_cli H self asset w
  = (Returned (Some download_dir),
     World (fs w)
       (events w ++ [EvLog "Downloading signal-cli";
                     EvLog "Signal-cli already downloaded"])).
Proof.
  intros download_dir Hpresent.
  unfold SignalCLISetupRest.download_signal_cli, os_path_exists.
  fold download_dir. run_prog. rewrite bool_decide_eq_true_2 by done.
  simpl. now rewrite <- app_assoc.
Qed.

Lemma extract_signal_cli_present (H : host) (self : SignalCLISetupRest.t)
    (zipped_path : string) (w : world) :
  let final :=
    os_path_join (host_platform H) (SignalCLISetupRest.signal_cli_dir self)
      (FileUtilsRest.get_name_without_extension H zipped_path) in
  is_Some (fs w !! final) ->
  SignalCLISetupRest.extract_signal_cli H self zipped_path w
  = (Returned final,
     World (fs w) (events w ++ [EvLog "Signal-cli already extracted"])).
Proof.
  intros final Hpresent.
  unfold SignalCLISetupRest.extract_signal_cli, os_path_exists.
  fold final. run_prog. now rewrite bool_decide_eq_true_2 by done.
Qed.

Lemma check_and_setup_java_no_jar (H : host) (self : SignalCLISetupRest.t)
    (w : world) :
  Forall (fun rf => ~ cli_jar H (snd rf))
    (walk_files (os_walk H (fs w) (SignalCLISetupRest.signal_cli_dir self))) ->
  SignalCLISetupRest.check_and_setup_java H self w
  = (Returned None,
     World (fs w)
       (events w ++ [EvLog "Checking for correct java version";
                     EvLog "Failed to find signal-cli jar"])).
Proof.
  intros Hnone.
  assert (Hfind : forall w0, fs w0 = fs w ->
            FileUtilsRest.find_cli_jar H (SignalCLISetupRest.signal_cli_dir self) w0
            = (Returned None, w0)).
  { intros w0 Hw0. unfold FileUtilsRest.find_cli_jar.
    rewrite find_in_walk_flat, Hw0.
    replace (List.find _ _) with (@None (string * string)); [reflexivity|].
    symmetry. apply find_nothing. eapply Forall_impl; [exact Hnone|].
    intros rf Hrf. simpl in Hrf. apply not_true_iff_false.
    now rewrite cli_jar_test_spec. }
  unfold SignalCLISetupRest.check_and_setup_java.
  unfold mbind at 1. unfold prog_bind at 1. unfold log at 1, emit at 1.
  unfold mbind at 1. unfold prog_bind at 1.
  rewrite Hfind by reflexivity. run_prog. now rewrite <- app_assoc.
Qed.

(** X22: when the latest release has no asset that [get_latest_release]
    accepts, [setup] returns [None] after creating its two directories and
    logging two messages: nothing is downloaded, extracted or patched. *)
Theorem setup_without_release (H : host) (self : SignalCLISetupRest.t)
    (w : world) (m1 m2 : gmap string node) :
  os_makedirs (host_platform H) (fs w) (SignalCLISetupRest.dep_dir self) = inr m1 ->
  os_makedirs (host_platform H) m1 (SignalCLISetupRest.signal_cli_dir self)
  = inr m2 ->
  Forall (fun b => ~ accepted_asset b) (github_assets H "AsamK/signal-cli") ->
  SignalCLISetupRest.setup H self w
  = (Returned None,
     World m2
       (events w ++ [EvLog "Creating dependencies directory";
                     EvLog "Getting latest signal-cli release"])).
Proof.
  intros Hdep Hsig Hnone. apply first_matching_asset_None in Hnone.
  unfold SignalCLISetupRest.setup.
  unfold mbind at 1. unfold prog_bind at 1.
  rewrite (create_directories_run H self w m1 m2 Hdep Hsig).
  unfold SignalCLISetupRest.get_latest_release, GithubUtils.get_latest_release.
  rewrite Hnone. run_prog. now rewrite <- app_assoc.
Qed.

Lemma setup_with_linux_assets_only :
  SignalCLISetupRest.setup
    (make_host sample_platform sample_walk [linux_asset; zip_asset])
    sample_setup release_world
  = (Returned None,
     World (<["/opt/app/assets/signal-cli" := Dir]>
              (<["/opt/app/assets" := Dir]> (fs release_world)))
       [EvLog "Creating dependencies directory";
        EvLog "Getting latest signal-cli release"]).
Proof.
  apply (setup_without_release
           (make_host sample_platform sample_walk [linux_asset; zip_asset])
           sample_setup release_world
           (<["/opt/app/assets" := Dir]> (fs release_world))).
  - reflexivity.
  - reflexivity.
  - repeat constructor.
    + intros [_ Hno]. apply Hno, contains_spec. vm_compute. reflexivity.
    + intros [Hs _]. apply endswith_spec in Hs. vm_compute in Hs. discriminate.
Defined.

Lemma extract_tar_gz_ok (H : host) (w : world)
    (file_path extract_to folder : string) (m1 m2 : gmap string node)
    (raw : string) (tar : tarfile H) :
  let dest :=
    match folder with
    | String c f => os_path_join (host_platform H) extract_to (String c f)
    | EmptyString => extract_to
    end in
  os_makedirs (host_platform H) (fs w) dest = inr m1 ->
  m1 !! file_path = Some (File raw) ->
  tarfile_parse H raw = inr tar ->
  tar_extractall H tar dest m1 = inr m2 ->
  FileUtilsRest.extract_tar_gz H file_path extract_to (Some folder) w
  = (Returned tt,
     World m2 (events w ++ [EvLog ("Extracting " ++ file_path);
                            EvLog ("Extraction complete to " ++ dest)])).
Proof.
  intros dest Hmk Hfile Hparse Hex.
  assert (Hdest : (if Py.truthy (Some folder)
                   then os_path_join (host_platform H) extract_to
                          (default EmptyString (Some folder))
                   else extract_to) = dest).
  { unfold dest. now destruct folder. }
  unfold FileUtilsRest.extract_tar_gz, FileUtilsRest.tarfile_open, read_raw,
    fs_call.
  rewrite Hdest. run_prog. rewrite Hmk. simpl.
  rewrite Hfile. simpl. rewrite Hparse. simpl. rewrite Hex. simpl.
  now rewrite <- app_assoc.
Qed.

Lemma extract_signal_cli_extracts (H : host) (self : SignalCLISetupRest.t)
    (zipped_path : string) (w : world) (m1 m2 : gmap string node)
    (raw : string) (tar : tarfile H) :
  let final := release_directory H self zipped_path in
  let dest := release_destination H self in
  fs w !! final = None ->
  os_makedirs (host_platform H) (fs w) dest = inr m1 ->
  m1 !! zipped_path = Some (File raw) ->
  tarfile_parse H raw = inr tar ->
  tar_extractall H tar dest m1 = inr m2 ->
  SignalCLISetupRest.extract_signal_cli H self zipped_path w
  = if bool_decide (is_Some (m2 !! final)) then
      (Returned final,
       World m2
         (events w ++
            [EvLog "Extracting signal-cli";
             EvLog ("Extracting " ++ zipped_path);
             EvLog ("Extraction complete to " ++ dest);
             EvLog "Signal-cli found and extracted successfully"]))
    else
      (Exited 1,
       World m2
         (events w ++
            [EvLog "Extracting signal-cli";
             EvLog ("Extracting " ++ zipped_path);
             EvLog ("Extraction complete to " ++ dest);
             EvLog "Failed to extract signal-cli"])).
Proof.
  intros final dest Hmissing Hmk Hfile Hparse Hex.
  unfold SignalCLISetupRest.extract_signal_cli.
  fold (release_directory H self zipped_path). fold final.
  unfold mbind at 1. unfold prog_bind at 1. unfold os_path_exists at 1.
  rewrite bool_decide_eq_false_2 by (rewrite Hmissing; now intros [? ?]).
  unfold mbind at 1. unfold prog_bind at 1. unfold log at 1, emit at 1.
  unfold mbind at 1. unfold prog_bind at 1.
  rewrite (extract_tar_gz_ok H
             (World (fs w) (events w ++ [EvLog "Extracting signal-cli"]))
             zipped_path (SignalCLISetupRest.dep_dir self)
             (os_path_basename H (SignalCLISetupRest.signal_cli_dir self))
             m1 m2 raw tar Hmk Hfile Hparse Hex).
  fold (release_destination H self). fold dest.
  unfold os_path_exists. run_prog.
  destruct (bool_decide (is_Some (m2 !! final))); simpl;
    now rewrite <- !app_assoc.
Qed.

(** X23: [extract_signal_cli] returns the release directory without
    extracting when that directory exists.  Otherwise it extracts the archive
    below the dependencies directory and looks again: when the directory is
    still missing it logs [Failed to extract signal-cli] and ends the
    process with status 1, the extracted files staying where they are;
    when it is there it is returned. *)
Theorem extract_signal_cli_outcomes (H : host) (self : SignalCLISetupRest.t)
    (zipped_path : string) (w : world) :
  let final := release_directory H self zipped_path in
  let dest := release_destination H self in
  (is_Some (fs w !! final) ->
   SignalCLISetupRest.extract_signal_cli H self zipped_path w
   = (Returned final,
      World (fs w) (events w ++ [EvLog "Signal-cli already extracted"])))
  /\ (fs w !! final = None ->
      forall m1 m2 raw tar,
        os_makedirs (host_platform H) (fs w) dest = inr m1 ->
        m1 !! zipped_path = Some (File raw) ->
        tarfile_parse H raw = inr tar ->
        tar_extractall H tar dest m1 = inr m2 ->
        (m2 !! final = None ->
         SignalCLISetupRest.extract_signal_cli H self zipped_path w
         = (Exited 1,
            World m2
              (events w ++
                 [EvLog "Extracting signal-cli";
                  EvLog ("Extracting " ++ zipped_path);
                  EvLog ("Extraction complete to " ++ dest);
                  EvLog "Failed to extract signal-cli"])))
        /\ (is_Some (m2 !! final) ->
            SignalCLISetupRest.extract_signal_cli H self zipped_path w
            = (Returned final,
               World m2
                 (events w ++
                    [EvLog "Extracting signal-cli";
                     EvLog ("Extracting " ++ zipped_path);
                     EvLog ("Extraction complete to " ++ dest);
                     EvLog "Signal-cli found and extracted successfully"])))).
Proof.
  intros final dest. split.
  - intros Hpresent. now apply extract_signal_cli_present.
  - intros Hmissing m1 m2 raw tar Hmk Hfile Hparse Hex.
    rewrite (extract_signal_cli_extracts H self zipped_path w m1 m2 raw tar
               Hmissing Hmk Hfile Hparse Hex).
    fold final. fold dest. split.
    + intros Hstill.
      now rewrite bool_decide_eq_false_2 by (rewrite Hstill; now intros [? ?]).
    + intros Hthere. now rewrite bool_decide_eq_true_2 by done.
Qed.

Lemma extract_signal_cli_fresh_sample :
  fst (SignalCLISetupRest.extract_signal_cli sample_host sample_setup
         "/opt/app/assets/signal-cli-1.0.tar.gz" fresh_world)
  = Returned "/opt/app/assets/signal-cli/signal-cli-1.0".
Proof.
  destruct (proj2 (extract_signal_cli_outcomes sample_host sample_setup
                     "/opt/app/assets/signal-cli-1.0.tar.gz" fresh_world)
              ltac:(vm_compute; reflexivity)
              (<["/opt/app/assets/signal-cli" := Dir]> (fs fresh_world))
              (foldr (fun member acc =>
                        <[posix_join "/opt/app/assets/signal-cli" (fst member)
                            := snd member]> acc)
                     (<["/opt/app/assets/signal-cli" := Dir]> (fs fresh_world))
                     sample_tar)
              "TGZ-sample" sample_tar
              ltac:(reflexivity) ltac:(vm_compute; reflexivity)
              ltac:(reflexivity) ltac:(reflexivity)) as [_ Hthere].
  rewrite Hthere; [reflexivity|].
  exists Dir. vm_compute. reflexivity.
Defined.

(** X24: [check_and_setup_java] returns [None] and leaves the file system
    as it was when the walk of the client directory has no signal-cli jar,
    and also when a jar is found but no version can be read from it. *)
Theorem check_and_setup_java_gives_up (H : host)
    (self : SignalCLISetupRest.t) (w : world) :
  let walk := os_walk H (fs w) (SignalCLISetupRest.signal_cli_dir self) in
  (Forall (fun rf => ~ cli_jar H (snd rf)) (walk_files walk) ->
   SignalCLISetupRest.check_and_setup_java H self w
   = (Returned None,
      World (fs w)
        (events w ++ [EvLog "Checking for correct java version";
                      EvLog "Failed to find signal-cli jar"])))
  /\ (forall java_file w2,
        FileUtilsRest.find_in_walk H walk = Some java_file ->
        JavaUtils.get_java_version_of_file (host_platform H) java_file
          (World (fs w) (events w ++ [EvLog "Checking for correct java version"]))
        = (Returned None, w2) ->
        SignalCLISetupRest.check_and_setup_java H self w
        = (Returned None,
           World (fs w)
             (events w2 ++
                [EvLog "Could not determine the Java version from the JAR file."]))).
Proof.
  intros walk. split.
  - now apply check_and_setup_java_no_jar.
  - intros java_file w2 Hfind Hversion.
    destruct (get_java_version_returns (host_platform H) java_file
                (World (fs w)
                   (events w ++ [EvLog "Checking for correct java version"])))
      as (r & w2' & Hret & Hfs).
    rewrite Hversion in Hret. injection Hret as <- <-. simpl in Hfs.
    unfold SignalCLISetupRest.check_and_setup_java.
    unfold mbind at 1. unfold prog_bind at 1. unfold log at 1, emit at 1.
    unfold mbind at 1. unfold prog_bind at 1.
    unfold FileUtilsRest.find_cli_jar. cbn [fs events]. fold walk.
    rewrite Hfind.
    unfold mbind at 1. unfold prog_bind at 1. rewrite Hversion.
    run_prog. now rewrite Hfs.
Qed.

Lemma check_and_setup_java_unreadable_jar :
  SignalCLISetupRest.check_and_setup_java sample_host sample_setup release_world
  = (Returned None,
     World (fs release_world)
       [EvLog "Checking for correct java version";
        EvLog "Error reading JAR file: No such file or directory";
        EvLog "Could not determine the Java version from the JAR file."]).
Proof.
  refine (proj2 (check_and_setup_java_gives_up sample_host sample_setup
                   release_world)
            "/opt/app/assets/signal-cli/signal-cli-1.0/lib/signal-cli-1.0.jar"
            (World (fs release_world)
               [EvLog "Checking for correct java version";
                EvLog "Error reading JAR file: No such file or directory"])
            _ _).
  - vm_compute. reflexivity.
  - vm_compute. reflexivity.
Defined.

Lemma bind_Returned {A B : Type} (m : prog A) (f : A -> prog B)
    (w w' : world) (a : A) :
  m w = (Returned a, w') -> (m ≫= f) w = f a w'.
Proof. intros Hm. unfold mbind, prog_bind. now rewrite Hm. Qed.

Lemma truthy_Some (s : string) :
  s <> EmptyString -> Py.truthy (Some s) = true.
Proof. now destruct s. Qed.

(** X25: [setup] patches the launcher before it looks at the result of
    the Java setup.  On a machine where the release is already downloaded and
    extracted but no signal-cli jar is found, a launcher that the codec of
    the locale decodes and that can be opened for writing is rewritten with
    the line [set JAVA_EXE=None] in place of every line equal to the
    literal, the codec encoding the lines, and only then [Java setup failed]
    is logged and the process ends with status 1. *)
Theorem setup_patches_launcher_before_giving_up (H : host)
    (self : SignalCLISetupRest.t) (w : world) (m1 m2 : gmap string node)
    (asset : GithubUtils.Asset) (raw text : string) (chunks : list string) :
  let P := host_platform H in
  let zipped :=
    os_path_join P (SignalCLISetupRest.dep_dir self) (GithubUtils.name asset) in
  let final := release_directory H self zipped in
  let bat := launcher_path H final in
  os_makedirs P (fs w) (SignalCLISetupRest.dep_dir self) = inr m1 ->
  os_makedirs P m1 (SignalCLISetupRest.signal_cli_dir self) = inr m2 ->
  GithubUtils.get_latest_release (github_assets H) "AsamK/signal-cli"
  = Some asset ->
  zipped <> EmptyString ->
  is_Some (m2 !! zipped) ->
  is_Some (m2 !! final) ->
  Forall (fun rf => ~ cli_jar H (snd rf))
    (walk_files (os_walk H m2 (SignalCLISetupRest.signal_cli_dir self))) ->
  m2 !! bat = Some (File raw) ->
  locale_decode P raw = inr text ->
  os_open_write P m2 bat = None ->
  let lines := readlines (universal_newlines text) in
  written_as P (map (patch_line ("set JAVA_EXE=None" ++ nl)) lines) chunks ->
  SignalCLISetupRest.setup H self w
  = (Exited 1,
     World (<[bat := File (text_of chunks)]> m2)
       (events w ++
          [EvLog "Creating dependencies directory";
           EvLog "Getting latest signal-cli release";
           EvLog "Downloading signal-cli";
           EvLog "Signal-cli already downloaded";
           EvLog "Signal-cli already extracted";
           EvLog "Checking for correct java version";
           EvLog "Failed to find signal-cli jar";
           EvLog (if existsb is_original_line lines
                  then "Successfully modified '" ++ bat ++ "'."
                  else "Line not found. No changes made to '" ++ bat ++ "'.");
           EvLog "Java setup failed"])).
Proof.
  intros P zipped final bat Hdep Hsig Hasset Hzipped Hdownloaded Hextracted
    Hnojar Hbat Hdecode Hopen lines Hchunks.
  unfold SignalCLISetupRest.setup.
  erewrite bind_Returned
    by (apply (create_directories_run H self w m1 m2); assumption).
  erewrite bind_Returned by
    (unfold SignalCLISetupRest.get_latest_release; run_prog;
     rewrite Hasset; reflexivity).
  cbv beta iota.
  erewrite bind_Returned by
    (apply download_signal_cli_present; exact Hdownloaded).
  fold P. fold zipped. rewrite (truthy_Some zipped Hzipped).
  cbn [default from_option id].
  erewrite bind_Returned by
    (apply extract_signal_cli_present; exact Hextracted).
  fold (release_directory H self zipped). fold final.
  fold (launcher_path H final). fold bat. cbv zeta.
  erewrite bind_Returned by
    (apply check_and_setup_java_no_jar; exact Hnojar).
  erewrite bind_Returned by
    (apply (modify_batch_file_run P _ bat None raw text chunks);
     [exact Hbat | exact Hdecode | exact Hopen | exact Hchunks]).
  cbv zeta. fold lines. cbn [Py.truthy]. run_prog.
  rewrite <- !app_assoc. reflexivity.
Qed.

Lemma setup_without_jar_sample :
  let H := make_host sample_platform (fun _ => []) [linux_asset; plain_asset] in
  fst (SignalCLISetupRest.setup H sample_setup release_world) = Exited 1
  /\ fs (snd (SignalCLISetupRest.setup H sample_setup release_world))
       !! "/opt/app/assets/signal-cli/signal-cli-1.0/bin/signal-cli.bat"
     = Some (File ("@echo off" ++ nl ++ "set JAVA_EXE=None" ++ nl
                   ++ "echo done" ++ nl)).
Proof.
  intros H.
  rewrite (setup_patches_launcher_before_giving_up H sample_setup release_world
             (<["/opt/app/assets" := Dir]> (fs release_world))
             (<["/opt/app/assets/signal-cli" := Dir]>
                (<["/opt/app/assets" := Dir]> (fs release_world)))
             plain_asset sample_script sample_script
             ["@echo off" ++ nl; "set JAVA_EXE=None" ++ nl; "echo done" ++ nl]).
  - split; [reflexivity|]. vm_compute. reflexivity.
  - reflexivity.
  - reflexivity.
  - reflexivity.
  - discriminate.
  - exists (File "TGZ-sample"). vm_compute. reflexivity.
  - exists Dir. vm_compute. reflexivity.
  - constructor.
  - vm_compute. reflexivity.
  - vm_compute. reflexivity.
  - vm_compute. reflexivity.
  - repeat (constructor; [vm_compute; reflexivity|]). constructor.
Defined.

(** ** SignalCLISetup.check_and_setup_java, what a result means *)

Lemma bind_inv {A B : Type} (m : prog A) (f : A -> prog B) (w w' : world)
    (b : B) :
  (m ≫= f) w = (Returned b, w') ->
  exists a w1, m w = (Returned a, w1) /\ f a w1 = (Returned b, w').
Proof.
  unfold mbind, prog_bind. destruct (m w) as [[a|n|e] w1]; intros Hf;
    [eauto | discriminate..].
Qed.

(** X26: a path returned by [check_and_setup_java] has the form
    [<directory>/bin/java.exe] (joined by the platform) and something exists
    at it when the call returns: the Java path handed to the launcher is
    never a guess. *)
Theorem check_and_setup_java_returns_existing (H : host)
    (self : SignalCLISetupRest.t) (w w' : world) (java_path : string) :
  SignalCLISetupRest.check_and_setup_java H self w
  = (Returned (Some java_path), w') ->
  is_Some (fs w' !! java_path)
  /\ exists dir,
       java_path
       = os_path_join (host_platform H)
           (os_path_join (host_platform H) dir "bin") "java.exe".
Proof.
  intros Hrun. unfold SignalCLISetupRest.check_and_setup_java in Hrun.
  apply bind_inv in Hrun as ([] & w1 & _ & Hrun).
  apply bind_inv in Hrun as ([java_file|] & w2 & _ & Hrun).
  2: { apply bind_inv in Hrun as (? & ? & _ & Hrun). discriminate. }
  apply bind_inv in Hrun as ([major|] & w3 & _ & Hrun).
  2: { apply bind_inv in Hrun as (? & ? & _ & Hrun). discriminate. }
  cbv zeta in Hrun.
  apply bind_inv in Hrun as ([] & w4 & _ & Hrun).
  apply bind_inv in Hrun as ([] & w5 & _ & Hrun).
  apply bind_inv in Hrun as (download_path & w6 & _ & Hrun).
  destruct (negb (Py.truthy download_path)).
  { apply bind_inv in Hrun as (? & ? & _ & Hrun). discriminate. }
  apply bind_inv in Hrun as ([] & w7 & _ & Hrun).
  apply bind_inv in Hrun as ([] & w8 & _ & Hrun).
  apply bind_inv in Hrun as (dir & w9 & _ & Hrun).
  apply bind_inv in Hrun as ([] & w10 & _ & Hrun).
  apply bind_inv in Hrun as (present & w11 & Hexists & Hrun).
  unfold os_path_exists in Hexists. injection Hexists as <- <-.
  destruct (bool_decide _) eqn:Hpresent.
  - apply bind_inv in Hrun as ([] & w12 & Hlog & Hrun).
    unfold log, emit in Hlog. injection Hlog as <-.
    injection Hrun as <- <-. simpl.
    apply bool_decide_eq_true_1 in Hpresent. split; [done | eauto].
  - apply bind_inv in Hrun as (? & ? & _ & Hrun). discriminate.
Qed.

Lemma check_and_setup_java_installed_sample :
  is_Some (fs (snd (SignalCLISetupRest.check_and_setup_java installed_host
                      sample_setup installed_world))
           !! "/opt/app/assets/openjdk/jdk-17/bin/java.exe")
  /\ exists dir,
       "/opt/app/assets/openjdk/jdk-17/bin/java.exe"
       = os_path_join (host_platform installed_host)
           (os_path_join (host_platform installed_host) dir "bin") "java.exe".
Proof.
  apply (check_and_setup_java_returns_existing installed_host sample_setup
           installed_world).
  vm_compute. reflexivity.
Defined.

(** X27: on a machine where the release is already downloaded and
    extracted, when [check_and_setup_java] returns a non-empty Java path
    [setup] rewrites a launcher that the codec of the locale decodes and that
    can be opened for writing with the line that assigns that path in place
    of every line equal to the literal, the codec encoding the lines; it
    then logs the two paths and returns the path of the launcher. *)
Theorem setup_returns_patched_launcher (H : host)
    (self : SignalCLISetupRest.t) (w w5 : world) (m1 m2 : gmap string node)
    (asset : GithubUtils.Asset) (java_path raw text : string)
    (chunks : list string) :
  let P := host_platform H in
  let zipped :=
    os_path_join P (SignalCLISetupRest.dep_dir self) (GithubUtils.name asset) in
  let final := release_directory H self zipped in
  let bat := launcher_path H final in
  os_makedirs P (fs w) (SignalCLISetupRest.dep_dir self) = inr m1 ->
  os_makedirs P m1 (SignalCLISetupRest.signal_cli_dir self) = inr m2 ->
  GithubUtils.get_latest_release (github_assets H) "AsamK/signal-cli"
  = Some asset ->
  zipped <> EmptyString ->
  is_Some (m2 !! zipped) ->
  is_Some (m2 !! final) ->
  SignalCLISetupRest.check_and_setup_java H self
    (World m2
       (events w ++
          [EvLog "Creating dependencies directory";
           EvLog "Getting latest signal-cli release";
           EvLog "Downloading signal-cli";
           EvLog "Signal-cli already downloaded";
           EvLog "Signal-cli already extracted"]))
  = (Returned (Some java_path), w5) ->
  java_path <> EmptyString ->
  fs w5 !! bat = Some (File raw) ->
  locale_decode P raw = inr text ->
  os_open_write P (fs w5) bat = None ->
  let lines := readlines (universal_newlines text) in
  written_as P (map (patch_line ("set JAVA_EXE=" ++ java_path ++ nl)) lines)
    chunks ->
  SignalCLISetupRest.setup H self w
  = (Returned (Some bat),
     World (<[bat := File (text_of chunks)]> (fs w5))
       (events w5 ++
          [EvLog (if existsb is_original_line lines
                  then "Successfully modified '" ++ bat ++ "'."
                  else "Line not found. No changes made to '" ++ bat ++ "'.");
           EvLog "Signal-cli setup complete";
           EvLog ("Signal-cli path: " ++ bat);
           EvLog ("Java path: " ++ java_path)])).
Proof.
  intros P zipped final bat Hdep Hsig Hasset Hzipped Hdownloaded Hextracted
    Hjava Hnonempty Hbat Hdecode Hopen lines Hchunks.
  unfold SignalCLISetupRest.setup.
  erewrite bind_Returned
    by (apply (create_directories_run H self w m1 m2); assumption).
  erewrite bind_Returned by
    (unfold SignalCLISetupRest.get_latest_release; run_prog;
     rewrite Hasset; reflexivity).
  cbv beta iota.
  erewrite bind_Returned by
    (apply download_signal_cli_present; exact Hdownloaded).
  fold P. fold zipped. rewrite (truthy_Some zipped Hzipped).
  cbn [default from_option id].
  erewrite bind_Returned by
    (apply extract_signal_cli_present; exact Hextracted).
  fold (release_directory H self zipped). fold final.
  fold (launcher_path H final). fold bat. cbv zeta.
  cbn [fs events]. rewrite <- !app_assoc. cbn [app].
  erewrite bind_Returned by exact Hjava.
  erewrite bind_Returned by
    (apply (modify_batch_file_run P w5 bat (Some java_path) raw text chunks);
     [exact Hbat | exact Hdecode | exact Hopen | exact Hchunks]).
  cbv zeta. fold lines. rewrite (truthy_Some java_path Hnonempty).
  run_prog. rewrite <- !app_assoc. reflexivity.
Qed.

Lemma setup_installed_sample :
  fst (SignalCLISetupRest.setup installed_host sample_setup installed_world)
  = Returned
      (Some "/opt/app/assets/signal-cli/signal-cli-1.0/bin/signal-cli.bat")
  /\ fs (snd (SignalCLISetupRest.setup installed_host sample_setup
                installed_world))
       !! "/opt/app/assets/signal-cli/signal-cli-1.0/bin/signal-cli.bat"
     = Some (File ("@echo off" ++ nl
                   ++ "set JAVA_EXE=/opt/app/assets/openjdk/jdk-17/bin/java.exe"
                   ++ nl ++ "echo done" ++ nl)).
Proof.
  rewrite (setup_returns_patched_launcher installed_host sample_setup
             installed_world
             (snd (SignalCLISetupRest.check_and_setup_java installed_host
                     sample_setup
                     (World (<["/opt/app/assets/signal-cli" := Dir]>
                               (<["/opt/app/assets" := Dir]> (fs installed_world)))
                        [EvLog "Creating dependencies directory";
                         EvLog "Getting latest signal-cli release";
                         EvLog "Downloading signal-cli";
                         EvLog "Signal-cli already downloaded";
                         EvLog "Signal-cli already extracted"])))
             (<["/opt/app/assets" := Dir]> (fs installed_world))
             (<["/opt/app/assets/signal-cli" := Dir]>
                (<["/opt/app/assets" := Dir]> (fs installed_world)))
             plain_asset "/opt/app/assets/openjdk/jdk-17/bin/java.exe"
             sample_script sample_script
             ["@echo off" ++ nl;
              "set JAVA_EXE=/opt/app/assets/openjdk/jdk-17/bin/java.exe" ++ nl;
              "echo done" ++ nl]).
  - split; [reflexivity|]. vm_compute. reflexivity.
  - reflexivity.
  - reflexivity.
  - reflexivity.
  - discriminate.
  - exists (File "TGZ-sample"). vm_compute. reflexivity.
  - exists Dir. vm_compute. reflexivity.
  - vm_compute. reflexivity.
  - discriminate.
  - vm_compute. reflexivity.
  - vm_compute. reflexivity.
  - vm_compute. reflexivity.
  - repeat (constructor; [vm_compute; reflexivity|]). constructor.
Defined.
